(** * MFRC522 contactless-card reader driver: model and verified properties

    Shallow embedding of the RFID driver of the Freenove starter kit
    (Code/C_Code/24.1.1_RFID): [src/mfrc522/mfrc522_hal_linux.c] (SPI
    transport), [src/mfrc522/mfrc522.c] (register access, transceive
    primitive, card protocol) and [src/mfrc522/mfrc522_debug.c] (the
    authenticated write / clean helpers of the interactive session).

    The chip is an external device: it is kept abstract behind the
    [SpiBus] interface, every SPI frame and every sleep is recorded on a
    bus log, and the driver functions are state transformers over
    [World].  Console output ([printf], [puts]) and the fatal
    [ioctl]-failure path of the transport are not part of the model.

    Conventions: integers are [Z] with the C conversions written out
    ([u8], [u16]); a [uint8_t] array is a [list Z] read with [load] and
    written with [store]; a function that writes through a pointer
    yields the new contents next to its return value; the value an
    uninitialised [uint16_t] local holds on entry is an explicit
    argument ([backLen0], [recvBits0], [unLen0]). *)

From Stdlib Require Import ZArith Lia Bool.
From stdpp Require Import base list gmap strings.

#[local] Open Scope Z_scope.

(** ** Machine integers and byte buffers *)

(** Conversion to [uint8_t] / [unsigned char]. *)
Definition u8 (x : Z) : Z := x mod 256.

(** Conversion to [uint16_t]. *)
Definition u16 (x : Z) : Z := x mod 65536.

(** [buf[i]] for a [uint8_t *buf].  A cell holds its value modulo 256; a
    read past the end of the array (undefined in C) yields 0. *)
Definition load (buf : list Z) (i : nat) : Z := u8 (default 0 (buf !! i)).

(** [buf[i] = v].  A store past the end of the array (undefined in C) is
    dropped. *)
Definition store (buf : list Z) (i : nat) (v : Z) : list Z := <[i := u8 v]> buf.

(** The array seen through the pointer [&buf[off]]. *)
Definition at_offset (off : nat) (buf : list Z) : list Z := drop off buf.

(** Writes made through [&buf[off]] land in [buf]. *)
Definition splice (off : nat) (buf view : list Z) : list Z := take off buf ++ view.

(** ** Constants of mfrc522.h *)

Definition MI_OK : Z := 0.
Definition MI_NOTAGERR : Z := -1.
Definition MI_ERR : Z := -2.

Definition PCD_IDLE : Z := 0x00.
Definition PCD_AUTHENT : Z := 0x0E.
Definition PCD_TRANSCEIVE : Z := 0x0C.
Definition PCD_RESETPHASE : Z := 0x0F.
Definition PCD_CALCCRC : Z := 0x03.

Definition PICC_REQIDL : Z := 0x26.
Definition PICC_ANTICOLL : Z := 0x93.
Definition PICC_SElECTTAG : Z := 0x93.
Definition PICC_AUTHENT1A : Z := 0x60.
Definition PICC_READ : Z := 0x30.
Definition PICC_WRITE : Z := 0xA0.
Definition PICC_HALT : Z := 0x50.
Definition PICC_CMD_WUPA : Z := 0x52.

Definition MFRC522_REG_COMMAND : Z := 0x01.
Definition MFRC522_REG_COMM_IE_N : Z := 0x02.
Definition MFRC522_REG_COMM_IRQ : Z := 0x04.
Definition MFRC522_REG_DIV_IRQ : Z := 0x05.
Definition MFRC522_REG_ERROR : Z := 0x06.
Definition MFRC522_REG_STATUS2 : Z := 0x08.
Definition MFRC522_REG_FIFO_DATA : Z := 0x09.
Definition MFRC522_REG_FIFO_LEVEL : Z := 0x0A.
Definition MFRC522_REG_CONTROL : Z := 0x0C.
Definition MFRC522_REG_BIT_FRAMING : Z := 0x0D.
Definition MFRC522_REG_TX_CONTROL : Z := 0x14.
Definition MFRC522_REG_CRC_RESULT_M : Z := 0x21.
Definition MFRC522_REG_CRC_RESULT_L : Z := 0x22.

Definition MFRC522_MAX_LEN : Z := 16.

Definition MFRC522_REG_MODE : Z := 0x11.
Definition MFRC522_REG_TX_AUTO : Z := 0x15.
Definition MFRC522_REG_RX_SELL : Z := 0x17.
Definition MFRC522_REG_RF_CFG : Z := 0x26.
Definition MFRC522_REG_T_MODE : Z := 0x2A.
Definition MFRC522_REG_T_PRESCALER : Z := 0x2B.
Definition MFRC522_REG_T_RELOAD_H : Z := 0x2C.
Definition MFRC522_REG_T_RELOAD_L : Z := 0x2D.

(** [PICC_TYPE_t]. *)
Definition PICC_TYPE_NOT_COMPLETE : Z := 0.
Definition PICC_TYPE_MIFARE_MINI : Z := 1.
Definition PICC_TYPE_MIFARE_1K : Z := 2.
Definition PICC_TYPE_MIFARE_4K : Z := 3.
Definition PICC_TYPE_MIFARE_UL : Z := 4.
Definition PICC_TYPE_MIFARE_PLUS : Z := 5.
Definition PICC_TYPE_TNP3XXX : Z := 6.
Definition PICC_TYPE_ISO_14443_4 : Z := 7.
Definition PICC_TYPE_ISO_18092 : Z := 8.
Definition PICC_TYPE_UNKNOWN : Z := 9.

(** ** mfrc522.c: functions that do not touch the bus *)

(** [MFRC522_Compare]: the loop over five bytes, entered at index [i]
    with [count] bytes to go, leaves at the first difference. *)
Fixpoint Compare_from (CardID CompareID : list Z) (i count : nat) : Z :=
  match count with
  | O => MI_OK
  | S c =>
    if negb (load CardID i =? load CompareID i) then MI_ERR
    else Compare_from CardID CompareID (S i) c
  end.

Definition MFRC522_Compare (CardID CompareID : list Z) : Z :=
  Compare_from CardID CompareID 0 5.

Definition PICC_TYPE_STRING : list string :=
  ["PICC_TYPE_NOT_COMPLETE"; "PICC_TYPE_MIFARE_MINI"; "PICC_TYPE_MIFARE_1K";
   "PICC_TYPE_MIFARE_4K"; "PICC_TYPE_MIFARE_UL"; "PICC_TYPE_MIFARE_PLUS";
   "PICC_TYPE_TNP3XXX"; "PICC_TYPE_ISO_14443_4"; "PICC_TYPE_ISO_18092";
   "PICC_TYPE_UNKNOWN"]%string.

(** [PICC_TYPE_STRING[type]]; an index outside the table (undefined in
    C) yields [None]. *)
Definition MFRC522_TypeToString (type : Z) : option string :=
  if type <? 0 then None else PICC_TYPE_STRING !! Z.to_nat type.

(** [MFRC522_ParseType(TagSelectRet)], the argument a [uint8_t]. *)
Definition MFRC522_ParseType (TagSelectRet : Z) : Z :=
  let t := u8 TagSelectRet in
  if negb (Z.land t 0x04 =? 0) then PICC_TYPE_NOT_COMPLETE
  else if t =? 0x09 then PICC_TYPE_MIFARE_MINI
  else if t =? 0x08 then PICC_TYPE_MIFARE_1K
  else if t =? 0x18 then PICC_TYPE_MIFARE_4K
  else if t =? 0x00 then PICC_TYPE_MIFARE_UL
  else if (t =? 0x10) || (t =? 0x11) then PICC_TYPE_MIFARE_PLUS
  else if t =? 0x01 then PICC_TYPE_TNP3XXX
  else if negb (Z.land t 0x20 =? 0) then PICC_TYPE_ISO_14443_4
  else if negb (Z.land t 0x40 =? 0) then PICC_TYPE_ISO_18092
  else PICC_TYPE_UNKNOWN.

(** ** The bus *)

(** What the driver needs from the transport: one two-byte full-duplex
    exchange ([ioctl(SPI_IOC_MESSAGE(1))] with [len = 2]) and [usleep]. *)
Class SpiBus (dev : Type) := {
  spi_xfer : Z * Z -> dev -> (Z * Z) * dev;
  bus_sleep : Z -> dev -> dev
}.

(** One entry of the bus log. *)
Inductive bus_event :=
| Xfer (tx0 tx1 rx0 rx1 : Z)
| Sleep (usec : Z).

(** First byte on the wire of a register read. *)
Definition read_frame (addr : Z) : Z := Z.lor (Z.land (Z.shiftl addr 1) 0xFE) 0x80.

(** First byte on the wire of a register write. *)
Definition write_frame (addr : Z) : Z := Z.land (Z.shiftl addr 1) 0x7E.

Definition is_xfer (e : bus_event) : bool :=
  match e with Xfer _ _ _ _ => true | Sleep _ => false end.

Definition is_read_of (addr : Z) (e : bus_event) : bool :=
  match e with Xfer tx0 _ _ _ => tx0 =? read_frame addr | Sleep _ => false end.

Definition is_write_of (addr : Z) (e : bus_event) : bool :=
  match e with Xfer tx0 _ _ _ => tx0 =? write_frame addr | Sleep _ => false end.

(** Number of entries of a log that satisfy [p]. *)
Fixpoint count_events (p : bus_event -> bool) (log : list bus_event) : nat :=
  match log with
  | [] => 0
  | e :: log' => (if p e then 1 else 0) + count_events p log'
  end.

(** Number of SPI exchanges on a log. *)
Definition transfers (log : list bus_event) : nat := count_events is_xfer log.

(** Number of reads of register [addr] on a log. *)
Definition reads_of (addr : Z) (log : list bus_event) : nat :=
  count_events (is_read_of addr) log.

(** Number of writes to register [addr] on a log. *)
Definition writes_of (addr : Z) (log : list bus_event) : nat :=
  count_events (is_write_of addr) log.

(** The byte a transfer brought back, as the driver reads it. *)
Definition rx_byte (e : bus_event) : Z :=
  match e with Xfer _ _ _ rx1 => u8 rx1 | Sleep _ => 0 end.

(** The bytes brought back by the [k] newest entries of a log, oldest
    first. *)
Definition last_received (k : nat) (log : list bus_event) : list Z :=
  rev (map rx_byte (take k log)).

Section Driver.

Context {dev : Type} `{!SpiBus dev}.

(** The state the driver runs in: the chip behind the bus, the log of
    everything that went over the bus (newest first) and the file-scope
    variable [Checking_Card] of mfrc522.c. *)
Record World := mkWorld {
  chip : dev;
  bus : list bus_event;
  Checking_Card : Z
}.

(** ** A state monad over [World] *)

Definition M (A : Type) : Type := World -> A * World.

Definition ret {A} (a : A) : M A := fun w => (a, w).

Definition bind {A B} (m : M A) (f : A -> M B) : M B :=
  fun w => let (a, w') := m w in f a w'.

#[local] Notation "x <- c1 ;; c2" := (bind c1 (fun x => c2))
  (at level 100, c1 at next level, right associativity).
#[local] Notation "'let*' p := c1 'in' c2" := (bind c1 (fun x => let 'p := x in c2))
  (at level 100, p pattern, c1 at next level, right associativity).
#[local] Notation "c1 ;; c2" := (bind c1 (fun _ => c2))
  (at level 100, right associativity).

(** [for (i = lo; i < lo + count; i++) a = body(i, a);] *)
Fixpoint for_range {A} (lo count : nat) (body : nat -> A -> M A) (a : A) : M A :=
  match count with
  | O => ret a
  | S c => a' <- body lo a ;; for_range (S lo) c body a'
  end.

(** ** mfrc522_hal_linux.c *)

Definition MFRC522_HAL_Delay (ms : Z) : M unit := fun w =>
  let us := ms * 1000 in
  (tt, {| chip := bus_sleep us (chip w);
          bus := Sleep us :: bus w;
          Checking_Card := Checking_Card w |}).

Definition MFRC522_HAL_write (addr val : Z) : M unit := fun w =>
  let tx0 := write_frame addr in
  let tx1 := u8 val in
  let '((rx0, rx1), c) := spi_xfer (tx0, tx1) (chip w) in
  (tt, {| chip := c;
          bus := Xfer tx0 tx1 rx0 rx1 :: bus w;
          Checking_Card := Checking_Card w |}).

Definition MFRC522_HAL_read (addr : Z) : M Z := fun w =>
  let tx0 := read_frame addr in
  let '((rx0, rx1), c) := spi_xfer (tx0, 0xFF) (chip w) in
  (u8 rx1, {| chip := c;
              bus := Xfer tx0 0xFF rx0 rx1 :: bus w;
              Checking_Card := Checking_Card w |}).

Definition set_Checking_Card (v : Z) : M unit := fun w =>
  (tt, {| chip := chip w; bus := bus w; Checking_Card := v |}).

Definition get_Checking_Card : M Z := fun w => (Checking_Card w, w).

(** ** mfrc522.c: register access *)

Definition MFRC522_WriteRegister (addr val : Z) : M unit :=
  MFRC522_HAL_write addr val.

Definition MFRC522_ReadRegister (addr : Z) : M Z :=
  MFRC522_HAL_read addr.

Definition MFRC522_SetBitMask (reg mask : Z) : M unit :=
  v <- MFRC522_ReadRegister reg ;;
  MFRC522_WriteRegister reg (Z.lor v mask).

Definition MFRC522_ClearBitMask (reg mask : Z) : M unit :=
  v <- MFRC522_ReadRegister reg ;;
  MFRC522_WriteRegister reg (Z.land v (Z.lnot mask)).

Definition MFRC522_AntennaOn : M unit :=
  temp <- MFRC522_ReadRegister MFRC522_REG_TX_CONTROL ;;
  if Z.land temp 0x03 =? 0
  then MFRC522_SetBitMask MFRC522_REG_TX_CONTROL 0x03
  else ret tt.

Definition MFRC522_AntennaOff : M unit :=
  MFRC522_ClearBitMask MFRC522_REG_TX_CONTROL 0x03.

Definition MFRC522_Reset : M unit :=
  MFRC522_WriteRegister MFRC522_REG_COMMAND PCD_RESETPHASE.

(** ** mfrc522.c: the transceive primitive [MFRC522_ToCard] *)

(** The [switch (command)] that picks [irqEn] and [waitIRq]. *)
Definition irq_masks (command : Z) : Z * Z :=
  if command =? PCD_AUTHENT then (0x12, 0x10)
  else if command =? PCD_TRANSCEIVE then (0x77, 0x30)
  else (0x00, 0x00).

(** The loop condition's flag part: [!(n & 0x01) && !(n & waitIRq)]
    fails, that is, the timer bit or a wait-mask bit is set in [n]. *)
Definition irq_fired (waitIRq n : Z) : bool :=
  negb (Z.land n 0x01 =? 0) || negb (Z.land n waitIRq =? 0).

(** The [do { ... i--; } while ((i != 0) && !(n & 0x01) && !(n & waitIRq))]
    loop, entered with the counter [i] equal to [S k]: one pass sleeps,
    reads the interrupt register into [n] and decrements the counter to
    [k].  The result is the pair of [i] and [n] at loop exit. *)
Fixpoint ToCard_poll (waitIRq : Z) (k : nat) : M (nat * Z) :=
  cc <- get_Checking_Card ;;
  MFRC522_HAL_Delay (if cc =? 0 then 20 else 16) ;;
  n <- MFRC522_ReadRegister MFRC522_REG_COMM_IRQ ;;
  match k with
  | O => ret (O, n)
  | S k' => if irq_fired waitIRq n then ret (k, n) else ToCard_poll waitIRq k'
  end.

(** Lines 179-210: arm the interrupts, load the FIFO, issue the command,
    poll with [i = 2000], clear StartSend.  Yields [i] and [n]. *)
Definition ToCard_start (command : Z) (sendData : list Z) (sendLen : Z)
  : M (nat * Z) :=
  let '(irqEn, waitIRq) := irq_masks command in
  MFRC522_WriteRegister MFRC522_REG_COMM_IE_N (Z.lor irqEn 0x80) ;;
  MFRC522_ClearBitMask MFRC522_REG_COMM_IRQ 0x80 ;;
  MFRC522_SetBitMask MFRC522_REG_FIFO_LEVEL 0x80 ;;
  MFRC522_WriteRegister MFRC522_REG_COMMAND PCD_IDLE ;;
  for_range 0 (Z.to_nat (u8 sendLen))
    (fun i _ => MFRC522_WriteRegister MFRC522_REG_FIFO_DATA (load sendData i)) tt ;;
  MFRC522_WriteRegister MFRC522_REG_COMMAND command ;;
  (if command =? PCD_TRANSCEIVE
   then MFRC522_SetBitMask MFRC522_REG_BIT_FRAMING 0x80
   else ret tt) ;;
  r <- ToCard_poll waitIRq 1999 ;;
  MFRC522_ClearBitMask MFRC522_REG_BIT_FRAMING 0x80 ;;
  ret r.

(** The received bit count stored in [*backLen] (a [uint16_t]). *)
Definition received_bits (n lastBits : Z) : Z :=
  if lastBits =? 0 then u16 (n * 8) else u16 ((n - 1) * 8 + lastBits).

(** The number of bytes read back from the FIFO. *)
Definition drain_count (n : Z) : Z :=
  let n := if n =? 0 then 1 else n in
  if n >? MFRC522_MAX_LEN then MFRC522_MAX_LEN else n.

(** Lines 222-240: FIFO level, last-bits count, [*backLen] and the drain
    of the FIFO into [backData]. *)
Definition ToCard_receive (backData : list Z) : M (list Z * Z) :=
  n <- MFRC522_ReadRegister MFRC522_REG_FIFO_LEVEL ;;
  ctl <- MFRC522_ReadRegister MFRC522_REG_CONTROL ;;
  let lastBits := Z.land ctl 0x07 in
  let backLen := received_bits n lastBits in
  backData <- for_range 0 (Z.to_nat (drain_count n))
      (fun i buf => v <- MFRC522_ReadRegister MFRC522_REG_FIFO_DATA ;;
                    ret (store buf i v)) backData ;;
  ret (backData, backLen).

(** [MFRC522_ToCard(command, sendData, sendLen, backData, backLen)].
    [backLen0] is the value [*backLen] holds on entry (the callers pass
    the address of an uninitialised local).  The result is the status
    with the final contents of [backData] and [*backLen]. *)
Definition MFRC522_ToCard (command : Z) (sendData : list Z) (sendLen : Z)
    (backData : list Z) (backLen0 : Z) : M (Z * list Z * Z) :=
  let '(irqEn, _) := irq_masks command in
  let* (i, n) := ToCard_start command sendData sendLen in
  match i with
  | O => ret (MI_ERR, backData, backLen0)
  | S _ =>
    err <- MFRC522_ReadRegister MFRC522_REG_ERROR ;;
    if Z.land err 0x1B =? 0 then
      let status :=
        if Z.land (Z.land n irqEn) 0x01 =? 0 then MI_OK else MI_NOTAGERR in
      if command =? PCD_TRANSCEIVE then
        let* (backData', backLen) := ToCard_receive backData in
        ret (status, backData', backLen)
      else ret (status, backData, backLen0)
    else ret (MI_ERR, backData, backLen0)
  end.

(** *** What one transaction observes

    The values the code reads on its way through [MFRC522_ToCard], as
    functions of the world the call starts in. *)

(** [i] and [n] when the poll loop is left. *)
Definition ToCard_poll_exit (command : Z) (sendData : list Z) (sendLen : Z)
    (w : World) : nat * Z :=
  (ToCard_start command sendData sendLen w).1.

(** The world once StartSend has been cleared (line 210). *)
Definition ToCard_polled (command : Z) (sendData : list Z) (sendLen : Z)
    (w : World) : World :=
  (ToCard_start command sendData sendLen w).2.

(** The error register as read on line 213. *)
Definition ToCard_error_reg (command : Z) (sendData : list Z) (sendLen : Z)
    (w : World) : Z :=
  (MFRC522_ReadRegister MFRC522_REG_ERROR (ToCard_polled command sendData sendLen w)).1.

(** The FIFO level as read on line 222. *)
Definition ToCard_fifo_level (command : Z) (sendData : list Z) (sendLen : Z)
    (w : World) : Z :=
  let w2 := (MFRC522_ReadRegister MFRC522_REG_ERROR
               (ToCard_polled command sendData sendLen w)).2 in
  (MFRC522_ReadRegister MFRC522_REG_FIFO_LEVEL w2).1.

(** [lastBits] as computed on line 223. *)
Definition ToCard_last_bits (command : Z) (sendData : list Z) (sendLen : Z)
    (w : World) : Z :=
  let w2 := (MFRC522_ReadRegister MFRC522_REG_ERROR
               (ToCard_polled command sendData sendLen w)).2 in
  let w3 := (MFRC522_ReadRegister MFRC522_REG_FIFO_LEVEL w2).2 in
  Z.land (MFRC522_ReadRegister MFRC522_REG_CONTROL w3).1 0x07.

(** ** mfrc522.c: the card protocol *)

(** Lines 140-144 of [MFRC522_Request]: short-frame mode, the one-byte
    request and its transceive.  [backBits0] is the entry value of the
    uninitialised local [backBits]. *)
Definition Request_exchange (reqMode : Z) (TagType : list Z) (backBits0 : Z)
  : M (Z * list Z * Z) :=
  MFRC522_WriteRegister MFRC522_REG_BIT_FRAMING 0x07 ;;
  let TagType := store TagType 0 reqMode in
  MFRC522_ToCard PCD_TRANSCEIVE TagType 1 TagType backBits0.

(** Yields the status and the contents of [TagType]. *)
Definition MFRC522_Request (reqMode : Z) (TagType : list Z) (backBits0 : Z)
  : M (Z * list Z) :=
  let* (status, TagType, backBits) := Request_exchange reqMode TagType backBits0 in
  if negb (status =? MI_OK) then ret (status, TagType)
  else if negb (backBits =? 0x10) then ret (MI_ERR, TagType)
  else ret (MI_OK, TagType).

(** [serNumCheck] after [for (i = 0; i < 4; i++) serNumCheck ^= serNum[i];]. *)
Definition serNumCheck (serNum : list Z) : Z :=
  foldl (fun chk i => u8 (Z.lxor chk (load serNum i))) 0 (seq 0 4).

(** Lines 256-260 of [MFRC522_Anticoll]: full-byte mode, the two-byte
    anti-collision command and its transceive. *)
Definition Anticoll_exchange (serNum : list Z) (unLen0 : Z) : M (Z * list Z * Z) :=
  MFRC522_WriteRegister MFRC522_REG_BIT_FRAMING 0x00 ;;
  let serNum := store serNum 0 PICC_ANTICOLL in
  let serNum := store serNum 1 0x20 in
  MFRC522_ToCard PCD_TRANSCEIVE serNum 2 serNum unLen0.

(** Yields the status and the contents of [serNum]. *)
Definition MFRC522_Anticoll (serNum : list Z) (unLen0 : Z) : M (Z * list Z) :=
  let* (status, serNum, unLen) := Anticoll_exchange serNum unLen0 in
  if status =? MI_OK then
    if negb (serNumCheck serNum =? load serNum 4)
    then ret (MI_ERR, serNum)
    else ret (status, serNum)
  else ret (status, serNum).

(** The FIFO level read by the transceive inside [MFRC522_Anticoll]. *)
Definition Anticoll_fifo_level (serNum : list Z) (w : World) : Z :=
  ToCard_fifo_level PCD_TRANSCEIVE
    (store (store serNum 0 PICC_ANTICOLL) 1 0x20) 2
    (MFRC522_WriteRegister MFRC522_REG_BIT_FRAMING 0x00 w).2.

(** [MFRC522_Check(id)].  Yields the status and the contents of [id]. *)
Definition MFRC522_Check (id : list Z) (backBits0 unLen0 : Z) : M (Z * list Z) :=
  MFRC522_ClearBitMask MFRC522_REG_STATUS2 (Z.shiftl 1 3) ;;
  set_Checking_Card 1 ;;
  let* (status, id) := MFRC522_Request PICC_CMD_WUPA id backBits0 in
  set_Checking_Card 0 ;;
  if status =? MI_OK then MFRC522_Anticoll id unLen0
  else ret (status, id).

(** The [do { n = ...; i--; } while ((i != 0) && !(n & 0x04))] loop of
    [MFRC522_CalculateCRC], entered with the [uint8_t] counter [i] equal
    to [S k].  The result is the pair of [i] and [n] at loop exit. *)
Fixpoint CalculateCRC_poll (k : nat) : M (nat * Z) :=
  n <- MFRC522_ReadRegister MFRC522_REG_DIV_IRQ ;;
  match k with
  | O => ret (O, n)
  | S k' => if negb (Z.land n 0x04 =? 0) then ret (k, n) else CalculateCRC_poll k'
  end.

(** Lines 278-293 of [MFRC522_CalculateCRC]: everything up to and
    including the wait loop (started with [i = 0xFF]). *)
Definition CalculateCRC_start (pIndata : list Z) (len : Z) : M (nat * Z) :=
  MFRC522_ClearBitMask MFRC522_REG_DIV_IRQ 0x04 ;;
  MFRC522_SetBitMask MFRC522_REG_FIFO_LEVEL 0x80 ;;
  for_range 0 (Z.to_nat (u8 len))
    (fun i _ => MFRC522_WriteRegister MFRC522_REG_FIFO_DATA (load pIndata i)) tt ;;
  MFRC522_WriteRegister MFRC522_REG_COMMAND PCD_CALCCRC ;;
  CalculateCRC_poll 254.

(** [MFRC522_CalculateCRC(pIndata, len, pOutData)]: a [void] function;
    the model yields the contents of [pOutData] afterwards.  All of
    [pIndata] is read before [pOutData] is written, so the callers'
    [pOutData = pIndata + len] is harmless. *)
Definition MFRC522_CalculateCRC (pIndata : list Z) (len : Z) (pOutData : list Z)
  : M (list Z) :=
  CalculateCRC_start pIndata len ;;
  lo <- MFRC522_ReadRegister MFRC522_REG_CRC_RESULT_L ;;
  let pOutData := store pOutData 0 lo in
  hi <- MFRC522_ReadRegister MFRC522_REG_CRC_RESULT_M ;;
  let pOutData := store pOutData 1 hi in
  ret pOutData.

(** [MFRC522_CalculateCRC(buf, len, &buf[len])], as every caller uses it. *)
Definition append_CRC (buf : list Z) (len : nat) : M (list Z) :=
  out <- MFRC522_CalculateCRC buf (Z.of_nat len) (at_offset len buf) ;;
  ret (splice len buf out).

(** [buf[off + i] = src[i]] for [i < count]. *)
Definition copy_bytes (buf : list Z) (off : nat) (src : list Z) (count : nat)
  : list Z :=
  foldl (fun b i => store b (off + i) (load src i)) buf (seq 0 count).

(** Lines 307-313 of [MFRC522_SelectTag]: the select frame and its
    transceive. *)
Definition SelectTag_exchange (serNum : list Z) (recvBits0 : Z)
  : M (Z * list Z * Z) :=
  let buffer := replicate 32 0 in
  let buffer := store buffer 0 PICC_SElECTTAG in
  let buffer := store buffer 1 0x70 in
  let buffer := copy_bytes buffer 2 serNum 5 in
  buffer <- append_CRC buffer 7 ;;
  MFRC522_ToCard PCD_TRANSCEIVE buffer 9 buffer recvBits0.

Definition MFRC522_SelectTag (serNum : list Z) (recvBits0 : Z) : M Z :=
  let* (status, buffer, recvBits) := SelectTag_exchange serNum recvBits0 in
  if (status =? MI_OK) && (recvBits =? 0x18)
  then ret (load buffer 0)
  else ret 0.

(** Lines 332-340 of [MFRC522_Auth]: the authentication frame and its
    transaction. *)
Definition Auth_exchange (authMode BlockAddr : Z) (Sectorkey serNum : list Z)
    (recvBits0 : Z) : M (Z * list Z * Z) :=
  let buff := replicate 12 0 in
  let buff := store buff 0 authMode in
  let buff := store buff 1 BlockAddr in
  let buff := copy_bytes buff 2 Sectorkey 6 in
  let buff := copy_bytes buff 8 serNum 4 in
  MFRC522_ToCard PCD_AUTHENT buff 12 buff recvBits0.

Definition MFRC522_Auth (authMode BlockAddr : Z) (Sectorkey serNum : list Z)
    (recvBits0 : Z) : M Z :=
  let* (status, _, _) := Auth_exchange authMode BlockAddr Sectorkey serNum recvBits0 in
  if negb (status =? MI_OK) then ret MI_ERR
  else
    st2 <- MFRC522_ReadRegister MFRC522_REG_STATUS2 ;;
    if Z.land st2 0x08 =? 0 then ret MI_ERR else ret status.

(** Lines 354-357 of [MFRC522_Read]: the read frame and its transceive. *)
Definition Read_exchange (blockAddr : Z) (recvData : list Z) (unLen0 : Z)
  : M (Z * list Z * Z) :=
  let recvData := store recvData 0 PICC_READ in
  let recvData := store recvData 1 blockAddr in
  recvData <- append_CRC recvData 2 ;;
  MFRC522_ToCard PCD_TRANSCEIVE recvData 4 recvData unLen0.

(** Yields the returned value and the contents of [recvData]. *)
Definition MFRC522_Read (blockAddr : Z) (recvData : list Z) (unLen0 : Z)
  : M (Z * list Z) :=
  let* (status, recvData, unLen) := Read_exchange blockAddr recvData unLen0 in
  if negb (status =? MI_OK) || negb (unLen =? 0x90)
  then ret (MI_ERR, recvData)
  else ret (unLen, recvData).

(** The code after the [ERROR:] label of [MFRC522_Write]. *)
Definition Write_ERROR (buff : list Z) (recvBits : Z) : Z :=
  if recvBits =? 4 then Z.land (load buff 0) 0x0F else MI_ERR.

(** The test guarding both [goto ERROR]s of [MFRC522_Write]. *)
Definition Write_nak (status : Z) (buff : list Z) (recvBits : Z) : bool :=
  negb (status =? MI_OK) || negb (recvBits =? 4)
  || negb (Z.land (load buff 0) 0x0F =? 0x0A).

(** Lines 372-375 of [MFRC522_Write]: the write command frame and its
    transceive. *)
Definition Write_command (blockAddr : Z) (recvBits0 : Z) : M (Z * list Z * Z) :=
  let buff := replicate 18 0 in
  let buff := store buff 0 PICC_WRITE in
  let buff := store buff 1 blockAddr in
  buff <- append_CRC buff 2 ;;
  MFRC522_ToCard PCD_TRANSCEIVE buff 4 buff recvBits0.

(** Lines 383-387 of [MFRC522_Write]: the data frame and its transceive. *)
Definition Write_data (buff writeData : list Z) (recvBits : Z)
  : M (Z * list Z * Z) :=
  let buff := copy_bytes buff 0 writeData 16 in
  buff <- append_CRC buff 16 ;;
  MFRC522_ToCard PCD_TRANSCEIVE buff 18 buff recvBits.

Definition MFRC522_Write (blockAddr : Z) (writeData : list Z) (recvBits0 : Z)
  : M Z :=
  let* (status, buff, recvBits) := Write_command blockAddr recvBits0 in
  if Write_nak status buff recvBits then ret (Write_ERROR buff recvBits)
  else if status =? MI_OK then
    let* (status, buff, recvBits) := Write_data buff writeData recvBits in
    if Write_nak status buff recvBits then ret (Write_ERROR buff recvBits)
    else ret MI_OK
  else ret MI_OK.

Definition MFRC522_Halt (unLen0 : Z) : M unit :=
  let buff := replicate 4 0 in
  let buff := store buff 0 PICC_HALT in
  let buff := store buff 1 0 in
  buff <- append_CRC buff 2 ;;
  MFRC522_ToCard PCD_TRANSCEIVE buff 4 buff unLen0 ;;
  ret tt.

(** ** mfrc522_debug.c *)

Definition SectorKeyA : list Z := [0xFF; 0xFF; 0xFF; 0xFF; 0xFF; 0xFF].

(** [blockaddr == 0 || (blockaddr % 4) == 0x03], with C's truncating [%]. *)
Definition control_block (blockaddr : Z) : bool :=
  (blockaddr =? 0) || (Z.rem blockaddr 4 =? 0x03).

(** [blockaddr] is the value of the [char] argument (0..255 where
    [char] is unsigned, as on the Raspberry Pi); [recvBits0] stands for
    the uninitialised [recvBits] of both callees. *)
Definition MFRC522_Debug_Clean (CardID : list Z) (blockaddr : Z) (recvBits0 : Z)
  : M Z :=
  r <- MFRC522_Auth PICC_AUTHENT1A (u8 blockaddr) SectorKeyA CardID recvBits0 ;;
  if r =? MI_OK then
    let buffer := replicate 16 0 in
    if control_block blockaddr then ret (-1)
    else
      r <- MFRC522_Write (u8 blockaddr) buffer recvBits0 ;;
      if r =? MI_OK then ret 0 else ret r
  else ret (-1).

(** [len] is the [int] argument; [memcpy] takes [len <= 16 ? len : 16]
    bytes (a negative [len] is undefined in C and copies nothing here). *)
Definition MFRC522_Debug_Write (CardID : list Z) (blockaddr : Z)
    (Write_Data : list Z) (len : Z) (recvBits0 : Z) : M Z :=
  r <- MFRC522_Auth PICC_AUTHENT1A (u8 blockaddr) SectorKeyA CardID recvBits0 ;;
  if r =? MI_OK then
    let buffer := replicate 16 0 in
    if control_block blockaddr then ret (-1)
    else
      let buffer :=
        copy_bytes buffer 0 Write_Data (Z.to_nat (if len <=? 16 then len else 16)) in
      r <- MFRC522_Write (u8 blockaddr) buffer recvBits0 ;;
      if r =? MI_OK then ret 0 else ret r
  else ret (-1).

(** ** mfrc522.c: the remaining bus functions *)

(** [MFRC522_WakeUp]: the source sends the same frame as [MFRC522_Halt]. *)
Definition MFRC522_WakeUp (unLen0 : Z) : M unit :=
  let buff := replicate 4 0 in
  let buff := store buff 0 PICC_HALT in
  let buff := store buff 1 0 in
  buff <- append_CRC buff 2 ;;
  MFRC522_ToCard PCD_TRANSCEIVE buff 4 buff unLen0 ;;
  ret tt.

(** Lines 35-68 of [MFRC522_Setup]: everything after the three wiringPi
    calls.  [Type_] is the [char] argument [Type]; [test] is a [char] compared
    with 0x3E, which it equals exactly when the byte read is 0x3E. *)
Definition Setup_registers (Type_ : Z) : M Z :=
  MFRC522_Reset ;;
  MFRC522_HAL_Delay 200 ;;
  MFRC522_WriteRegister MFRC522_REG_T_PRESCALER 0x3E ;;
  test <- MFRC522_ReadRegister MFRC522_REG_T_PRESCALER ;;
  if negb (test =? 0x3E) then ret (-1)
  else
    MFRC522_WriteRegister MFRC522_REG_T_MODE 0x8D ;;
    MFRC522_WriteRegister MFRC522_REG_T_PRESCALER 0x3E ;;
    MFRC522_WriteRegister MFRC522_REG_T_RELOAD_L 30 ;;
    MFRC522_WriteRegister MFRC522_REG_T_RELOAD_H 0 ;;
    MFRC522_WriteRegister MFRC522_REG_TX_AUTO 0x40 ;;
    MFRC522_WriteRegister MFRC522_REG_MODE 0x3D ;;
    (if Type_ =? 65 then
       MFRC522_ClearBitMask MFRC522_REG_STATUS2 0x08 ;;
       MFRC522_WriteRegister MFRC522_REG_MODE 0x3D ;;
       MFRC522_WriteRegister MFRC522_REG_RX_SELL 0x86 ;;
       MFRC522_WriteRegister MFRC522_REG_RF_CFG 0x7F ;;
       MFRC522_WriteRegister MFRC522_REG_T_RELOAD_L 30 ;;
       MFRC522_WriteRegister MFRC522_REG_T_RELOAD_H 0 ;;
       MFRC522_WriteRegister MFRC522_REG_T_MODE 0x8D ;;
       MFRC522_WriteRegister MFRC522_REG_T_PRESCALER 0x3E
     else ret tt) ;;
    MFRC522_AntennaOn ;;
    ret 0.

(** The CRC bytes [MFRC522_CalculateCRC(pIndata, len, ...)] reads from
    the result registers: low, high. *)
Definition CRC_result (pIndata : list Z) (len : Z) (w : World) : Z * Z :=
  let w1 := (CalculateCRC_start pIndata len w).2 in
  let lo := MFRC522_ReadRegister MFRC522_REG_CRC_RESULT_L w1 in
  let hi := MFRC522_ReadRegister MFRC522_REG_CRC_RESULT_M lo.2 in
  (lo.1, hi.1).

(** ** main.c *)


(** ** mfrc522_debug.c: the dump helpers *)

(** The [for (i = 0; i < (4 - block_addr % 4); i++)] loop of
    [MFRC522_Debug_DumpSector], entered at [i] with [count] passes to
    go: each pass reads block [block_addr + i] into [buffer + i * 16]
    and leaves the function on [ret <= 0].  Yields whether every read
    succeeded, with the buffer. *)
Fixpoint DumpSector_reads (block_addr : Z) (buffer : list Z) (unLen0 : Z)
    (i count : nat) : M (bool * list Z) :=
  match count with
  | O => ret (true, buffer)
  | S c =>
    let* (r, view) :=
      MFRC522_Read (u8 (block_addr + Z.of_nat i)) (at_offset (i * 16) buffer) unLen0 in
    let buffer := splice (i * 16) buffer view in
    if r <=? 0 then ret (false, buffer)
    else DumpSector_reads block_addr buffer unLen0 (S i) c
  end.

(** [block_addr] is the [uint8_t] argument. *)
Definition MFRC522_Debug_DumpSector (CardID : list Z) (block_addr : Z)
    (recvBits0 : Z) : M Z :=
  let block_addr := u8 block_addr in
  let buffer := replicate 1024 0 in
  r <- MFRC522_Auth PICC_AUTHENT1A block_addr SectorKeyA CardID recvBits0 ;;
  if r =? MI_OK then
    let* (ok, buffer) :=
      DumpSector_reads block_addr buffer recvBits0 0
        (Z.to_nat (4 - Z.rem block_addr 4)) in
    if ok then ret 0 else ret (-1)
  else ret (-1).

(** [for (i = 0x0; i < 0x40; i += 4) ret_int |= MFRC522_Debug_DumpSector(CardID, i);]
    with [i = 4 * k]. *)
Definition MFRC522_Debug_CardDump (CardID : list Z) (recvBits0 : Z) : M Z :=
  for_range 0 16
    (fun k ret_int =>
       r <- MFRC522_Debug_DumpSector CardID (4 * Z.of_nat k) recvBits0 ;;
       ret (Z.lor ret_int r)) 0.

(** The world in which [MFRC522_Check] runs its request: crypto bit
    cleared, [Checking_Card] set; and that request. *)
Definition Check_request (id : list Z) (backBits0 : Z) (w : World)
  : (Z * list Z) * World :=
  MFRC522_Request PICC_CMD_WUPA id backBits0
    (set_Checking_Card 1
       (MFRC522_ClearBitMask MFRC522_REG_STATUS2 (Z.shiftl 1 3) w).2).2.

(** The byte the self-test of [MFRC522_Setup] reads back (line 44). *)
Definition Setup_readback (w : World) : Z :=
  (MFRC522_ReadRegister MFRC522_REG_T_PRESCALER
     (MFRC522_WriteRegister MFRC522_REG_T_PRESCALER 0x3E
        (MFRC522_HAL_Delay 200 (MFRC522_Reset w).2).2).2).1.

End Driver.

Arguments World dev : clear implicits.
Arguments M dev A : clear implicits.

(** ** A scripted chip for concrete runs

    Every register has a queue of values its next reads return and a
    resting value returned once the queue is empty; writes and sleeps
    leave the chip as it is (the bus log still records them). *)
Record Scripted := mkScripted {
  script : gmap Z (list Z);
  resting : gmap Z Z
}.

Definition scripted_xfer (tx : Z * Z) (c : Scripted) : (Z * Z) * Scripted :=
  if Z.testbit (fst tx) 7 then
    let addr := Z.land (Z.shiftr (fst tx) 1) 0x3F in
    match script c !! addr with
    | Some (v :: rest) =>
        ((0, v), {| script := <[addr := rest]> (script c); resting := resting c |})
    | _ => ((0, default 0 (resting c !! addr)), c)
    end
  else ((0, 0), c).

#[export] Instance scripted_bus : SpiBus Scripted := {
  spi_xfer := scripted_xfer;
  bus_sleep := fun _ c => c
}.

(** A fresh world around a scripted chip. *)
Definition boot (queues : list (Z * list Z)) (rest : list (Z * Z)) : World Scripted :=
  {| chip := {| script := list_to_map queues; resting := list_to_map rest |};
     bus := [];
     Checking_Card := 0 |}.

(** ** mfrc522.c: [MFRC522_Setup] with its wiringPi calls *)

(** Calls into the wiringPi library. *)
Inductive gpio_event :=
| WiringPiSetup
| PinMode (pin mode : Z)
| DigitalWrite (pin value : Z).

(** The bus world with the log of wiringPi calls (newest first). *)
Record Board (dev : Type) := mkBoard {
  world : World dev;
  gpio : list gpio_event
}.
Arguments world {dev} _.
Arguments gpio {dev} _.
Arguments mkBoard {dev} _ _.

(** [wiringPiSetup(); pinMode(6, OUTPUT); digitalWrite(6, HIGH);] (in
    wiringPi.h both [OUTPUT] and [HIGH] are 1) then the register
    program. *)
Definition MFRC522_Setup {dev : Type} `{!SpiBus dev} (Type_ : Z) (b : Board dev)
  : Z * Board dev :=
  let g := DigitalWrite 6 1 :: PinMode 6 1 :: WiringPiSetup :: gpio b in
  let r := Setup_registers Type_ (world b) in
  (r.1, {| world := r.2; gpio := g |}).

(** Microseconds slept on a log. *)
Fixpoint slept (log : list bus_event) : Z :=
  match log with
  | [] => 0
  | Sleep us :: log' => us + slept log'
  | Xfer _ _ _ _ :: log' => slept log'
  end.

(** The register a frame byte addresses: bits 6..1. *)
Definition frame_address (tx0 : Z) : Z := Z.land (Z.shiftr tx0 1) 0x3F.

(** ** Outcome classification of a transaction *)

(** The status [MFRC522_ToCard] returns, as a function of the loop
    counter [i] and interrupt value [n] at loop exit and of the error
    register [err]: the counter decides first. *)
Definition ToCard_status (command : Z) (i : nat) (n err : Z) : Z :=
  if Nat.eqb i 0 then MI_ERR
  else if negb (Z.land err 0x1B =? 0) then MI_ERR
  else if negb (Z.land (Z.land n (irq_masks command).1) 0x01 =? 0) then MI_NOTAGERR
  else MI_OK.

(** The status in the specification's words: a generic error when the
    budget is exhausted without the timer bit or a wait-mask bit set,
    otherwise by error register and timer bit. *)
Definition spec_ToCard_status (command : Z) (i : nat) (n err : Z) : Z :=
  if Nat.eqb i 0 && negb (irq_fired (irq_masks command).2 n) then MI_ERR
  else if negb (Z.land err 0x1B =? 0) then MI_ERR
  else if negb (Z.land (Z.land n (irq_masks command).1) 0x01 =? 0) then MI_NOTAGERR
  else MI_OK.

(** The received bit count in the specification's words, over the
    integers. *)
Definition spec_received_bits (fifoLevel lastBits : Z) : Z :=
  if lastBits =? 0 then fifoLevel * 8 else (fifoLevel - 1) * 8 + lastBits.

(** [fifoLevel] clamped above by 16 and below by 1. *)
Definition spec_drain_count (fifoLevel : Z) : Z := Z.max 1 (Z.min 16 fifoLevel).

(** ** Concrete worlds *)

(** The values written to register [addr], oldest first. *)
Definition written_to (addr : Z) (log : list bus_event) : list Z :=
  rev (omap (fun e => match e with
                      | Xfer tx0 tx1 _ _ =>
                          if tx0 =? write_frame addr then Some tx1 else None
                      | Sleep _ => None
                      end) log).

(** How often [cmd] was written to the command register. *)
Definition issued (cmd : Z) (log : list bus_event) : nat :=
  count_occ Z.eq_dec (written_to MFRC522_REG_COMMAND log) cmd.

(** What [MFRC522_Read] of block [blockAddr] puts into the FIFO: the two
    bytes it has the CRC unit sum, then the frame with that CRC. *)
Definition read_request (blockAddr : Z) (crc : Z * Z) : list Z :=
  [PICC_READ; blockAddr; PICC_READ; blockAddr; crc.1; crc.2].

(** A chip whose interrupt register rests at [irq], whose CRC unit is
    always done, whose FIFO level and control registers rest at [level]
    and [ctl], and whose FIFO hands out [fifo] and then zeros. *)
Definition card (irq level ctl : Z) (fifo : list Z) (rest : list (Z * Z))
  : World Scripted :=
  boot [(MFRC522_REG_FIFO_DATA, fifo)]
       ([(MFRC522_REG_COMM_IRQ, irq); (MFRC522_REG_DIV_IRQ, 0x04);
         (MFRC522_REG_FIFO_LEVEL, level); (MFRC522_REG_CONTROL, ctl)] ++ rest).

(** The card answers on the very last poll: the interrupt register reads
    0 for the flag clear and for 1999 polls, then 0x30. *)
Definition w_last_poll : World Scripted :=
  boot [(MFRC522_REG_COMM_IRQ, repeat 0 2000 ++ [0x30])]
       [(MFRC522_REG_FIFO_LEVEL, 2); (MFRC522_REG_FIFO_DATA, 0x44)].

(** A card that answers at once with two full bytes. *)
Definition w_answer : World Scripted := card 0x30 2 0 [0x04; 0x00] [].

(** FIFO level 0 with five valid bits in the last byte. *)
Definition w_wrap : World Scripted := card 0x30 0 5 [] [].

(** Three bytes in the FIFO, the last with five valid bits. *)
Definition w_21 : World Scripted := card 0x30 3 5 [1; 2; 3] [].

(** Three full bytes in the FIFO: a select acknowledge of a 1K card. *)
Definition w_24 : World Scripted := card 0x30 3 0 [0x08; 0xB6; 0xDD] [].

(** A UID with its checksum, and the same with one checksum bit flipped. *)
Definition w_uid : World Scripted :=
  card 0x30 5 0 [0xDE; 0xAD; 0xBE; 0xEF; 0x22] [].
Definition w_uid_bad : World Scripted :=
  card 0x30 5 0 [0xDE; 0xAD; 0xBE; 0xEF; 0x23] [].

(** The CRC unit never raises its done flag. *)
Definition w_crc_stuck : World Scripted :=
  boot [] [(MFRC522_REG_CRC_RESULT_L, 0x34); (MFRC522_REG_CRC_RESULT_M, 0x12)].

(** No card in the field: only the timer interrupt fires. *)
Definition w_notag : World Scripted := card 0x01 0 0 [] [].

(** The chip reports a parity error. *)
Definition w_chip_error : World Scripted :=
  card 0x30 0 0 [] [(MFRC522_REG_ERROR, 0x08)].

(** Authentication goes through: idle interrupt, crypto bit set. *)
Definition w_auth : World Scripted := card 0x10 0 0 [] [(MFRC522_REG_STATUS2, 0x08)].

(** Authentication transaction completes but the crypto bit stays clear. *)
Definition w_auth_refused : World Scripted := card 0x10 0 0 [] [].

(** The card answers the write command with a 4-bit reply 0x0. *)
Definition w_nak1 : World Scripted := card 0x30 1 4 [0x00] [].

(** The card acknowledges the write command (0xA) and answers the data
    frame with a 4-bit reply 0x0. *)
Definition w_nak2 : World Scripted := card 0x30 1 4 [0x0A; 0x00] [].

(** A card in the field for [MFRC522_Check]: the FIFO level reads 2 for
    the answer to the request and 5 for the UID (each transaction also
    reads the level once when it flushes the FIFO). *)
Definition w_present : World Scripted :=
  boot [(MFRC522_REG_FIFO_DATA, [0x04; 0x00; 0xDE; 0xAD; 0xBE; 0xEF; 0x22]);
        (MFRC522_REG_FIFO_LEVEL, [0; 2; 0; 5])]
       [(MFRC522_REG_COMM_IRQ, 0x30); (MFRC522_REG_DIV_IRQ, 0x04)].


(** An authenticated card that answers every read with 18 bytes. *)
Definition w_dump : World Scripted :=
  card 0x30 18 0 [] [(MFRC522_REG_STATUS2, 0x08)].

(** The transmitter drivers already on. *)
Definition w_antenna_on : World Scripted :=
  boot [] [(MFRC522_REG_TX_CONTROL, 0x83)].

(** A chip that holds what is written to its timer prescaler, and one
    that reads back 0 everywhere. *)
Definition board_alive : Board Scripted :=
  {| world := boot [] [(MFRC522_REG_T_PRESCALER, 0x3E)]; gpio := [] |}.
Definition board_dead : Board Scripted := {| world := boot [] []; gpio := [] |}.

(** A parity error during the authentication although the crypto bit
    reads as set. *)
Definition w_auth_chip_error : World Scripted :=
  card 0x10 0 0 [] [(MFRC522_REG_ERROR, 0x08); (MFRC522_REG_STATUS2, 0x08)].

(** The card answers the anti-collision command with a single byte. *)
Definition w_short_uid : World Scripted := card 0x30 1 0 [0x20] [].

(** The write command is acknowledged (0xA); the chip then reports a
    parity error on the data frame. *)
Definition w_data_error : World Scripted :=
  boot [(MFRC522_REG_FIFO_DATA, [0x0A]); (MFRC522_REG_ERROR, [0x00; 0x08])]
       [(MFRC522_REG_COMM_IRQ, 0x30); (MFRC522_REG_DIV_IRQ, 0x04);
        (MFRC522_REG_FIFO_LEVEL, 1); (MFRC522_REG_CONTROL, 4)].

(** Only the timer interrupt fires, with four bits 0x5 in the FIFO. *)
Definition w_notag_nibble : World Scripted := card 0x01 1 4 [0x05] [].

(** The write command is acknowledged (0xA); on the data frame only the
    timer interrupt fires, with four bits 0x5 in the FIFO.  (Each
    transaction reads the interrupt register once to clear it and then
    polls it.) *)
Definition w_data_notag : World Scripted :=
  boot [(MFRC522_REG_FIFO_DATA, [0x0A; 0x05]);
        (MFRC522_REG_COMM_IRQ, [0x00; 0x30; 0x00; 0x01])]
       [(MFRC522_REG_COMM_IRQ, 0x01); (MFRC522_REG_DIV_IRQ, 0x04);
        (MFRC522_REG_FIFO_LEVEL, 1); (MFRC522_REG_CONTROL, 4)].

(** Buffers and arguments of the concrete runs. *)
Definition reqa : list Z := [PICC_REQIDL].
Definition uid : list Z := [0xDE; 0xAD; 0xBE; 0xEF; 0x22].
Definition block16 : list Z := replicate 16 0x07.
Definition buf18 : list Z := replicate 18 0.
(** The authentication frame for block 4 with key A and [uid]. *)
Definition auth_a4 : list Z :=
  [PICC_AUTHENT1A; 4; 0xFF; 0xFF; 0xFF; 0xFF; 0xFF; 0xFF; 0xDE; 0xAD; 0xBE; 0xEF].

(** ** Properties *)

Section Properties.

Context {dev : Type} `{!SpiBus dev}.

#[local] Abbreviation World := (World dev).
#[local] Abbreviation M := (M dev).

(** *** The monad *)

Lemma bind_run {A B} (m : M A) (f : A -> M B) (w : World) :
  bind m f w = f (m w).1 (m w).2.
Proof. unfold bind. destruct (m w); reflexivity. Qed.

Lemma ret_run {A} (a : A) (w : World) : ret a w = (a, w).
Proof. reflexivity. Qed.

(** *** The poll loop *)

Lemma ToCard_poll_exit_fired waitIRq k w :
  let e := (ToCard_poll waitIRq k w).1 in
  (e.1 <= k)%nat /\ (e.1 <> 0%nat -> irq_fired waitIRq e.2 = true).
Proof.
  revert w. induction k as [|k IH]; intros w; cbn zeta.
  - cbn [ToCard_poll]. rewrite !bind_run, ret_run. cbn. split; [lia | congruence].
  - cbn [ToCard_poll]. rewrite !bind_run.
    destruct (irq_fired waitIRq _) eqn:Hf.
    + rewrite ret_run. cbn. split; [lia | intros _; exact Hf].
    + specialize (IH ((MFRC522_ReadRegister MFRC522_REG_COMM_IRQ
         (MFRC522_HAL_Delay (if (get_Checking_Card w).1 =? 0 then 20 else 16)
            (get_Checking_Card w).2).2).2)).
      cbn zeta in IH. destruct IH as [IH1 IH2]. split; [lia | exact IH2].
Qed.

Lemma ToCard_start_result command sendData sendLen w :
  exists w0, ToCard_poll_exit command sendData sendLen w
             = (ToCard_poll (irq_masks command).2 1999 w0).1.
Proof.
  unfold ToCard_poll_exit, ToCard_start.
  destruct (irq_masks command) as [irqEn waitIRq].
  rewrite !bind_run, ret_run. cbn [fst snd]. eexists. reflexivity.
Qed.

(** *** Counting register reads on the bus log *)

Lemma write_frame_not_read a b : write_frame a <> read_frame b.
Proof.
  unfold write_frame, read_frame. intros E.
  apply (f_equal (fun x => Z.testbit x 7)) in E.
  rewrite Z.land_spec, Z.lor_spec in E.
  change (Z.testbit 126 7) with false in E.
  change (Z.testbit 128 7) with true in E.
  rewrite andb_false_r, orb_true_r in E. discriminate.
Qed.

Lemma reads_of_WriteRegister addr a v w :
  reads_of addr (bus (MFRC522_WriteRegister a v w).2) = reads_of addr (bus w).
Proof.
  unfold MFRC522_WriteRegister, MFRC522_HAL_write.
  destruct (spi_xfer _ _) as [[rx0 rx1] c]. cbn.
  destruct (Z.eqb_spec (write_frame a) (read_frame addr)) as [E|_]; [| reflexivity].
  destruct (write_frame_not_read _ _ E).
Qed.

Lemma reads_of_ReadRegister addr a w :
  reads_of addr (bus (MFRC522_ReadRegister a w).2)
  = ((if (read_frame a =? read_frame addr)%Z then 1 else 0) + reads_of addr (bus w))%nat.
Proof.
  unfold MFRC522_ReadRegister, MFRC522_HAL_read.
  destruct (spi_xfer _ _) as [[rx0 rx1] c]. reflexivity.
Qed.

Lemma reads_of_Delay addr ms w :
  reads_of addr (bus (MFRC522_HAL_Delay ms w).2) = reads_of addr (bus w).
Proof. reflexivity. Qed.

Lemma reads_of_SetBitMask addr reg mask w :
  reads_of addr (bus (MFRC522_SetBitMask reg mask w).2)
  = ((if (read_frame reg =? read_frame addr)%Z then 1 else 0) + reads_of addr (bus w))%nat.
Proof.
  unfold MFRC522_SetBitMask. rewrite bind_run, reads_of_WriteRegister.
  apply reads_of_ReadRegister.
Qed.

Lemma reads_of_ClearBitMask addr reg mask w :
  reads_of addr (bus (MFRC522_ClearBitMask reg mask w).2)
  = ((if (read_frame reg =? read_frame addr)%Z then 1 else 0) + reads_of addr (bus w))%nat.
Proof.
  unfold MFRC522_ClearBitMask. rewrite bind_run, reads_of_WriteRegister.
  apply reads_of_ReadRegister.
Qed.

(** A loop whose every pass adds [c] reads of [addr] adds [count * c]. *)
Lemma reads_of_for_range {A} addr c (body : nat -> A -> M A) :
  (forall i a w, reads_of addr (bus (body i a w).2) = (c + reads_of addr (bus w))%nat) ->
  forall count lo a w,
    reads_of addr (bus (for_range lo count body a w).2)
    = (count * c + reads_of addr (bus w))%nat.
Proof.
  intros Hbody. induction count as [|count IH]; intros lo a w.
  - reflexivity.
  - cbn [for_range]. rewrite bind_run, IH, Hbody. lia.
Qed.

Lemma reads_of_fifo_write addr (data : list Z) count w :
  reads_of addr
    (bus (for_range 0 count
            (fun i _ => MFRC522_WriteRegister MFRC522_REG_FIFO_DATA (load data i))
            tt w).2)
  = reads_of addr (bus w).
Proof.
  rewrite (reads_of_for_range addr 0%nat).
  - lia.
  - intros i a w'. apply reads_of_WriteRegister.
Qed.

Lemma reads_of_ToCard_poll addr waitIRq k w :
  reads_of addr (bus (ToCard_poll waitIRq k w).2)
  = ((if (read_frame MFRC522_REG_COMM_IRQ =? read_frame addr)%Z
      then S k - (ToCard_poll waitIRq k w).1.1 else 0)
     + reads_of addr (bus w))%nat.
Proof.
  revert w. induction k as [|k IH]; intros w.
  - cbn [ToCard_poll]. rewrite !bind_run, ret_run. cbn [fst snd].
    rewrite reads_of_ReadRegister, reads_of_Delay. cbn [get_Checking_Card snd].
    destruct (_ =? read_frame addr); reflexivity.
  - cbn [ToCard_poll]. rewrite !bind_run.
    destruct (irq_fired waitIRq _) eqn:Hf.
    + rewrite ret_run. cbn [fst snd].
      rewrite reads_of_ReadRegister, reads_of_Delay. cbn [get_Checking_Card snd].
      destruct (_ =? read_frame addr); [| reflexivity].
      replace (S (S k) - S k)%nat with 1%nat by lia. reflexivity.
    + rewrite IH, reads_of_ReadRegister, reads_of_Delay.
      cbn [get_Checking_Card snd fst].
      destruct (_ =? read_frame addr); [| reflexivity].
      match goal with
      | |- context [(ToCard_poll waitIRq k ?w').1.1] =>
          pose proof (proj1 (ToCard_poll_exit_fired waitIRq k w')) as Hle
      end.
      cbn zeta in Hle. lia.
Qed.

(** Decide comparisons of wire bytes of known registers. *)
Ltac frame_cmp :=
  repeat match goal with
  | |- context [read_frame ?a =? read_frame ?b] =>
      let v := eval vm_compute in (read_frame a =? read_frame b) in
      lazymatch v with
      | true => change (read_frame a =? read_frame b) with true
      | false => change (read_frame a =? read_frame b) with false
      end
  end.

(** Push [reads_of] through straight-line driver code. *)
Ltac count_reads :=
  repeat first
    [ rewrite bind_run
    | rewrite ret_run
    | rewrite reads_of_WriteRegister
    | rewrite reads_of_ReadRegister
    | rewrite reads_of_SetBitMask
    | rewrite reads_of_ClearBitMask
    | rewrite reads_of_Delay
    | rewrite reads_of_fifo_write
    | rewrite reads_of_ToCard_poll
    | progress cbn [fst snd] ];
  frame_cmp; cbv iota.

(** The poll loop reads the interrupt register [2000 - i] times (the
    flag clear before it reads it once more). *)
Lemma ToCard_start_polls command sendData sendLen w :
  reads_of MFRC522_REG_COMM_IRQ (bus (ToCard_polled command sendData sendLen w))
  = (reads_of MFRC522_REG_COMM_IRQ (bus w) + 1
     + (2000 - (ToCard_poll_exit command sendData sendLen w).1))%nat.
Proof.
  unfold ToCard_polled, ToCard_poll_exit, ToCard_start.
  destruct (irq_masks command) as [irqEn waitIRq].
  destruct (command =? PCD_TRANSCEIVE); count_reads; cbn [fst snd]; lia.
Qed.

(** Nothing is read from the FIFO before the drain. *)
Lemma ToCard_start_no_fifo_read command sendData sendLen w :
  reads_of MFRC522_REG_FIFO_DATA (bus (ToCard_polled command sendData sendLen w))
  = reads_of MFRC522_REG_FIFO_DATA (bus w).
Proof.
  unfold ToCard_polled, ToCard_start.
  destruct (irq_masks command) as [irqEn waitIRq].
  destruct (command =? PCD_TRANSCEIVE); count_reads; reflexivity.
Qed.

(** *** The transceive primitive, step by step *)

Lemma ToCard_run command sendData sendLen backData backLen0 w :
  MFRC522_ToCard command sendData sendLen backData backLen0 w
  = let e := ToCard_poll_exit command sendData sendLen w in
    let w1 := ToCard_polled command sendData sendLen w in
    match e.1 with
    | O => ((MI_ERR, backData, backLen0), w1)
    | S _ =>
      let rd := MFRC522_ReadRegister MFRC522_REG_ERROR w1 in
      if Z.land rd.1 0x1B =? 0 then
        let status :=
          if Z.land (Z.land e.2 (irq_masks command).1) 0x01 =? 0
          then MI_OK else MI_NOTAGERR in
        if command =? PCD_TRANSCEIVE then
          let rc := ToCard_receive backData rd.2 in
          ((status, rc.1.1, rc.1.2), rc.2)
        else ((status, backData, backLen0), rd.2)
      else ((MI_ERR, backData, backLen0), rd.2)
    end.
Proof.
  unfold MFRC522_ToCard, ToCard_polled, ToCard_poll_exit. cbn zeta.
  destruct (irq_masks command) as [irqEn waitIRq]. rewrite bind_run.
  destruct (ToCard_start command sendData sendLen w) as [[i n] w1].
  cbn [fst snd]. destruct i as [|i]; [reflexivity |].
  rewrite bind_run. destruct (Z.land _ 27 =? 0); [| reflexivity].
  destruct (command =? PCD_TRANSCEIVE); [| reflexivity].
  rewrite bind_run. destruct (ToCard_receive backData _) as [[bd bl] w3].
  reflexivity.
Qed.

Lemma ToCard_status_eq command sendData sendLen backData backLen0 w :
  (MFRC522_ToCard command sendData sendLen backData backLen0 w).1.1.1
  = ToCard_status command
      (ToCard_poll_exit command sendData sendLen w).1
      (ToCard_poll_exit command sendData sendLen w).2
      (ToCard_error_reg command sendData sendLen w).
Proof.
  rewrite ToCard_run. unfold ToCard_status, ToCard_error_reg. cbn zeta.
  destruct (ToCard_poll_exit command sendData sendLen w).1 as [|i]; [reflexivity |].
  cbn [Nat.eqb].
  destruct (Z.land _ 27 =? 0); cbn [negb]; [| reflexivity].
  destruct (command =? PCD_TRANSCEIVE);
    destruct (Z.land (Z.land _ _) 1 =? 0); reflexivity.
Qed.

Lemma ToCard_status_ok_inv command i n err :
  ToCard_status command i n err = MI_OK ->
  i <> 0%nat /\ Z.land err 0x1B = 0
  /\ Z.land (Z.land n (irq_masks command).1) 0x01 = 0.
Proof.
  unfold ToCard_status. destruct i as [|i]; cbn [Nat.eqb]; [discriminate |].
  destruct (Z.eqb_spec (Z.land err 27) 0) as [He|]; cbn [negb]; [| discriminate].
  destruct (Z.eqb_spec (Z.land (Z.land n (irq_masks command).1) 1) 0) as [Hn|];
    cbn [negb]; [| discriminate].
  intros _. auto.
Qed.

Lemma ToCard_status_agrees command i n err :
  i <> 0%nat \/ irq_fired (irq_masks command).2 n = false ->
  ToCard_status command i n err = spec_ToCard_status command i n err.
Proof.
  unfold ToCard_status, spec_ToCard_status. intros [Hi | Hn].
  - destruct i; [congruence | reflexivity].
  - rewrite Hn. destruct i; reflexivity.
Qed.

(** *** C1 *)

(** C1 (as amended).  The status of [MFRC522_ToCard] is decided by the
    loop counter first: when the poll loop ends with its counter at zero
    (2000 polls were made) the result is [MI_ERR] with [backData] and
    [*backLen] untouched, whatever the last poll read; when the loop is
    left early a flag bit was seen, and the status is [MI_ERR] if an
    error-register bit under 0x1B is set, else [MI_NOTAGERR] if
    [n & irqEn] has bit 0 set, else [MI_OK].  This is the specification's
    classification except when the flag shows up on the very last poll. *)
Theorem ToCard_status_by_counter command sendData sendLen backData backLen0 w :
  let r := MFRC522_ToCard command sendData sendLen backData backLen0 w in
  let e := ToCard_poll_exit command sendData sendLen w in
  let err := ToCard_error_reg command sendData sendLen w in
  let w1 := ToCard_polled command sendData sendLen w in
  r.1.1.1 = ToCard_status command e.1 e.2 err
  /\ reads_of MFRC522_REG_COMM_IRQ (bus w1)
     = (reads_of MFRC522_REG_COMM_IRQ (bus w) + 1 + (2000 - e.1))%nat
  /\ (e.1 = 0%nat -> r = ((MI_ERR, backData, backLen0), w1))
  /\ (e.1 <> 0%nat -> irq_fired (irq_masks command).2 e.2 = true)
  /\ (e.1 <> 0%nat \/ irq_fired (irq_masks command).2 e.2 = false ->
      r.1.1.1 = spec_ToCard_status command e.1 e.2 err).
Proof.
  cbn zeta. split; [apply ToCard_status_eq |].
  split; [apply ToCard_start_polls |]. split; [| split].
  - rewrite ToCard_run. cbn zeta. intros ->. reflexivity.
  - destruct (ToCard_start_result command sendData sendLen w) as [w0 ->].
    apply ToCard_poll_exit_fired.
  - intros H. rewrite ToCard_status_eq. apply ToCard_status_agrees. exact H.
Qed.

(** *** The receive phase *)

Lemma u8_range x : 0 <= u8 x < 256.
Proof. unfold u8. apply Z.mod_pos_bound. lia. Qed.

Lemma u8_small x : 0 <= x < 256 -> u8 x = x.
Proof. unfold u8. intros. apply Z.mod_small. assumption. Qed.

Lemma u8_idem x : u8 (u8 x) = u8 x.
Proof. apply u8_small, u8_range. Qed.

Lemma ReadRegister_range a w : 0 <= (MFRC522_ReadRegister a w).1 < 256.
Proof.
  unfold MFRC522_ReadRegister, MFRC522_HAL_read.
  destruct (spi_xfer _ _) as [[rx0 rx1] c]. apply u8_range.
Qed.

Lemma ReadRegister_bus a w :
  exists rx0 rx1,
    bus (MFRC522_ReadRegister a w).2 = Xfer (read_frame a) 0xFF rx0 rx1 :: bus w
    /\ (MFRC522_ReadRegister a w).1 = u8 rx1.
Proof.
  unfold MFRC522_ReadRegister, MFRC522_HAL_read.
  destruct (spi_xfer _ _) as [[rx0 rx1] c]. eauto.
Qed.

Lemma land_7_range x : 0 <= Z.land x 0x07 < 8.
Proof.
  change 7 with (Z.ones 3). rewrite Z.land_ones by lia.
  apply Z.mod_pos_bound. lia.
Qed.

Lemma received_bits_spec n lastBits :
  0 <= n < 256 -> 0 <= lastBits < 8 -> 1 <= n \/ lastBits = 0 ->
  received_bits n lastBits = spec_received_bits n lastBits.
Proof.
  intros Hn Hl Hor. unfold received_bits, spec_received_bits, u16.
  destruct (Z.eqb_spec lastBits 0); apply Z.mod_small; lia.
Qed.

Lemma drain_count_spec n : 0 <= n -> drain_count n = spec_drain_count n.
Proof.
  intros Hn. unfold drain_count, spec_drain_count, MFRC522_MAX_LEN.
  destruct (Z.eqb_spec n 0) as [->|]; [reflexivity |].
  destruct (Z.gtb_spec n 16); lia.
Qed.

(** The drain loop: [count] reads of the FIFO register, whose bytes go
    to [buf[lo .. lo + count - 1]]. *)
Lemma drain_loop count : forall lo (buf : list Z) w,
  (lo + count <= length buf)%nat ->
  let r := for_range lo count
             (fun i b => bind (MFRC522_ReadRegister MFRC522_REG_FIFO_DATA)
                           (fun v => ret (store b i v))) buf w in
  exists new,
    bus r.2 = new ++ bus w /\ length new = count
    /\ r.1 = take lo buf ++ rev (map rx_byte new) ++ drop (lo + count) buf.
Proof.
  induction count as [|count IH]; intros lo buf w Hlen; cbn zeta.
  - exists []. cbn [for_range]. rewrite ret_run. cbn [fst snd app length rev map].
    rewrite Nat.add_0_r, take_drop. auto.
  - cbn [for_range]. rewrite !bind_run, ret_run. cbn [fst snd].
    destruct (ReadRegister_bus MFRC522_REG_FIFO_DATA w) as (rx0 & rx1 & Hbus & Hv).
    set (w1 := (MFRC522_ReadRegister MFRC522_REG_FIFO_DATA w).2) in *.
    rewrite Hv.
    assert (Hs : store buf lo (u8 rx1) = <[lo := u8 rx1]> buf)
      by (unfold store; rewrite u8_idem; reflexivity).
    rewrite Hs.
    destruct (IH (S lo) (<[lo := u8 rx1]> buf) w1) as (new & Hb & Hl & Hr).
    { rewrite length_insert. lia. }
    cbn zeta in Hb, Hr.
    exists (new ++ [Xfer (read_frame MFRC522_REG_FIFO_DATA) 255 rx0 rx1]).
    split; [| split].
    + rewrite Hb, Hbus, <- app_assoc. reflexivity.
    + rewrite length_app, Hl. cbn. lia.
    + rewrite Hr. rewrite List.map_app, rev_app_distr. cbn [map rev app rx_byte].
      rewrite drop_insert_lt by lia.
      rewrite (take_S_r _ lo (u8 rx1)) by (apply list_lookup_insert_eq; lia).
      rewrite take_insert_ge by lia.
      rewrite <- app_assoc. cbn [app].
      replace (S lo + count)%nat with (lo + S count)%nat by lia. reflexivity.
Qed.

Lemma ToCard_receive_bits backData w :
  (ToCard_receive backData w).1.2
  = received_bits (MFRC522_ReadRegister MFRC522_REG_FIFO_LEVEL w).1
      (Z.land (MFRC522_ReadRegister MFRC522_REG_CONTROL
                 (MFRC522_ReadRegister MFRC522_REG_FIFO_LEVEL w).2).1 0x07).
Proof.
  unfold ToCard_receive. rewrite !bind_run, ret_run. reflexivity.
Qed.

Lemma ToCard_receive_reads backData w :
  reads_of MFRC522_REG_FIFO_DATA (bus (ToCard_receive backData w).2)
  = (reads_of MFRC522_REG_FIFO_DATA (bus w)
     + Z.to_nat (drain_count (MFRC522_ReadRegister MFRC522_REG_FIFO_LEVEL w).1))%nat.
Proof.
  unfold ToCard_receive. rewrite !bind_run, ret_run. cbn [fst snd].
  rewrite (reads_of_for_range MFRC522_REG_FIFO_DATA 1%nat).
  - count_reads. lia.
  - intros i a w'. count_reads. reflexivity.
Qed.

Lemma ToCard_receive_data backData w :
  let r := ToCard_receive backData w in
  let k := Z.to_nat (drain_count (MFRC522_ReadRegister MFRC522_REG_FIFO_LEVEL w).1) in
  (k <= length backData)%nat ->
  length (last_received k (bus r.2)) = k
  /\ r.1.1 = last_received k (bus r.2) ++ drop k backData.
Proof.
  cbn zeta. intros Hk. unfold ToCard_receive. rewrite !bind_run, ret_run.
  cbn [fst snd].
  match goal with
  | |- context [for_range 0 ?c ?body backData ?w'] =>
      destruct (drain_loop c 0 backData w' Hk) as (new & Hb & Hl & Hr)
  end.
  cbn zeta in Hb, Hr. rewrite Hr, Hb. unfold last_received.
  rewrite take_app_length' by (symmetry; exact Hl). rewrite take_0.
  split; [| reflexivity].
  rewrite length_rev, length_map. exact Hl.
Qed.

(** What a successful transceive-command transaction leaves behind. *)
Lemma ToCard_ok_reply sendData sendLen backData backLen0 w :
  let r := MFRC522_ToCard PCD_TRANSCEIVE sendData sendLen backData backLen0 w in
  let fifoLevel := ToCard_fifo_level PCD_TRANSCEIVE sendData sendLen w in
  let lastBits := ToCard_last_bits PCD_TRANSCEIVE sendData sendLen w in
  let k := Z.to_nat (drain_count fifoLevel) in
  r.1.1.1 = MI_OK ->
  0 <= fifoLevel < 256
  /\ r.1.2 = received_bits fifoLevel lastBits
  /\ reads_of MFRC522_REG_FIFO_DATA (bus r.2)
     = (reads_of MFRC522_REG_FIFO_DATA (bus w) + k)%nat
  /\ ((k <= length backData)%nat ->
      length (last_received k (bus r.2)) = k
      /\ r.1.1.2 = last_received k (bus r.2) ++ drop k backData).
Proof.
  cbn zeta. intros Hok. rewrite ToCard_status_eq in Hok.
  apply ToCard_status_ok_inv in Hok. destruct Hok as (Hi & Herr & _).
  unfold ToCard_error_reg in Herr.
  unfold ToCard_fifo_level, ToCard_last_bits. cbn zeta.
  rewrite ToCard_run. cbn zeta.
  destruct (ToCard_poll_exit PCD_TRANSCEIVE sendData sendLen w).1 as [|i];
    [congruence |].
  rewrite Herr. cbn [Z.eqb]. change (PCD_TRANSCEIVE =? PCD_TRANSCEIVE) with true.
  cbn iota. cbn [fst snd].
  set (w2 := (MFRC522_ReadRegister MFRC522_REG_ERROR
                (ToCard_polled PCD_TRANSCEIVE sendData sendLen w)).2).
  split; [apply ReadRegister_range |]. split; [apply ToCard_receive_bits |].
  split; [| apply ToCard_receive_data].
  rewrite ToCard_receive_reads. subst w2. count_reads.
  rewrite ToCard_start_no_fifo_read. reflexivity.
Qed.

(** *** C4 *)

(** C4 (as amended).  On a transceive-command transaction that returns
    [MI_OK], with [fifoLevel] and [lastBits] the values read from the
    FIFO-level and control registers: when [fifoLevel >= 1] or
    [lastBits = 0] the reported bit count is [(fifoLevel - 1) * 8 +
    lastBits] for non-zero [lastBits] and [fifoLevel * 8] otherwise;
    the FIFO data register is read exactly [fifoLevel] clamped to
    [1..16] times, and those bytes, in order, are the front of the
    result buffer. *)
Theorem ToCard_received_bits_and_drain sendData sendLen backData backLen0 w :
  let r := MFRC522_ToCard PCD_TRANSCEIVE sendData sendLen backData backLen0 w in
  let fifoLevel := ToCard_fifo_level PCD_TRANSCEIVE sendData sendLen w in
  let lastBits := ToCard_last_bits PCD_TRANSCEIVE sendData sendLen w in
  let k := Z.to_nat (spec_drain_count fifoLevel) in
  r.1.1.1 = MI_OK ->
  (1 <= fifoLevel \/ lastBits = 0 -> r.1.2 = spec_received_bits fifoLevel lastBits)
  /\ reads_of MFRC522_REG_FIFO_DATA (bus r.2)
     = (reads_of MFRC522_REG_FIFO_DATA (bus w) + k)%nat
  /\ (k <= length backData -> r.1.1.2 = last_received k (bus r.2) ++ drop k backData)%nat.
Proof.
  cbn zeta. intros Hok.
  destruct (ToCard_ok_reply sendData sendLen backData backLen0 w Hok)
    as (Hlvl & Hbits & Hreads & Hdata).
  rewrite <- drain_count_spec by lia.
  split; [| split; [exact Hreads |]].
  - intros Hor. rewrite Hbits.
    apply received_bits_spec; [exact Hlvl | apply land_7_range | exact Hor].
  - intros Hk. apply Hdata. exact Hk.
Qed.

(** *** C9 *)



(** *** C6 *)

Lemma CalculateCRC_poll_exit k w :
  let e := (CalculateCRC_poll k w).1 in
  (e.1 <= k)%nat /\ (e.1 <> 0%nat -> Z.land e.2 0x04 <> 0).
Proof.
  revert w. induction k as [|k IH]; intros w; cbn zeta.
  - cbn [CalculateCRC_poll]. rewrite bind_run, ret_run. cbn [fst snd].
    split; [lia | congruence].
  - cbn [CalculateCRC_poll]. rewrite bind_run.
    destruct (Z.eqb_spec (Z.land (MFRC522_ReadRegister MFRC522_REG_DIV_IRQ w).1 4) 0)
      as [E|E]; cbn [negb].
    + specialize (IH (MFRC522_ReadRegister MFRC522_REG_DIV_IRQ w).2).
      cbn zeta in IH. destruct IH as [IH1 IH2]. split; [lia | exact IH2].
    + rewrite ret_run. cbn [fst snd]. split; [lia | intros _; exact E].
Qed.

Lemma reads_of_CalculateCRC_poll addr k w :
  reads_of addr (bus (CalculateCRC_poll k w).2)
  = ((if (read_frame MFRC522_REG_DIV_IRQ =? read_frame addr)%Z
      then S k - (CalculateCRC_poll k w).1.1 else 0)
     + reads_of addr (bus w))%nat.
Proof.
  revert w. induction k as [|k IH]; intros w.
  - cbn [CalculateCRC_poll]. rewrite bind_run, ret_run. cbn [fst snd].
    rewrite reads_of_ReadRegister.
    destruct (_ =? read_frame addr); reflexivity.
  - cbn [CalculateCRC_poll]. rewrite bind_run.
    destruct (Z.land _ 4 =? 0); cbn [negb].
    + rewrite IH, reads_of_ReadRegister.
      destruct (_ =? read_frame addr); [| reflexivity].
      pose proof (proj1 (CalculateCRC_poll_exit k
                           (MFRC522_ReadRegister MFRC522_REG_DIV_IRQ w).2)) as Hle.
      cbn zeta in Hle. lia.
    + rewrite ret_run. cbn [fst snd]. rewrite reads_of_ReadRegister.
      destruct (_ =? read_frame addr); [| reflexivity].
      replace (S (S k) - S k)%nat with 1%nat by lia. reflexivity.
Qed.

Lemma load_store_eq (buf : list Z) i v :
  (i < length buf)%nat -> load (store buf i v) i = u8 v.
Proof.
  intros Hi. unfold load, store. rewrite list_lookup_insert_eq by exact Hi.
  apply u8_idem.
Qed.

Lemma load_store_ne (buf : list Z) i j v :
  i <> j -> load (store buf i v) j = load buf j.
Proof.
  intros Hij. unfold load, store. rewrite list_lookup_insert_ne by exact Hij.
  reflexivity.
Qed.

Lemma length_store (buf : list Z) i v : length (store buf i v) = length buf.
Proof. apply length_insert. Qed.

(** C6.  [MFRC522_CalculateCRC] reads the divider-interrupt register
    once to clear the CRC flag and then polls it [255 - i] times, between
    1 and 255, leaving the loop early only on a value with bit 0x04 set;
    whatever the loop ended on, it then reads the low result register
    into [pOutData[0]] and the high result register into [pOutData[1]],
    and that is all it yields: there is no status. *)
Theorem CalculateCRC_poll_then_result pIndata len pOutData w :
  let e := (CalculateCRC_start pIndata len w).1 in
  let w1 := (CalculateCRC_start pIndata len w).2 in
  let lo := MFRC522_ReadRegister MFRC522_REG_CRC_RESULT_L w1 in
  let hi := MFRC522_ReadRegister MFRC522_REG_CRC_RESULT_M lo.2 in
  let out := (MFRC522_CalculateCRC pIndata len pOutData w).1 in
  MFRC522_CalculateCRC pIndata len pOutData w
    = (store (store pOutData 0 lo.1) 1 hi.1, hi.2)
  /\ (e.1 <= 254)%nat
  /\ reads_of MFRC522_REG_DIV_IRQ (bus w1)
     = (reads_of MFRC522_REG_DIV_IRQ (bus w) + 1 + (255 - e.1))%nat
  /\ (e.1 <> 0%nat -> Z.land e.2 0x04 <> 0)
  /\ (2 <= length pOutData -> load out 0 = lo.1 /\ load out 1 = hi.1)%nat.
Proof.
  cbn zeta.
  assert (Hrun : MFRC522_CalculateCRC pIndata len pOutData w
    = (store (store pOutData 0
         (MFRC522_ReadRegister MFRC522_REG_CRC_RESULT_L
            (CalculateCRC_start pIndata len w).2).1) 1
         (MFRC522_ReadRegister MFRC522_REG_CRC_RESULT_M
            (MFRC522_ReadRegister MFRC522_REG_CRC_RESULT_L
               (CalculateCRC_start pIndata len w).2).2).1,
       (MFRC522_ReadRegister MFRC522_REG_CRC_RESULT_M
          (MFRC522_ReadRegister MFRC522_REG_CRC_RESULT_L
             (CalculateCRC_start pIndata len w).2).2).2)).
  { unfold MFRC522_CalculateCRC. rewrite !bind_run, ret_run. reflexivity. }
  split; [exact Hrun |]. rewrite Hrun. cbn [fst snd].
  unfold CalculateCRC_start. rewrite !bind_run.
  match goal with
  | |- context [CalculateCRC_poll 254 ?w'] =>
      pose proof (CalculateCRC_poll_exit 254 w') as [Hle Hfl]
  end.
  split; [exact Hle |]. split; [| split; [exact Hfl |]].
  - rewrite reads_of_CalculateCRC_poll. count_reads. lia.
  - intros Hlen. split.
    + rewrite load_store_ne by lia. rewrite load_store_eq by lia.
      apply u8_small, ReadRegister_range.
    + rewrite load_store_eq by (rewrite length_store; lia).
      apply u8_small, ReadRegister_range.
Qed.

(** *** C7 *)


Lemma length_append_CRC buf len w :
  (len <= length buf)%nat -> length (append_CRC buf len w).1 = length buf.
Proof.
  intros Hlen. unfold append_CRC, MFRC522_CalculateCRC, splice, at_offset.
  rewrite !bind_run, !ret_run. cbn [fst snd].
  rewrite length_app, !length_store, length_take, length_drop. lia.
Qed.

Lemma length_copy_bytes buf off src count :
  length (copy_bytes buf off src count) = length buf.
Proof.
  unfold copy_bytes. generalize (seq 0 count) as l. intros l. revert buf.
  induction l as [|i l IH]; intros buf; cbn [foldl]; [reflexivity |].
  rewrite IH. apply length_store.
Qed.

Lemma load_app_l (l1 l2 : list Z) i :
  (i < length l1)%nat -> load (l1 ++ l2) i = load l1 i.
Proof. intros Hi. unfold load. rewrite lookup_app_l by exact Hi. reflexivity. Qed.


(** *** The crypto bit *)

Lemma land_8_testbit x : Z.land x 0x08 = 0 <-> Z.testbit x 3 = false.
Proof.
  split.
  - intros E. apply (f_equal (fun y => Z.testbit y 3)) in E.
    rewrite Z.land_spec in E. change (Z.testbit 8 3) with true in E.
    rewrite andb_true_r in E. exact E.
  - intros Hb. apply Z.bits_inj'. intros n Hn.
    rewrite Z.land_spec, Z.bits_0.
    destruct (Z.eq_dec n 3) as [->|Hne]; [rewrite Hb; reflexivity |].
    replace (Z.testbit 8 n) with false; [apply andb_false_r |].
    symmetry. change 8 with (2 ^ 3). apply Z.pow2_bits_false. lia.
Qed.

(** *** The anti-collision checksum *)

Lemma lxor_byte a b :
  0 <= a < 256 -> 0 <= b < 256 -> u8 (Z.lxor a b) = Z.lxor a b.
Proof.
  intros Ha Hb. unfold u8. change 256 with (2 ^ 8).
  apply Z.bits_inj'. intros n Hn.
  destruct (Z.ltb_spec n 8) as [Hlt|Hge].
  - apply Z.mod_pow2_bits_low. exact Hlt.
  - rewrite Z.mod_pow2_bits_high by lia. rewrite Z.lxor_spec.
    rewrite <- (Z.mod_small a (2 ^ 8)), <- (Z.mod_small b (2 ^ 8)) by assumption.
    rewrite !Z.mod_pow2_bits_high by lia. reflexivity.
Qed.

Lemma lxor_byte_range a b :
  0 <= a < 256 -> 0 <= b < 256 -> 0 <= Z.lxor a b < 256.
Proof. intros Ha Hb. rewrite <- lxor_byte by assumption. apply u8_range. Qed.

Lemma load_range buf i : 0 <= load buf i < 256.
Proof. apply u8_range. Qed.

Lemma serNumCheck_xor serNum :
  serNumCheck serNum
  = Z.lxor (Z.lxor (Z.lxor (load serNum 0) (load serNum 1)) (load serNum 2))
      (load serNum 3).
Proof.
  unfold serNumCheck. cbn [seq foldl]. rewrite Z.lxor_0_l.
  rewrite (u8_small (load serNum 0)) by apply load_range.
  rewrite (lxor_byte (load serNum 0)) by apply load_range.
  rewrite (lxor_byte (Z.lxor _ _) (load serNum 2))
    by (try apply lxor_byte_range; apply load_range).
  apply lxor_byte; [| apply load_range].
  apply lxor_byte_range; [| apply load_range].
  apply lxor_byte_range; apply load_range.
Qed.

Lemma Anticoll_exchange_run serNum unLen0 w :
  Anticoll_exchange serNum unLen0 w
  = MFRC522_ToCard PCD_TRANSCEIVE (store (store serNum 0 PICC_ANTICOLL) 1 0x20) 2
      (store (store serNum 0 PICC_ANTICOLL) 1 0x20) unLen0
      (MFRC522_WriteRegister MFRC522_REG_BIT_FRAMING 0x00 w).2.
Proof. unfold Anticoll_exchange. rewrite bind_run. reflexivity. Qed.

(** X25.  What [MFRC522_Anticoll] checks.  When its transceive returned
    [MI_OK], the call returns [MI_OK] exactly when byte 4 of the buffer
    is the XOR of bytes 0 to 3; on a mismatch it returns [MI_ERR], and
    in both cases the caller's buffer holds what the transceive left in
    it.  The received length is never looked at: the [k] bytes drained
    from the FIFO are followed by what the buffer held when it was sent
    (0x93, 0x20, then the caller's bytes).  So the five bytes checked
    are the first five bytes read from the FIFO when at least five were
    drained (and fit the buffer). *)
Theorem Anticoll_checksum serNum unLen0 w :
  let x := Anticoll_exchange serNum unLen0 w in
  let r := MFRC522_Anticoll serNum unLen0 w in
  let received := x.1.1.2 in
  let k := Z.to_nat (spec_drain_count (Anticoll_fifo_level serNum w)) in
  x.1.1.1 = MI_OK ->
  (r.1.1 = MI_OK <->
   load received 4
   = Z.lxor (Z.lxor (Z.lxor (load received 0) (load received 1)) (load received 2))
       (load received 3))
  /\ (r.1.1 <> MI_OK -> r.1.1 = MI_ERR)
  /\ r.1.2 = received
  /\ r.2 = x.2
  /\ (5 <= k <= length serNum ->
      take 5 received = take 5 (last_received k (bus x.2)))%nat
  /\ ((k <= length serNum)%nat ->
      received
      = last_received k (bus x.2)
        ++ drop k (store (store serNum 0 PICC_ANTICOLL) 1 0x20)).
Proof.
  cbn zeta. intros Hok.
  assert (Hstale : (Z.to_nat (spec_drain_count (Anticoll_fifo_level serNum w))
                    <= length serNum)%nat ->
      (Anticoll_exchange serNum unLen0 w).1.1.2
      = last_received
          (Z.to_nat (spec_drain_count (Anticoll_fifo_level serNum w)))
          (bus (Anticoll_exchange serNum unLen0 w).2)
        ++ drop (Z.to_nat (spec_drain_count (Anticoll_fifo_level serNum w)))
             (store (store serNum 0 PICC_ANTICOLL) 1 0x20)).
  { intros Hlen. revert Hok. rewrite Anticoll_exchange_run. intros Hok.
    destruct (ToCard_ok_reply _ _ _ _ _ Hok) as (Hlvl & _ & _ & Hdata).
    unfold Anticoll_fifo_level in *.
    rewrite <- drain_count_spec in * by lia.
    destruct Hdata as [_ ->]; [rewrite !length_store; exact Hlen |].
    reflexivity. }
  assert (Hfifo : (5 <= Z.to_nat (spec_drain_count (Anticoll_fifo_level serNum w))
                   <= length serNum)%nat ->
      take 5 (Anticoll_exchange serNum unLen0 w).1.1.2
      = take 5 (last_received
                  (Z.to_nat (spec_drain_count (Anticoll_fifo_level serNum w)))
                  (bus (Anticoll_exchange serNum unLen0 w).2))).
  { intros [H5 Hlen]. revert Hok. rewrite Anticoll_exchange_run. intros Hok.
    destruct (ToCard_ok_reply _ _ _ _ _ Hok) as (Hlvl & _ & _ & Hdata).
    unfold Anticoll_fifo_level in *.
    rewrite <- drain_count_spec in * by lia.
    destruct Hdata as [Hk ->]; [rewrite !length_store; exact Hlen |].
    rewrite take_app_le by lia. reflexivity. }
  revert Hok Hfifo. unfold MFRC522_Anticoll. rewrite bind_run.
  destruct (Anticoll_exchange serNum unLen0 w) as [[[status buf] unLen] w1].
  cbn [fst snd]. intros -> Hfifo. change (MI_OK =? MI_OK) with true. cbn iota.
  rewrite <- serNumCheck_xor.
  destruct (Z.eqb_spec (serNumCheck buf) (load buf 4)) as [E|E]; cbn [negb];
    rewrite ret_run; cbn [fst snd].
  - repeat split; auto. intros H; contradiction.
  - repeat split; auto; try discriminate. intros E'. congruence.
Qed.

(** *** C10 *)

(** C10.  [MFRC522_Write] can fail and still return [MI_OK] (= 0): when
    the reply to the write command is 4 bits long with low nibble 0, the
    command phase is refused, no data frame is sent and the nibble, 0,
    is returned; likewise when the command phase was acknowledged and
    the reply to the data frame is 4 bits long with low nibble 0. *)
Theorem Write_failure_reported_as_ok blockAddr writeData recvBits0 w :
  let c := Write_command blockAddr recvBits0 w in
  let d := Write_data c.1.1.2 writeData c.1.2 c.2 in
  let r := MFRC522_Write blockAddr writeData recvBits0 w in
  (c.1.2 = 4 -> Z.land (load c.1.1.2 0) 0x0F = 0 ->
   Write_nak c.1.1.1 c.1.1.2 c.1.2 = true /\ r = (MI_OK, c.2))
  /\ (Write_nak c.1.1.1 c.1.1.2 c.1.2 = false ->
      d.1.2 = 4 -> Z.land (load d.1.1.2 0) 0x0F = 0 ->
      Write_nak d.1.1.1 d.1.1.2 d.1.2 = true /\ r = (MI_OK, d.2)).
Proof.
  cbn zeta. unfold MFRC522_Write. rewrite bind_run.
  destruct (Write_command blockAddr recvBits0 w) as [[[st1 buff1] bits1] w1].
  cbn [fst snd]. split.
  - intros -> Hn.
    assert (Hnak : Write_nak st1 buff1 4 = true).
    { unfold Write_nak. rewrite Hn. cbn. apply orb_true_r. }
    rewrite Hnak. split; [reflexivity |].
    rewrite ret_run. unfold Write_ERROR. rewrite Hn. reflexivity.
  - intros Hack. rewrite Hack.
    assert (Hst : (st1 =? MI_OK) = true).
    { unfold Write_nak in Hack. destruct (st1 =? MI_OK); [reflexivity |].
      cbn in Hack. discriminate. }
    rewrite Hst, bind_run.
    destruct (Write_data buff1 writeData bits1 w1) as [[[st2 buff2] bits2] w2].
    cbn [fst snd]. intros -> Hn.
    assert (Hnak : Write_nak st2 buff2 4 = true).
    { unfold Write_nak. rewrite Hn. cbn. apply orb_true_r. }
    rewrite Hnak. split; [reflexivity |].
    rewrite ret_run. unfold Write_ERROR. rewrite Hn. reflexivity.
Qed.

(** *** C2 *)

Lemma control_block_true blockaddr :
  0 <= blockaddr -> blockaddr = 0 \/ blockaddr mod 4 = 3 ->
  control_block blockaddr = true.
Proof.
  intros Hpos Hor. unfold control_block.
  rewrite Z.rem_mod_nonneg by lia.
  destruct Hor as [-> | ->]; [reflexivity | apply orb_true_r].
Qed.

(** C2 (as amended).  For a protected block address (0, or 3 modulo 4)
    [MFRC522_Debug_Write] and [MFRC522_Debug_Clean] return -1 and never
    call [MFRC522_Write]: they end in the world the authentication
    transaction left, which is the only bus traffic of the call. *)
Theorem Debug_protected_block_refused CardID blockaddr Write_Data len recvBits0 w :
  let a := MFRC522_Auth PICC_AUTHENT1A (u8 blockaddr) SectorKeyA CardID recvBits0 w in
  0 <= blockaddr -> blockaddr = 0 \/ blockaddr mod 4 = 3 ->
  MFRC522_Debug_Write CardID blockaddr Write_Data len recvBits0 w = (-1, a.2)
  /\ MFRC522_Debug_Clean CardID blockaddr recvBits0 w = (-1, a.2).
Proof.
  cbn zeta. intros Hpos Hor.
  pose proof (control_block_true blockaddr Hpos Hor) as Hcb.
  unfold MFRC522_Debug_Write, MFRC522_Debug_Clean. rewrite !bind_run, Hcb.
  destruct (_ =? MI_OK); rewrite ret_run; split; reflexivity.
Qed.

(** *** Status tests *)

Lemma neq_eqb_false a b : a <> b -> (a =? b) = false.
Proof. intros H. apply Z.eqb_neq. exact H. Qed.

End Properties.

(** ** Concrete runs *)

(** *** C1 *)

(** C1, as the specification states it, fails when the flag arrives on
    the 2000th poll: the loop ends with [i = 0] and [n = 0x30], no error
    bit is set, the specification's classification says [MI_OK], and
    [MFRC522_ToCard] returns [MI_ERR]. *)
Lemma spec_status_fails_on_last_poll :
  ToCard_poll_exit PCD_TRANSCEIVE reqa 1 w_last_poll = (0%nat, 0x30)
  /\ irq_fired (irq_masks PCD_TRANSCEIVE).2 0x30 = true
  /\ ToCard_error_reg PCD_TRANSCEIVE reqa 1 w_last_poll = 0
  /\ spec_ToCard_status PCD_TRANSCEIVE 0 0x30 0 = MI_OK
  /\ (MFRC522_ToCard PCD_TRANSCEIVE reqa 1 [0; 0] 0 w_last_poll).1.1.1 = MI_ERR
  /\ (MFRC522_ToCard PCD_TRANSCEIVE reqa 1 [0; 0] 0 w_last_poll).1.1.1
     <> spec_ToCard_status PCD_TRANSCEIVE
          (ToCard_poll_exit PCD_TRANSCEIVE reqa 1 w_last_poll).1
          (ToCard_poll_exit PCD_TRANSCEIVE reqa 1 w_last_poll).2
          (ToCard_error_reg PCD_TRANSCEIVE reqa 1 w_last_poll).
Proof. vm_compute. repeat split; discriminate. Qed.

Lemma ToCard_status_by_counter_witness :
  ((ToCard_poll_exit PCD_TRANSCEIVE reqa 1 w_last_poll).1 = 0%nat
   /\ MFRC522_ToCard PCD_TRANSCEIVE reqa 1 [0; 0] 0 w_last_poll
      = ((MI_ERR, [0; 0], 0), ToCard_polled PCD_TRANSCEIVE reqa 1 w_last_poll))
  /\ ((ToCard_poll_exit PCD_TRANSCEIVE reqa 1 w_answer).1 <> 0%nat
      /\ irq_fired (irq_masks PCD_TRANSCEIVE).2
           (ToCard_poll_exit PCD_TRANSCEIVE reqa 1 w_answer).2 = true
      /\ (MFRC522_ToCard PCD_TRANSCEIVE reqa 1 [0; 0] 0 w_answer).1.1.1
         = spec_ToCard_status PCD_TRANSCEIVE
             (ToCard_poll_exit PCD_TRANSCEIVE reqa 1 w_answer).1
             (ToCard_poll_exit PCD_TRANSCEIVE reqa 1 w_answer).2
             (ToCard_error_reg PCD_TRANSCEIVE reqa 1 w_answer)).
Proof.
  assert (H0 : (ToCard_poll_exit PCD_TRANSCEIVE reqa 1 w_last_poll).1 = 0%nat)
    by (vm_compute; reflexivity).
  assert (H1 : (ToCard_poll_exit PCD_TRANSCEIVE reqa 1 w_answer).1 <> 0%nat)
    by (vm_compute; discriminate).
  destruct (ToCard_status_by_counter PCD_TRANSCEIVE reqa 1 [0; 0] 0 w_last_poll)
    as (_ & _ & Hexh & _ & _).
  destruct (ToCard_status_by_counter PCD_TRANSCEIVE reqa 1 [0; 0] 0 w_answer)
    as (_ & _ & _ & Hfired & Hspec).
  split; [split; [exact H0 | exact (Hexh H0)] |].
  split; [exact H1 |]. split; [exact (Hfired H1) | exact (Hspec (or_introl H1))].
Defined.

(** *** C2 *)

(** C2, as the specification states it, fails: a write to block 0 is
    refused with -1 only after the authentication transaction went over
    the bus (24 exchanges, the authenticate command written to the
    command register). *)
Lemma Debug_Write_authenticates_before_refusing :
  control_block 0 = true
  /\ (MFRC522_Debug_Write uid 0 [0x41; 0x42] 2 0 w_auth).1 = -1
  /\ transfers (bus w_auth) = 0%nat
  /\ transfers (bus (MFRC522_Debug_Write uid 0 [0x41; 0x42] 2 0 w_auth).2) = 24%nat
  /\ written_to MFRC522_REG_COMMAND
       (bus (MFRC522_Debug_Write uid 0 [0x41; 0x42] 2 0 w_auth).2)
     = [PCD_IDLE; PCD_AUTHENT]
  /\ bus (MFRC522_Debug_Write uid 0 [0x41; 0x42] 2 0 w_auth).2 <> bus w_auth.
Proof. vm_compute. repeat split; discriminate. Qed.

Lemma Debug_protected_block_refused_witness :
  (0 <= 7 /\ (7 = 0 \/ 7 mod 4 = 3))
  /\ MFRC522_Debug_Write uid 7 [0x41; 0x42] 2 0 w_auth
     = (-1, (MFRC522_Auth PICC_AUTHENT1A (u8 7) SectorKeyA uid 0 w_auth).2)
  /\ MFRC522_Debug_Clean uid 7 0 w_auth
     = (-1, (MFRC522_Auth PICC_AUTHENT1A (u8 7) SectorKeyA uid 0 w_auth).2).
Proof.
  assert (Hpos : 0 <= 7) by lia.
  assert (Hor : 7 = 0 \/ 7 mod 4 = 3) by (right; reflexivity).
  split; [split; assumption |].
  exact (Debug_protected_block_refused uid 7 [0x41; 0x42] 2 0 w_auth Hpos Hor).
Defined.

(** *** C3 *)

(** C3, as the specification states it, fails: with no card in the field
    the transceive inside [MFRC522_Read] returns [MI_NOTAGERR], with a
    parity error it returns [MI_ERR], and [MFRC522_Read] returns
    [MI_ERR] for both; [MFRC522_SelectTag] returns 0 for both. *)
Lemma Read_collapses_notag_and_error :
  (Read_exchange 4 buf18 0 w_notag).1.1.1 = MI_NOTAGERR
  /\ (Read_exchange 4 buf18 0 w_chip_error).1.1.1 = MI_ERR
  /\ ToCard_error_reg PCD_TRANSCEIVE reqa 1 w_chip_error = 0x08
  /\ (MFRC522_Read 4 buf18 0 w_notag).1.1
     = (MFRC522_Read 4 buf18 0 w_chip_error).1.1
  /\ (SelectTag_exchange uid 0 w_notag).1.1.1 = MI_NOTAGERR
  /\ (SelectTag_exchange uid 0 w_chip_error).1.1.1 = MI_ERR
  /\ (MFRC522_SelectTag uid 0 w_notag).1 = (MFRC522_SelectTag uid 0 w_chip_error).1.
Proof. vm_compute. repeat split; reflexivity. Qed.

(** *** C4 *)

(** C4, as the specification states it, fails on a successful
    transaction in which the FIFO level reads 0 and [lastBits] reads 5:
    the formula gives -3, the 16-bit [*backLen] holds 65533. *)
Lemma received_bits_wrap_around :
  (MFRC522_ToCard PCD_TRANSCEIVE reqa 1 [0; 0] 0 w_wrap).1.1.1 = MI_OK
  /\ ToCard_fifo_level PCD_TRANSCEIVE reqa 1 w_wrap = 0
  /\ ToCard_last_bits PCD_TRANSCEIVE reqa 1 w_wrap = 5
  /\ spec_received_bits 0 5 = -3
  /\ (MFRC522_ToCard PCD_TRANSCEIVE reqa 1 [0; 0] 0 w_wrap).1.2 = 65533
  /\ (MFRC522_ToCard PCD_TRANSCEIVE reqa 1 [0; 0] 0 w_wrap).1.2
     <> spec_received_bits (ToCard_fifo_level PCD_TRANSCEIVE reqa 1 w_wrap)
          (ToCard_last_bits PCD_TRANSCEIVE reqa 1 w_wrap).
Proof. vm_compute. repeat split; discriminate. Qed.

Lemma ToCard_received_bits_and_drain_witness :
  ((MFRC522_ToCard PCD_TRANSCEIVE reqa 1 [0; 0; 0; 0] 0 w_21).1.1.1 = MI_OK
   /\ ToCard_fifo_level PCD_TRANSCEIVE reqa 1 w_21 = 3
   /\ ToCard_last_bits PCD_TRANSCEIVE reqa 1 w_21 = 5
   /\ (MFRC522_ToCard PCD_TRANSCEIVE reqa 1 [0; 0; 0; 0] 0 w_21).1.2 = 21
   /\ reads_of MFRC522_REG_FIFO_DATA
        (bus (MFRC522_ToCard PCD_TRANSCEIVE reqa 1 [0; 0; 0; 0] 0 w_21).2) = 3%nat
   /\ (MFRC522_ToCard PCD_TRANSCEIVE reqa 1 [0; 0; 0; 0] 0 w_21).1.1.2 = [1; 2; 3; 0])
  /\ ((MFRC522_ToCard PCD_TRANSCEIVE reqa 1 [0; 0; 0; 0] 0 w_24).1.1.1 = MI_OK
      /\ ToCard_fifo_level PCD_TRANSCEIVE reqa 1 w_24 = 3
      /\ ToCard_last_bits PCD_TRANSCEIVE reqa 1 w_24 = 0
      /\ (MFRC522_ToCard PCD_TRANSCEIVE reqa 1 [0; 0; 0; 0] 0 w_24).1.2 = 24).
Proof.
  assert (Hok : (MFRC522_ToCard PCD_TRANSCEIVE reqa 1 [0; 0; 0; 0] 0 w_21).1.1.1
                = MI_OK) by (vm_compute; reflexivity).
  assert (Hok' : (MFRC522_ToCard PCD_TRANSCEIVE reqa 1 [0; 0; 0; 0] 0 w_24).1.1.1
                 = MI_OK) by (vm_compute; reflexivity).
  assert (Hl : ToCard_fifo_level PCD_TRANSCEIVE reqa 1 w_21 = 3)
    by (vm_compute; reflexivity).
  assert (Hb : ToCard_last_bits PCD_TRANSCEIVE reqa 1 w_21 = 5)
    by (vm_compute; reflexivity).
  assert (Hl' : ToCard_fifo_level PCD_TRANSCEIVE reqa 1 w_24 = 3)
    by (vm_compute; reflexivity).
  assert (Hb' : ToCard_last_bits PCD_TRANSCEIVE reqa 1 w_24 = 0)
    by (vm_compute; reflexivity).
  destruct (ToCard_received_bits_and_drain reqa 1 [0; 0; 0; 0] 0 w_21 Hok)
    as (Hbits & Hreads & Hdata).
  destruct (ToCard_received_bits_and_drain reqa 1 [0; 0; 0; 0] 0 w_24 Hok')
    as (Hbits' & _ & _).
  split.
  - split; [exact Hok |]. split; [exact Hl |]. split; [exact Hb |].
    split; [| split].
    + rewrite Hbits by (left; rewrite Hl; lia). rewrite Hl, Hb. reflexivity.
    + rewrite Hreads, Hl. reflexivity.
    + rewrite Hdata by (rewrite Hl; vm_compute; lia). rewrite Hl.
      vm_compute. reflexivity.
  - split; [exact Hok' |]. split; [exact Hl' |]. split; [exact Hb' |].
    rewrite Hbits' by (right; exact Hb'). rewrite Hl', Hb'. reflexivity.
Defined.

(** *** C5 *)

(** C5 fails on a one-byte answer to the anti-collision command.  The
    transceive returns [MI_OK] with 8 bits received and one byte
    drained; [MFRC522_Anticoll] never looks at that length and returns
    [MI_OK] on a buffer whose bytes 1 to 4 were never received: on a
    zeroed buffer, and on one still holding the caller's bytes 0x12,
    0x34, 0x26, which it hands back as part of the ID.  On the same
    chip [MFRC522_Request], [MFRC522_SelectTag] and [MFRC522_Read], which
    test the received bit count, refuse the answer. *)
Lemma Anticoll_accepts_short_reply :
  (Anticoll_exchange [0; 0; 0; 0; 0] 0 w_short_uid).1.1.1 = MI_OK
  /\ (Anticoll_exchange [0; 0; 0; 0; 0] 0 w_short_uid).1.2 = 8
  /\ reads_of MFRC522_REG_FIFO_DATA
       (bus (Anticoll_exchange [0; 0; 0; 0; 0] 0 w_short_uid).2) = 1%nat
  /\ (MFRC522_Anticoll [0; 0; 0; 0; 0] 0 w_short_uid).1
     = (MI_OK, [0x20; 0x20; 0; 0; 0])
  /\ (MFRC522_Anticoll [0; 0; 0x12; 0x34; 0x26] 0 w_short_uid).1
     = (MI_OK, [0x20; 0x20; 0x12; 0x34; 0x26])
  /\ (MFRC522_Request PICC_REQIDL buf18 0 w_short_uid).1.1 = MI_ERR
  /\ (MFRC522_SelectTag uid 0 w_short_uid).1 = 0
  /\ (MFRC522_Read 4 buf18 0 w_short_uid).1.1 = MI_ERR.
Proof. vm_compute. repeat split; reflexivity. Qed.

Lemma Anticoll_checksum_witness :
  ((Anticoll_exchange [0; 0; 0; 0; 0] 0 w_uid).1.1.1 = MI_OK
   /\ (MFRC522_Anticoll [0; 0; 0; 0; 0] 0 w_uid).1 = (MI_OK, uid)
   /\ Anticoll_fifo_level [0; 0; 0; 0; 0] w_uid = 5
   /\ take 5 (Anticoll_exchange [0; 0; 0; 0; 0] 0 w_uid).1.1.2
      = last_received 5 (bus (Anticoll_exchange [0; 0; 0; 0; 0] 0 w_uid).2))
  /\ ((Anticoll_exchange [0; 0; 0; 0; 0] 0 w_uid_bad).1.1.1 = MI_OK
      /\ (MFRC522_Anticoll [0; 0; 0; 0; 0] 0 w_uid_bad).1.1 = MI_ERR
      /\ (MFRC522_Anticoll [0; 0; 0; 0; 0] 0 w_uid_bad).1.2
         = [0xDE; 0xAD; 0xBE; 0xEF; 0x23]).
Proof.
  assert (Hok : (Anticoll_exchange [0; 0; 0; 0; 0] 0 w_uid).1.1.1 = MI_OK)
    by (vm_compute; reflexivity).
  assert (Hok' : (Anticoll_exchange [0; 0; 0; 0; 0] 0 w_uid_bad).1.1.1 = MI_OK)
    by (vm_compute; reflexivity).
  assert (Hlvl : Anticoll_fifo_level [0; 0; 0; 0; 0] w_uid = 5)
    by (vm_compute; reflexivity).
  destruct (Anticoll_checksum [0; 0; 0; 0; 0] 0 w_uid Hok)
    as (Hiff & _ & Hbuf & _ & Hfifo & _).
  destruct (Anticoll_checksum [0; 0; 0; 0; 0] 0 w_uid_bad Hok')
    as (Hiff' & Herr & Hbuf' & _).
  split.
  - split; [exact Hok |]. split; [| split; [exact Hlvl |]].
    + assert (Hst : (MFRC522_Anticoll [0; 0; 0; 0; 0] 0 w_uid).1.1 = MI_OK)
        by (apply Hiff; vm_compute; reflexivity).
      rewrite (surjective_pairing (MFRC522_Anticoll [0; 0; 0; 0; 0] 0 w_uid).1).
      rewrite Hst, Hbuf. vm_compute. reflexivity.
    + rewrite Hlvl in Hfifo. rewrite Hfifo by (vm_compute; lia).
      vm_compute. reflexivity.
  - split; [exact Hok' |]. split.
    + apply Herr. intros Hst. apply Hiff' in Hst. vm_compute in Hst. discriminate.
    + rewrite Hbuf'. vm_compute. reflexivity.
Defined.

(** *** C6 *)

Lemma CalculateCRC_poll_then_result_witness :
  ((CalculateCRC_start [PICC_READ; 4] 2 w_crc_stuck).1 = (0%nat, 0)
   /\ reads_of MFRC522_REG_DIV_IRQ (bus (CalculateCRC_start [PICC_READ; 4] 2 w_crc_stuck).2)
      = 256%nat
   /\ (MFRC522_CalculateCRC [PICC_READ; 4] 2 [0; 0] w_crc_stuck).1 = [0x34; 0x12]
   /\ load (MFRC522_CalculateCRC [PICC_READ; 4] 2 [0; 0] w_crc_stuck).1 0 = 0x34
   /\ load (MFRC522_CalculateCRC [PICC_READ; 4] 2 [0; 0] w_crc_stuck).1 1 = 0x12)
  /\ ((CalculateCRC_start [PICC_READ; 4] 2 w_answer).1.1 <> 0%nat
      /\ Z.land (CalculateCRC_start [PICC_READ; 4] 2 w_answer).1.2 0x04 <> 0).
Proof.
  destruct (CalculateCRC_poll_then_result [PICC_READ; 4] 2 [0; 0] w_crc_stuck)
    as (Hrun & _ & Hreads & _ & Hload).
  destruct (CalculateCRC_poll_then_result [PICC_READ; 4] 2 [0; 0] w_answer)
    as (_ & _ & _ & Hflag & _).
  assert (He : (CalculateCRC_start [PICC_READ; 4] 2 w_crc_stuck).1 = (0%nat, 0))
    by (vm_compute; reflexivity).
  assert (Hlen : (2 <= length [0; 0])%nat) by (cbn; lia).
  assert (Hi : (CalculateCRC_start [PICC_READ; 4] 2 w_answer).1.1 <> 0%nat)
    by (vm_compute; discriminate).
  destruct (Hload Hlen) as [Hlo Hhi].
  split.
  - split; [exact He |]. split; [rewrite Hreads, He; reflexivity |].
    split; [rewrite Hrun; vm_compute; reflexivity |].
    split; [rewrite Hlo | rewrite Hhi]; vm_compute; reflexivity.
  - exact (conj Hi (Hflag Hi)).
Defined.

(** *** C7 *)


(** *** C9 *)


(** *** C10 *)

Lemma Write_failure_reported_as_ok_witness :
  (((Write_command 4 0 w_nak1).1.2 = 4
    /\ Z.land (load (Write_command 4 0 w_nak1).1.1.2 0) 0x0F = 0)
   /\ Write_nak (Write_command 4 0 w_nak1).1.1.1 (Write_command 4 0 w_nak1).1.1.2
        (Write_command 4 0 w_nak1).1.2 = true
   /\ (MFRC522_Write 4 block16 0 w_nak1).1 = MI_OK
   /\ writes_of MFRC522_REG_FIFO_DATA (bus (MFRC522_Write 4 block16 0 w_nak1).2)
      = 6%nat)
  /\ (Write_nak (Write_command 4 0 w_nak2).1.1.1 (Write_command 4 0 w_nak2).1.1.2
        (Write_command 4 0 w_nak2).1.2 = false
      /\ Write_nak
           (Write_data (Write_command 4 0 w_nak2).1.1.2 block16
              (Write_command 4 0 w_nak2).1.2 (Write_command 4 0 w_nak2).2).1.1.1
           (Write_data (Write_command 4 0 w_nak2).1.1.2 block16
              (Write_command 4 0 w_nak2).1.2 (Write_command 4 0 w_nak2).2).1.1.2
           (Write_data (Write_command 4 0 w_nak2).1.1.2 block16
              (Write_command 4 0 w_nak2).1.2 (Write_command 4 0 w_nak2).2).1.2
         = true
      /\ (MFRC522_Write 4 block16 0 w_nak2).1 = MI_OK).
Proof.
  destruct (Write_failure_reported_as_ok 4 block16 0 w_nak1) as (Hcmd & _).
  destruct (Write_failure_reported_as_ok 4 block16 0 w_nak2) as (_ & Hdat).
  assert (H4 : (Write_command 4 0 w_nak1).1.2 = 4) by (vm_compute; reflexivity).
  assert (Hn : Z.land (load (Write_command 4 0 w_nak1).1.1.2 0) 0x0F = 0)
    by (vm_compute; reflexivity).
  destruct (Hcmd H4 Hn) as (Hnak & Hr).
  assert (Hack : Write_nak (Write_command 4 0 w_nak2).1.1.1
                   (Write_command 4 0 w_nak2).1.1.2 (Write_command 4 0 w_nak2).1.2
                 = false) by (vm_compute; reflexivity).
  assert (H4' : (Write_data (Write_command 4 0 w_nak2).1.1.2 block16
                   (Write_command 4 0 w_nak2).1.2 (Write_command 4 0 w_nak2).2).1.2
                = 4) by (vm_compute; reflexivity).
  assert (Hn' : Z.land (load (Write_data (Write_command 4 0 w_nak2).1.1.2 block16
                   (Write_command 4 0 w_nak2).1.2 (Write_command 4 0 w_nak2).2).1.1.2
                   0) 0x0F = 0) by (vm_compute; reflexivity).
  destruct (Hdat Hack H4' Hn') as (Hnak' & Hr').
  split.
  - split; [exact (conj H4 Hn) |]. split; [exact Hnak |].
    split; [rewrite Hr; reflexivity |]. rewrite Hr. vm_compute. reflexivity.
  - split; [exact Hack |]. split; [exact Hnak' |]. rewrite Hr'. reflexivity.
Defined.

(** Seen from the interactive session: the card refuses the write
    command with a 4-bit reply 0x0 and [MFRC522_Debug_Write] returns 0,
    its success value. *)
Example Debug_Write_reports_refused_write_as_ok :
  (MFRC522_Debug_Write uid 4 [0x41; 0x42] 2 0
     (card 0x30 1 4 [0x00] [(MFRC522_REG_STATUS2, 0x08)])).1 = 0.
Proof. vm_compute. reflexivity. Qed.

(** ** Further properties of the driver *)

(** *** Functions that do not touch the bus *)

(** A property checked on every integer below [n] holds below [n]. *)
Lemma forall_below (n : nat) (f : Z -> bool) :
  forallb f (map Z.of_nat (seq 0 n)) = true ->
  forall a, 0 <= a < Z.of_nat n -> f a = true.
Proof.
  intros Hall a Ha. rewrite forallb_forall in Hall. apply Hall.
  apply in_map_iff. exists (Z.to_nat a). split; [lia |].
  apply in_seq. lia.
Qed.

Lemma Compare_from_ok CardID CompareID count : forall i,
  Compare_from CardID CompareID i count = MI_OK
  <-> (forall j, (i <= j < i + count)%nat -> load CardID j = load CompareID j).
Proof.
  induction count as [|count IH]; intros i; cbn [Compare_from].
  - split; [intros _ j Hj; lia | reflexivity].
  - destruct (Z.eqb_spec (load CardID i) (load CompareID i)) as [E|E]; cbn [negb].
    + rewrite IH. split.
      * intros H j Hj. destruct (Nat.eq_dec j i) as [->|Hne]; [exact E |].
        apply H. lia.
      * intros H j Hj. apply H. lia.
    + split; [discriminate |]. intros H. destruct E. apply H. lia.
Qed.

Lemma Compare_from_range CardID CompareID count i :
  Compare_from CardID CompareID i count = MI_OK
  \/ Compare_from CardID CompareID i count = MI_ERR.
Proof.
  revert i. induction count as [|count IH]; intros i; cbn [Compare_from];
    [left; reflexivity |].
  destruct (load CardID i =? load CompareID i); cbn [negb]; [apply IH | right; reflexivity].
Qed.

(** X1.  [MFRC522_Compare] returns [MI_OK] exactly when the two IDs
    agree on bytes 0 to 4 and [MI_ERR] otherwise; the verdict does not
    depend on the order of its arguments. *)
Theorem Compare_ok_iff CardID CompareID :
  (MFRC522_Compare CardID CompareID = MI_OK
   <-> forall j, (j < 5)%nat -> load CardID j = load CompareID j)
  /\ (MFRC522_Compare CardID CompareID <> MI_OK ->
      MFRC522_Compare CardID CompareID = MI_ERR)
  /\ (MFRC522_Compare CardID CompareID = MI_OK
      <-> MFRC522_Compare CompareID CardID = MI_OK).
Proof.
  unfold MFRC522_Compare. split; [| split].
  - rewrite Compare_from_ok. split; intros H j Hj; apply H; lia.
  - destruct (Compare_from_range CardID CompareID 5 0); [contradiction | auto].
  - rewrite !Compare_from_ok. split; intros H j Hj; symmetry; apply H; exact Hj.
Qed.

Lemma ParseType_byte TagSelectRet :
  MFRC522_ParseType TagSelectRet = MFRC522_ParseType (u8 TagSelectRet).
Proof. unfold MFRC522_ParseType. rewrite u8_idem. reflexivity. Qed.

(** X2.  Whatever byte [MFRC522_ParseType] is given, its result is one
    of the ten [PICC_TYPE_t] values, so the table lookup of
    [MFRC522_TypeToString] on it stays inside [PICC_TYPE_STRING]. *)
Theorem ParseType_indexes_the_name_table TagSelectRet :
  0 <= MFRC522_ParseType TagSelectRet <= 9
  /\ is_Some (MFRC522_TypeToString (MFRC522_ParseType TagSelectRet))
  /\ length PICC_TYPE_STRING = 10%nat.
Proof.
  rewrite ParseType_byte. pose proof (u8_range TagSelectRet) as Hr.
  assert (H := forall_below 256
    (fun t => (0 <=? MFRC522_ParseType t) && (MFRC522_ParseType t <=? 9)
              && bool_decide (is_Some (MFRC522_TypeToString (MFRC522_ParseType t))))
    eq_refl (u8 TagSelectRet) Hr).
  cbv beta in H. apply andb_prop in H. destruct H as [H Hs].
  apply andb_prop in H. destruct H as [H0 H9].
  apply bool_decide_eq_true in Hs. split; [lia |]. split; [exact Hs | reflexivity].
Qed.

Lemma eqb_Zeqb_iff r k (b : bool) :
  eqb (r =? k) b = true -> (r = k <-> b = true).
Proof.
  intros H. apply eqb_prop in H. rewrite <- H. symmetry. apply Z.eqb_eq.
Qed.

Lemma implb_Zeqb r k (b : bool) : implb (r =? k) b = true -> r = k -> b = true.
Proof. intros H ->. rewrite Z.eqb_refl in H. exact H. Qed.

(** X3.  How [MFRC522_ParseType] decides, on the byte [t] it is given:
    bit 0x04 set means "UID not complete" before anything else; each of
    the six named card types is returned for its own SAK values only
    (0x09, 0x08, 0x18, 0x00, 0x10 or 0x11, 0x01); ISO 14443-4 needs bit
    0x20, and ISO 18092 is reported only when bit 0x20 is clear. *)
Theorem ParseType_decision_table TagSelectRet :
  let t := u8 TagSelectRet in
  let r := MFRC522_ParseType TagSelectRet in
  (r = PICC_TYPE_NOT_COMPLETE <-> Z.testbit t 2 = true)
  /\ (r = PICC_TYPE_MIFARE_MINI <-> t = 0x09)
  /\ (r = PICC_TYPE_MIFARE_1K <-> t = 0x08)
  /\ (r = PICC_TYPE_MIFARE_4K <-> t = 0x18)
  /\ (r = PICC_TYPE_MIFARE_UL <-> t = 0x00)
  /\ (r = PICC_TYPE_MIFARE_PLUS <-> t = 0x10 \/ t = 0x11)
  /\ (r = PICC_TYPE_TNP3XXX <-> t = 0x01)
  /\ (r = PICC_TYPE_ISO_14443_4 -> Z.testbit t 5 = true)
  /\ (r = PICC_TYPE_ISO_18092 -> Z.testbit t 6 = true /\ Z.testbit t 5 = false).
Proof.
  cbn zeta. rewrite ParseType_byte. pose proof (u8_range TagSelectRet) as Hr.
  set (t := u8 TagSelectRet) in *.
  assert (H := forall_below 256
    (fun t =>
       let r := MFRC522_ParseType t in
       eqb (r =? PICC_TYPE_NOT_COMPLETE) (Z.testbit t 2)
       && (eqb (r =? PICC_TYPE_MIFARE_MINI) (t =? 0x09)
       && (eqb (r =? PICC_TYPE_MIFARE_1K) (t =? 0x08)
       && (eqb (r =? PICC_TYPE_MIFARE_4K) (t =? 0x18)
       && (eqb (r =? PICC_TYPE_MIFARE_UL) (t =? 0x00)
       && (eqb (r =? PICC_TYPE_MIFARE_PLUS) ((t =? 0x10) || (t =? 0x11))
       && (eqb (r =? PICC_TYPE_TNP3XXX) (t =? 0x01)
       && (implb (r =? PICC_TYPE_ISO_14443_4) (Z.testbit t 5)
       && implb (r =? PICC_TYPE_ISO_18092)
            (Z.testbit t 6 && negb (Z.testbit t 5))))))))))
    eq_refl t Hr).
  cbv beta zeta in H.
  apply andb_prop in H. destruct H as [H1 H].
  apply andb_prop in H. destruct H as [H2 H].
  apply andb_prop in H. destruct H as [H3 H].
  apply andb_prop in H. destruct H as [H4 H].
  apply andb_prop in H. destruct H as [H5 H].
  apply andb_prop in H. destruct H as [H6 H].
  apply andb_prop in H. destruct H as [H7 H].
  apply andb_prop in H. destruct H as [H8 H9].
  split; [exact (eqb_Zeqb_iff _ _ _ H1) |].
  split; [rewrite <- (Z.eqb_eq t); exact (eqb_Zeqb_iff _ _ _ H2) |].
  split; [rewrite <- (Z.eqb_eq t); exact (eqb_Zeqb_iff _ _ _ H3) |].
  split; [rewrite <- (Z.eqb_eq t); exact (eqb_Zeqb_iff _ _ _ H4) |].
  split; [rewrite <- (Z.eqb_eq t); exact (eqb_Zeqb_iff _ _ _ H5) |].
  split; [rewrite <- !(Z.eqb_eq t), <- orb_true_iff; exact (eqb_Zeqb_iff _ _ _ H6) |].
  split; [rewrite <- (Z.eqb_eq t); exact (eqb_Zeqb_iff _ _ _ H7) |].
  split; [exact (implb_Zeqb _ _ _ H8) |].
  intros Hr9. pose proof (implb_Zeqb _ _ _ H9 Hr9) as Hb.
  apply andb_prop in Hb. destruct Hb as [Hb6 Hb5].
  split; [exact Hb6 | apply negb_true_iff; exact Hb5].
Qed.

Section Coverage.

Context {dev : Type} `{!SpiBus dev}.

#[local] Abbreviation World := (World dev).
#[local] Abbreviation M := (M dev).

(** *** What goes out on the wire *)

Lemma written_to_cons addr e log :
  written_to addr (e :: log)
  = written_to addr log
    ++ match e with
       | Xfer tx0 tx1 _ _ => if tx0 =? write_frame addr then [tx1] else []
       | Sleep _ => []
       end.
Proof.
  unfold written_to. destruct e as [tx0 tx1 rx0 rx1 | us]; cbn [omap list_omap].
  - destruct (tx0 =? write_frame addr); cbn [rev]; [reflexivity |].
    rewrite app_nil_r. reflexivity.
  - rewrite app_nil_r. reflexivity.
Qed.

Lemma WriteRegister_bus a v w :
  exists rx0 rx1,
    bus (MFRC522_WriteRegister a v w).2
    = Xfer (write_frame a) (u8 v) rx0 rx1 :: bus w.
Proof.
  unfold MFRC522_WriteRegister, MFRC522_HAL_write.
  destruct (spi_xfer _ _) as [[rx0 rx1] c]. eauto.
Qed.

Lemma written_to_WriteRegister addr a v w :
  written_to addr (bus (MFRC522_WriteRegister a v w).2)
  = written_to addr (bus w)
    ++ (if write_frame a =? write_frame addr then [u8 v] else []).
Proof.
  destruct (WriteRegister_bus a v w) as (rx0 & rx1 & ->).
  apply written_to_cons.
Qed.

Lemma written_to_ReadRegister addr a w :
  written_to addr (bus (MFRC522_ReadRegister a w).2) = written_to addr (bus w).
Proof.
  destruct (ReadRegister_bus a w) as (rx0 & rx1 & -> & _).
  rewrite written_to_cons.
  destruct (Z.eqb_spec (read_frame a) (write_frame addr)) as [E|_];
    [| apply app_nil_r].
  symmetry in E. destruct (write_frame_not_read _ _ E).
Qed.

Lemma written_to_Delay addr ms w :
  written_to addr (bus (MFRC522_HAL_Delay ms w).2) = written_to addr (bus w).
Proof.
  unfold MFRC522_HAL_Delay. cbn [snd bus]. rewrite written_to_cons.
  apply app_nil_r.
Qed.

Lemma written_to_SetBitMask addr reg mask w :
  written_to addr (bus (MFRC522_SetBitMask reg mask w).2)
  = written_to addr (bus w)
    ++ (if write_frame reg =? write_frame addr
        then [u8 (Z.lor (MFRC522_ReadRegister reg w).1 mask)] else []).
Proof.
  unfold MFRC522_SetBitMask. rewrite bind_run, written_to_WriteRegister,
    written_to_ReadRegister. reflexivity.
Qed.

Lemma written_to_ClearBitMask addr reg mask w :
  written_to addr (bus (MFRC522_ClearBitMask reg mask w).2)
  = written_to addr (bus w)
    ++ (if write_frame reg =? write_frame addr
        then [u8 (Z.land (MFRC522_ReadRegister reg w).1 (Z.lnot mask))] else []).
Proof.
  unfold MFRC522_ClearBitMask. rewrite bind_run, written_to_WriteRegister,
    written_to_ReadRegister. reflexivity.
Qed.

(** A loop of register writes puts the written bytes on the wire in
    order. *)
Lemma written_to_write_loop addr reg (data : list Z) count : forall lo u w,
  written_to addr
    (bus (for_range lo count
            (fun i _ => MFRC522_WriteRegister reg (load data i)) u w).2)
  = written_to addr (bus w)
    ++ (if write_frame reg =? write_frame addr
        then map (load data) (seq lo count) else []).
Proof.
  induction count as [|count IH]; intros lo u w.
  - cbn [for_range seq map]. rewrite ret_run. cbn [snd].
    destruct (_ =? _); rewrite app_nil_r; reflexivity.
  - cbn [for_range seq map]. rewrite bind_run, IH, written_to_WriteRegister.
    rewrite <- app_assoc. f_equal.
    destruct (_ =? _); [| reflexivity].
    cbn [app]. rewrite (u8_small (load data lo)) by apply load_range.
    reflexivity.
Qed.

(** A loop that only reads registers writes nothing. *)
Lemma written_to_read_loop addr reg count : forall lo (buf : list Z) w,
  written_to addr
    (bus (for_range lo count
            (fun i b => bind (MFRC522_ReadRegister reg) (fun v => ret (store b i v)))
            buf w).2)
  = written_to addr (bus w).
Proof.
  induction count as [|count IH]; intros lo buf w.
  - reflexivity.
  - cbn [for_range]. rewrite !bind_run, IH, ret_run. cbn [snd].
    apply written_to_ReadRegister.
Qed.

Lemma written_to_ToCard_poll addr waitIRq k : forall w,
  written_to addr (bus (ToCard_poll waitIRq k w).2) = written_to addr (bus w).
Proof.
  induction k as [|k IH]; intros w; cbn [ToCard_poll]; rewrite !bind_run.
  - rewrite ret_run. cbn [snd]. rewrite written_to_ReadRegister, written_to_Delay.
    reflexivity.
  - destruct (irq_fired waitIRq _).
    + rewrite ret_run. cbn [snd]. rewrite written_to_ReadRegister, written_to_Delay.
      reflexivity.
    + rewrite IH, written_to_ReadRegister, written_to_Delay. reflexivity.
Qed.

Lemma written_to_CalculateCRC_poll addr k : forall w,
  written_to addr (bus (CalculateCRC_poll k w).2) = written_to addr (bus w).
Proof.
  induction k as [|k IH]; intros w; cbn [CalculateCRC_poll]; rewrite bind_run.
  - rewrite ret_run. cbn [snd]. apply written_to_ReadRegister.
  - destruct (negb _).
    + rewrite ret_run. cbn [snd]. apply written_to_ReadRegister.
    + rewrite IH. apply written_to_ReadRegister.
Qed.

(** Decide comparisons of write frames of known registers. *)
Ltac wframe_cmp :=
  repeat match goal with
  | |- context [write_frame ?a =? write_frame ?b] =>
      let v := eval vm_compute in (write_frame a =? write_frame b) in
      lazymatch v with
      | true => change (write_frame a =? write_frame b) with true
      | false => change (write_frame a =? write_frame b) with false
      end
  end.

(** Push [written_to] through straight-line driver code. *)
Ltac wire :=
  repeat first
    [ rewrite bind_run
    | rewrite ret_run
    | rewrite written_to_WriteRegister
    | rewrite written_to_ReadRegister
    | rewrite written_to_SetBitMask
    | rewrite written_to_ClearBitMask
    | rewrite written_to_Delay
    | rewrite written_to_write_loop
    | rewrite written_to_read_loop
    | rewrite written_to_ToCard_poll
    | rewrite written_to_CalculateCRC_poll
    | progress cbn [fst snd] ];
  wframe_cmp; cbv iota; rewrite ?app_nil_r, <- ?app_assoc.

Lemma written_to_ToCard_start addr command sendData sendLen w :
  addr = MFRC522_REG_FIFO_DATA \/ addr = MFRC522_REG_COMMAND ->
  written_to addr (bus (ToCard_polled command sendData sendLen w))
  = written_to addr (bus w)
    ++ (if addr =? MFRC522_REG_FIFO_DATA
        then map (load sendData) (seq 0 (Z.to_nat (u8 sendLen)))
        else [PCD_IDLE; u8 command]).
Proof.
  unfold ToCard_polled, ToCard_start.
  destruct (irq_masks command) as [irqEn waitIRq].
  intros [-> | ->]; destruct (command =? PCD_TRANSCEIVE); wire; reflexivity.
Qed.

Lemma written_to_ToCard_receive addr backData w :
  written_to addr (bus (ToCard_receive backData w).2) = written_to addr (bus w).
Proof. unfold ToCard_receive. wire. reflexivity. Qed.

Lemma written_to_ToCard addr command sendData sendLen backData backLen0 w :
  addr = MFRC522_REG_FIFO_DATA \/ addr = MFRC522_REG_COMMAND ->
  written_to addr
    (bus (MFRC522_ToCard command sendData sendLen backData backLen0 w).2)
  = written_to addr (bus w)
    ++ (if addr =? MFRC522_REG_FIFO_DATA
        then map (load sendData) (seq 0 (Z.to_nat (u8 sendLen)))
        else [PCD_IDLE; u8 command]).
Proof.
  intros Haddr. rewrite ToCard_run. cbn zeta.
  destruct (ToCard_poll_exit command sendData sendLen w).1 as [|i]; cbn [snd].
  - apply written_to_ToCard_start. exact Haddr.
  - destruct (Z.land _ 27 =? 0); [destruct (command =? PCD_TRANSCEIVE) |];
      cbn [snd]; rewrite ?written_to_ToCard_receive, written_to_ReadRegister;
      apply written_to_ToCard_start; exact Haddr.
Qed.

Lemma cleared_bit7 r : Z.testbit (u8 (Z.land r (Z.lnot 0x80))) 7 = false.
Proof.
  unfold u8. change 256 with (2 ^ 8). rewrite Z.mod_pow2_bits_low by lia.
  rewrite Z.land_spec, Z.lnot_spec by lia.
  change (Z.testbit 128 7) with true. apply andb_false_r.
Qed.

(** X4.  Whatever the outcome, [MFRC522_ToCard] puts on the wire: into
    the FIFO exactly the first [sendLen] bytes of [sendData], in order;
    into the command register [PCD_IDLE] and then the command; and its
    last write to the bit-framing register has StartSend (bit 7)
    clear. *)
Theorem ToCard_wire command sendData sendLen backData backLen0 w :
  let w' := (MFRC522_ToCard command sendData sendLen backData backLen0 w).2 in
  written_to MFRC522_REG_FIFO_DATA (bus w')
  = written_to MFRC522_REG_FIFO_DATA (bus w)
    ++ map (load sendData) (seq 0 (Z.to_nat (u8 sendLen)))
  /\ written_to MFRC522_REG_COMMAND (bus w')
     = written_to MFRC522_REG_COMMAND (bus w) ++ [PCD_IDLE; u8 command]
  /\ (exists pre v,
        written_to MFRC522_REG_BIT_FRAMING (bus w') = pre ++ [v]
        /\ Z.testbit v 7 = false).
Proof.
  cbn zeta. split; [| split].
  - rewrite written_to_ToCard by (left; reflexivity). reflexivity.
  - rewrite written_to_ToCard by (right; reflexivity). reflexivity.
  - assert (Hstart : exists pre v,
        written_to MFRC522_REG_BIT_FRAMING
          (bus (ToCard_polled command sendData sendLen w)) = pre ++ [v]
        /\ Z.testbit v 7 = false).
    { unfold ToCard_polled, ToCard_start.
      destruct (irq_masks command) as [irqEn waitIRq].
      destruct (command =? PCD_TRANSCEIVE); wire;
        rewrite ?app_assoc; eexists _, _; (split; [reflexivity | apply cleared_bit7]). }
    destruct Hstart as (pre & v & Hw & Hv). exists pre, v. split; [| exact Hv].
    rewrite ToCard_run. cbn zeta.
    destruct (ToCard_poll_exit command sendData sendLen w).1 as [|i]; cbn [snd];
      [exact Hw |].
    destruct (Z.land _ 27 =? 0); [destruct (command =? PCD_TRANSCEIVE) |];
      cbn [snd]; rewrite ?written_to_ToCard_receive, written_to_ReadRegister;
      exact Hw.
Qed.

(** *** The flag [Checking_Card] and the time slept *)

Lemma flag_WriteRegister a v w :
  Checking_Card (MFRC522_WriteRegister a v w).2 = Checking_Card w.
Proof.
  unfold MFRC522_WriteRegister, MFRC522_HAL_write.
  destruct (spi_xfer _ _) as [[rx0 rx1] c]. reflexivity.
Qed.

Lemma flag_ReadRegister a w :
  Checking_Card (MFRC522_ReadRegister a w).2 = Checking_Card w.
Proof.
  unfold MFRC522_ReadRegister, MFRC522_HAL_read.
  destruct (spi_xfer _ _) as [[rx0 rx1] c]. reflexivity.
Qed.

Lemma flag_Delay ms w : Checking_Card (MFRC522_HAL_Delay ms w).2 = Checking_Card w.
Proof. reflexivity. Qed.

Lemma flag_SetBitMask reg mask w :
  Checking_Card (MFRC522_SetBitMask reg mask w).2 = Checking_Card w.
Proof.
  unfold MFRC522_SetBitMask. rewrite bind_run, flag_WriteRegister.
  apply flag_ReadRegister.
Qed.

Lemma flag_ClearBitMask reg mask w :
  Checking_Card (MFRC522_ClearBitMask reg mask w).2 = Checking_Card w.
Proof.
  unfold MFRC522_ClearBitMask. rewrite bind_run, flag_WriteRegister.
  apply flag_ReadRegister.
Qed.

Lemma flag_for_range {A} (body : nat -> A -> M A) :
  (forall i a w, Checking_Card (body i a w).2 = Checking_Card w) ->
  forall count lo a w,
    Checking_Card (for_range lo count body a w).2 = Checking_Card w.
Proof.
  intros Hbody. induction count as [|count IH]; intros lo a w; [reflexivity |].
  cbn [for_range]. rewrite bind_run, IH. apply Hbody.
Qed.

Lemma flag_ToCard_poll waitIRq k : forall w,
  Checking_Card (ToCard_poll waitIRq k w).2 = Checking_Card w.
Proof.
  induction k as [|k IH]; intros w; cbn [ToCard_poll]; rewrite !bind_run.
  - rewrite ret_run. cbn [snd]. rewrite flag_ReadRegister. reflexivity.
  - destruct (irq_fired waitIRq _).
    + rewrite ret_run. cbn [snd]. rewrite flag_ReadRegister. reflexivity.
    + rewrite IH, flag_ReadRegister. reflexivity.
Qed.

Lemma flag_CalculateCRC_poll k : forall w,
  Checking_Card (CalculateCRC_poll k w).2 = Checking_Card w.
Proof.
  induction k as [|k IH]; intros w; cbn [CalculateCRC_poll]; rewrite bind_run.
  - rewrite ret_run. cbn [snd]. apply flag_ReadRegister.
  - destruct (negb _).
    + rewrite ret_run. cbn [snd]. apply flag_ReadRegister.
    + rewrite IH. apply flag_ReadRegister.
Qed.

(** Push [Checking_Card] through straight-line driver code. *)
Ltac flag :=
  repeat first
    [ rewrite bind_run
    | rewrite ret_run
    | rewrite flag_WriteRegister
    | rewrite flag_ReadRegister
    | rewrite flag_SetBitMask
    | rewrite flag_ClearBitMask
    | rewrite flag_Delay
    | rewrite flag_ToCard_poll
    | rewrite flag_CalculateCRC_poll
    | rewrite flag_for_range
        by (intros; repeat first
              [ rewrite bind_run | rewrite ret_run | rewrite flag_WriteRegister
              | rewrite flag_ReadRegister | progress cbn [fst snd] ]; reflexivity)
    | progress cbn [fst snd] ].

Lemma flag_ToCard_start command sendData sendLen w :
  Checking_Card (ToCard_polled command sendData sendLen w) = Checking_Card w.
Proof.
  unfold ToCard_polled, ToCard_start.
  destruct (irq_masks command) as [irqEn waitIRq].
  destruct (command =? PCD_TRANSCEIVE); flag; reflexivity.
Qed.

Lemma flag_ToCard_receive backData w :
  Checking_Card (ToCard_receive backData w).2 = Checking_Card w.
Proof. unfold ToCard_receive. flag. reflexivity. Qed.

Lemma flag_ToCard command sendData sendLen backData backLen0 w :
  Checking_Card (MFRC522_ToCard command sendData sendLen backData backLen0 w).2
  = Checking_Card w.
Proof.
  rewrite ToCard_run. cbn zeta.
  destruct (ToCard_poll_exit command sendData sendLen w).1 as [|i]; cbn [snd];
    [apply flag_ToCard_start |].
  destruct (Z.land _ 27 =? 0); [destruct (command =? PCD_TRANSCEIVE) |];
    cbn [snd]; rewrite ?flag_ToCard_receive, flag_ReadRegister;
    apply flag_ToCard_start.
Qed.

Lemma slept_WriteRegister a v w :
  slept (bus (MFRC522_WriteRegister a v w).2) = slept (bus w).
Proof. destruct (WriteRegister_bus a v w) as (rx0 & rx1 & ->). reflexivity. Qed.

Lemma slept_ReadRegister a w :
  slept (bus (MFRC522_ReadRegister a w).2) = slept (bus w).
Proof. destruct (ReadRegister_bus a w) as (rx0 & rx1 & -> & _). reflexivity. Qed.

Lemma slept_Delay ms w :
  slept (bus (MFRC522_HAL_Delay ms w).2) = ms * 1000 + slept (bus w).
Proof. reflexivity. Qed.

Lemma slept_SetBitMask reg mask w :
  slept (bus (MFRC522_SetBitMask reg mask w).2) = slept (bus w).
Proof.
  unfold MFRC522_SetBitMask. rewrite bind_run, slept_WriteRegister.
  apply slept_ReadRegister.
Qed.

Lemma slept_ClearBitMask reg mask w :
  slept (bus (MFRC522_ClearBitMask reg mask w).2) = slept (bus w).
Proof.
  unfold MFRC522_ClearBitMask. rewrite bind_run, slept_WriteRegister.
  apply slept_ReadRegister.
Qed.

Lemma slept_for_range {A} (body : nat -> A -> M A) :
  (forall i a w, slept (bus (body i a w).2) = slept (bus w)) ->
  forall count lo a w,
    slept (bus (for_range lo count body a w).2) = slept (bus w).
Proof.
  intros Hbody. induction count as [|count IH]; intros lo a w; [reflexivity |].
  cbn [for_range]. rewrite bind_run, IH. apply Hbody.
Qed.

(** The time one pass of the poll loop sleeps, in microseconds. *)
Lemma slept_ToCard_poll waitIRq k : forall w,
  slept (bus (ToCard_poll waitIRq k w).2)
  = slept (bus w)
    + Z.of_nat (S k - (ToCard_poll waitIRq k w).1.1)
      * (if Checking_Card w =? 0 then 20000 else 16000).
Proof.
  induction k as [|k IH]; intros w; cbn [ToCard_poll]; rewrite !bind_run.
  - rewrite ret_run. cbn [fst snd]. rewrite slept_ReadRegister, slept_Delay.
    cbn [get_Checking_Card fst snd]. destruct (Checking_Card w =? 0); lia.
  - destruct (irq_fired waitIRq _).
    + rewrite ret_run. cbn [fst snd]. rewrite slept_ReadRegister, slept_Delay.
      cbn [get_Checking_Card fst snd].
      replace (S (S k) - S k)%nat with 1%nat by lia.
      destruct (Checking_Card w =? 0); lia.
    + rewrite IH, slept_ReadRegister, slept_Delay, flag_ReadRegister.
      cbn [get_Checking_Card fst snd MFRC522_HAL_Delay Checking_Card].
      match goal with
      | |- context [(ToCard_poll waitIRq k ?w').1.1] =>
          pose proof (proj1 (ToCard_poll_exit_fired waitIRq k w')) as Hle;
          set (i := (ToCard_poll waitIRq k w').1.1) in *
      end.
      cbn zeta in Hle. replace (S (S k) - i)%nat with (S (S k - i))%nat by lia.
      rewrite (Nat2Z.inj_succ (S k - i)). destruct (Checking_Card w =? 0); lia.
Qed.

Lemma slept_CalculateCRC_poll k : forall w,
  slept (bus (CalculateCRC_poll k w).2) = slept (bus w).
Proof.
  induction k as [|k IH]; intros w; cbn [CalculateCRC_poll]; rewrite bind_run.
  - rewrite ret_run. cbn [snd]. apply slept_ReadRegister.
  - destruct (negb _).
    + rewrite ret_run. cbn [snd]. apply slept_ReadRegister.
    + rewrite IH. apply slept_ReadRegister.
Qed.

(** Push [slept] through straight-line driver code. *)
Ltac naps :=
  repeat first
    [ rewrite bind_run
    | rewrite ret_run
    | rewrite slept_WriteRegister
    | rewrite slept_ReadRegister
    | rewrite slept_SetBitMask
    | rewrite slept_ClearBitMask
    | rewrite slept_CalculateCRC_poll
    | rewrite slept_for_range
        by (intros; repeat first
              [ rewrite bind_run | rewrite ret_run | rewrite slept_WriteRegister
              | rewrite slept_ReadRegister | progress cbn [fst snd] ]; reflexivity)
    | progress cbn [fst snd] ].

Lemma slept_ToCard_start command sendData sendLen w :
  slept (bus (ToCard_polled command sendData sendLen w))
  = slept (bus w)
    + Z.of_nat (2000 - (ToCard_poll_exit command sendData sendLen w).1)
      * (if Checking_Card w =? 0 then 20000 else 16000).
Proof.
  unfold ToCard_polled, ToCard_poll_exit, ToCard_start.
  destruct (irq_masks command) as [irqEn waitIRq].
  destruct (command =? PCD_TRANSCEIVE); naps;
    rewrite slept_ToCard_poll; naps; flag; reflexivity.
Qed.

Lemma slept_ToCard_receive backData w :
  slept (bus (ToCard_receive backData w).2) = slept (bus w).
Proof. unfold ToCard_receive. naps. reflexivity. Qed.

(** X5.  [MFRC522_ToCard] sleeps once per poll and nowhere else: with
    [i] the counter at loop exit it has slept [2000 - i] times 20 ms, or
    16 ms while [Checking_Card] is set, so never more than 40 s; it
    leaves [Checking_Card] as it found it. *)
Theorem ToCard_sleep_budget command sendData sendLen backData backLen0 w :
  let w' := (MFRC522_ToCard command sendData sendLen backData backLen0 w).2 in
  let i := (ToCard_poll_exit command sendData sendLen w).1 in
  slept (bus w')
  = slept (bus w)
    + Z.of_nat (2000 - i) * (if Checking_Card w =? 0 then 20000 else 16000)
  /\ slept (bus w') - slept (bus w) <= 40000000
  /\ Checking_Card w' = Checking_Card w.
Proof.
  cbn zeta.
  assert (Hs : slept
      (bus (MFRC522_ToCard command sendData sendLen backData backLen0 w).2)
    = slept (bus w)
      + Z.of_nat (2000 - (ToCard_poll_exit command sendData sendLen w).1)
        * (if Checking_Card w =? 0 then 20000 else 16000)).
  { rewrite ToCard_run. cbn zeta.
    destruct (ToCard_poll_exit command sendData sendLen w).1 as [|i] eqn:Ei;
      cbn [snd].
    - rewrite slept_ToCard_start, Ei. reflexivity.
    - destruct (Z.land _ 27 =? 0); [destruct (command =? PCD_TRANSCEIVE) |];
        cbn [snd]; rewrite ?slept_ToCard_receive, slept_ReadRegister,
          slept_ToCard_start, Ei; reflexivity. }
  split; [exact Hs |]. split; [| apply flag_ToCard].
  rewrite Hs. destruct (Checking_Card w =? 0); lia.
Qed.

(** *** What a transaction does to the caller's buffer *)

(** The drain loop touches [buf[lo .. lo + count - 1]] only. *)
Lemma drain_loop_frame count : forall lo (buf : list Z) w,
  let r := for_range lo count
             (fun i b => bind (MFRC522_ReadRegister MFRC522_REG_FIFO_DATA)
                           (fun v => ret (store b i v))) buf w in
  length r.1 = length buf
  /\ take lo r.1 = take lo buf
  /\ drop (lo + count) r.1 = drop (lo + count) buf.
Proof.
  induction count as [|count IH]; intros lo buf w; cbn zeta.
  - cbn [for_range]. rewrite ret_run. cbn [fst]. auto.
  - cbn [for_range]. rewrite !bind_run, ret_run. cbn [fst snd].
    match goal with
    | |- context [for_range (S lo) count ?body ?b ?w'] =>
        destruct (IH (S lo) b w') as (Hl & Ht & Hd)
    end.
    cbn zeta in Hl, Ht, Hd. rewrite length_store in Hl.
    split; [exact Hl |]. split.
    + apply (f_equal (take lo)) in Ht. rewrite !take_take in Ht.
      rewrite !Nat.min_l in Ht by lia. rewrite Ht.
      unfold store. apply take_insert_ge. lia.
    + replace (lo + S count)%nat with (S lo + count)%nat by lia. rewrite Hd.
      unfold store. apply drop_insert_lt. lia.
Qed.

Lemma drain_count_range n : 0 <= n -> 1 <= drain_count n <= 16.
Proof.
  intros Hn. unfold drain_count, MFRC522_MAX_LEN.
  destruct (Z.eqb_spec n 0) as [->|]; [cbn; lia |].
  destruct (Z.gtb_spec n 16); lia.
Qed.

Lemma ToCard_receive_frame backData w :
  let r := ToCard_receive backData w in
  length r.1.1 = length backData /\ drop 16 r.1.1 = drop 16 backData.
Proof.
  cbn zeta. unfold ToCard_receive. rewrite !bind_run, ret_run. cbn [fst snd].
  pose proof (ReadRegister_range MFRC522_REG_FIFO_LEVEL w) as Hlvl.
  pose proof (drain_count_range _ (proj1 Hlvl)) as Hk.
  match goal with
  | |- context [for_range 0 ?c ?body backData ?w'] =>
      destruct (drain_loop_frame c 0 backData w') as (Hl & _ & Hd);
      set (k := c) in *
  end.
  cbn zeta in Hl, Hd. split; [exact Hl |].
  replace 16%nat with (k + (16 - k))%nat by (subst k; lia).
  rewrite <- !drop_drop. cbn [Nat.add] in Hd. rewrite Hd. reflexivity.
Qed.

(** X6.  [MFRC522_ToCard] returns [MI_OK], [MI_NOTAGERR] or [MI_ERR].
    It never changes the length of [backData] nor any byte from index
    16 on; when it returns [MI_ERR], and for every command other than
    the transceive command, [backData] and [*backLen] are left exactly
    as they were. *)
Theorem ToCard_result_bounds command sendData sendLen backData backLen0 w :
  let r := (MFRC522_ToCard command sendData sendLen backData backLen0 w).1 in
  (r.1.1 = MI_OK \/ r.1.1 = MI_NOTAGERR \/ r.1.1 = MI_ERR)
  /\ length r.1.2 = length backData
  /\ drop 16 r.1.2 = drop 16 backData
  /\ (r.1.1 = MI_ERR -> r.1.2 = backData /\ r.2 = backLen0)
  /\ (command <> PCD_TRANSCEIVE -> r.1.2 = backData /\ r.2 = backLen0).
Proof.
  cbn zeta. rewrite ToCard_run. cbn zeta.
  destruct (ToCard_poll_exit command sendData sendLen w).1 as [|i]; cbn [fst snd];
    [repeat split; auto |].
  destruct (Z.land _ 27 =? 0); cbn [fst snd]; [| repeat split; auto].
  destruct (Z.eqb_spec command PCD_TRANSCEIVE) as [Hc|Hc]; cbn [fst snd].
  - match goal with
    | |- context [ToCard_receive backData ?w'] =>
        destruct (ToCard_receive_frame backData w') as (Hl & Hd)
    end.
    cbn zeta in Hl, Hd.
    destruct (Z.land (Z.land _ _) 1 =? 0);
      (split; [auto |]; split; [exact Hl |]; split; [exact Hd |];
       split; [discriminate | intros; contradiction]).
  - destruct (Z.land (Z.land _ _) 1 =? 0); repeat split; auto; discriminate.
Qed.

(** *** Frames with a CRC suffix *)

Lemma written_to_CalculateCRC addr pIndata len pOutData w :
  addr = MFRC522_REG_FIFO_DATA \/ addr = MFRC522_REG_COMMAND ->
  written_to addr (bus (MFRC522_CalculateCRC pIndata len pOutData w).2)
  = written_to addr (bus w)
    ++ (if addr =? MFRC522_REG_FIFO_DATA
        then map (load pIndata) (seq 0 (Z.to_nat (u8 len)))
        else [PCD_CALCCRC]).
Proof.
  unfold MFRC522_CalculateCRC, CalculateCRC_start.
  intros [-> | ->]; wire; reflexivity.
Qed.

Lemma append_CRC_world buf n w :
  (append_CRC buf n w).2
  = (MFRC522_CalculateCRC buf (Z.of_nat n) (at_offset n buf) w).2.
Proof. unfold append_CRC. rewrite bind_run, ret_run. reflexivity. Qed.

Lemma append_CRC_buffer buf n w :
  (append_CRC buf n w).1
  = take n buf
    ++ store (store (drop n buf) 0 (CRC_result buf (Z.of_nat n) w).1) 1
         (CRC_result buf (Z.of_nat n) w).2.
Proof.
  unfold append_CRC, MFRC522_CalculateCRC, CRC_result, splice, at_offset.
  rewrite !bind_run, !ret_run. reflexivity.
Qed.

Lemma CRC_result_range pIndata len w :
  0 <= (CRC_result pIndata len w).1 < 256 /\ 0 <= (CRC_result pIndata len w).2 < 256.
Proof. unfold CRC_result. cbn [fst snd]. split; apply ReadRegister_range. Qed.

Lemma load_take (buf : list Z) n i : (i < n)%nat -> load (take n buf) i = load buf i.
Proof. intros Hi. unfold load. rewrite lookup_take_lt by exact Hi. reflexivity. Qed.

Lemma load_app_at (l1 l2 : list Z) n j :
  length l1 = n -> (n <= j)%nat -> load (l1 ++ l2) j = load l2 (j - n).
Proof.
  intros Hl Hj. unfold load. rewrite lookup_app_r by lia. rewrite Hl. reflexivity.
Qed.

(** The buffer after [MFRC522_CalculateCRC(buf, n, &buf[n])]: the first
    [n] bytes as before, then the CRC low and high bytes. *)
Lemma load_append_CRC buf n w :
  (n + 2 <= length buf)%nat ->
  let b := (append_CRC buf n w).1 in
  (forall i, (i < n)%nat -> load b i = load buf i)
  /\ load b n = (CRC_result buf (Z.of_nat n) w).1
  /\ load b (S n) = (CRC_result buf (Z.of_nat n) w).2.
Proof.
  intros Hlen. cbn zeta. rewrite append_CRC_buffer.
  destruct (CRC_result_range buf (Z.of_nat n) w) as [Hlo Hhi].
  assert (Ht : length (take n buf) = n) by (rewrite length_take; lia).
  split; [| split].
  - intros i Hi. rewrite load_app_l by lia. apply load_take. exact Hi.
  - rewrite (load_app_at _ _ n n Ht) by lia. rewrite Nat.sub_diag.
    rewrite load_store_ne by lia.
    rewrite load_store_eq by (rewrite length_drop; lia).
    apply u8_small. exact Hlo.
  - rewrite (load_app_at _ _ n (S n) Ht) by lia.
    replace (S n - n)%nat with 1%nat by lia.
    rewrite load_store_eq by (rewrite length_store, length_drop; lia).
    apply u8_small. exact Hhi.
Qed.

Lemma map_load_append_CRC buf n w :
  (n + 2 <= length buf)%nat ->
  map (load (append_CRC buf n w).1) (seq 0 (n + 2))
  = map (load buf) (seq 0 n)
    ++ [(CRC_result buf (Z.of_nat n) w).1; (CRC_result buf (Z.of_nat n) w).2].
Proof.
  intros Hlen. destruct (load_append_CRC buf n w Hlen) as (Hpre & Hlo & Hhi).
  cbn zeta in Hpre, Hlo, Hhi.
  rewrite seq_app, List.map_app. cbn [seq map Nat.add]. rewrite Hlo, Hhi.
  f_equal. apply map_ext_in. intros i Hi. apply in_seq in Hi. apply Hpre. lia.
Qed.

(** A frame of [n] bytes sent with its CRC: the FIFO first gets the [n]
    bytes for the CRC unit, then the [n] bytes followed by the CRC low
    and high bytes; the command register gets "calculate CRC", "idle",
    "transceive". *)
Lemma framed_exchange_wire buf n sendLen bits0 w :
  (n + 2 <= length buf)%nat -> Z.to_nat (u8 sendLen) = (n + 2)%nat ->
  Z.to_nat (u8 (Z.of_nat n)) = n ->
  let b := (append_CRC buf n w).1 in
  let w' := (MFRC522_ToCard PCD_TRANSCEIVE b sendLen b bits0 (append_CRC buf n w).2).2 in
  written_to MFRC522_REG_FIFO_DATA (bus w')
  = written_to MFRC522_REG_FIFO_DATA (bus w)
    ++ map (load buf) (seq 0 n)
    ++ map (load buf) (seq 0 n)
    ++ [(CRC_result buf (Z.of_nat n) w).1; (CRC_result buf (Z.of_nat n) w).2]
  /\ written_to MFRC522_REG_COMMAND (bus w')
     = written_to MFRC522_REG_COMMAND (bus w)
       ++ [PCD_CALCCRC; PCD_IDLE; PCD_TRANSCEIVE].
Proof.
  intros Hlen Hsend Hn. cbn zeta. split.
  - rewrite written_to_ToCard by (left; reflexivity).
    change (MFRC522_REG_FIFO_DATA =? MFRC522_REG_FIFO_DATA) with true. cbv iota.
    rewrite Hsend, map_load_append_CRC by exact Hlen.
    rewrite append_CRC_world, written_to_CalculateCRC by (left; reflexivity).
    change (MFRC522_REG_FIFO_DATA =? MFRC522_REG_FIFO_DATA) with true. cbv iota.
    rewrite Hn, <- app_assoc. reflexivity.
  - rewrite written_to_ToCard by (right; reflexivity).
    change (MFRC522_REG_COMMAND =? MFRC522_REG_FIFO_DATA) with false. cbv iota.
    rewrite append_CRC_world, written_to_CalculateCRC by (right; reflexivity).
    change (MFRC522_REG_COMMAND =? MFRC522_REG_FIFO_DATA) with false. cbv iota.
    rewrite <- app_assoc. reflexivity.
Qed.

(** *** Request and read *)

(** Decide comparisons of read frames of known registers. *)
Ltac rframe_cmp :=
  repeat match goal with
  | |- context [read_frame ?a =? read_frame ?b] =>
      let v := eval vm_compute in (read_frame a =? read_frame b) in
      lazymatch v with
      | true => change (read_frame a =? read_frame b) with true
      | false => change (read_frame a =? read_frame b) with false
      end
  end.

(** Push [reads_of] through straight-line driver code. *)
Ltac tally :=
  repeat first
    [ rewrite bind_run
    | rewrite ret_run
    | rewrite reads_of_WriteRegister
    | rewrite reads_of_ReadRegister
    | rewrite reads_of_SetBitMask
    | rewrite reads_of_ClearBitMask
    | rewrite reads_of_Delay
    | rewrite reads_of_fifo_write
    | rewrite reads_of_ToCard_poll
    | rewrite reads_of_CalculateCRC_poll
    | progress cbn [fst snd] ];
  rframe_cmp; cbv iota.

Lemma reads_of_fifo_append_CRC buf n w :
  reads_of MFRC522_REG_FIFO_DATA (bus (append_CRC buf n w).2)
  = reads_of MFRC522_REG_FIFO_DATA (bus w).
Proof.
  rewrite append_CRC_world. unfold MFRC522_CalculateCRC, CalculateCRC_start.
  tally. reflexivity.
Qed.

(** A bit count that is a whole number [k] of bytes comes from FIFO
    level [k] with no stray bits. *)
Lemma received_bits_bytes n lastBits k :
  0 <= n < 256 -> 0 <= lastBits < 8 -> 0 < k < 256 ->
  received_bits n lastBits = 8 * k -> n = k /\ lastBits = 0.
Proof.
  intros Hn Hl Hk. unfold received_bits, u16.
  destruct (Z.eqb_spec lastBits 0) as [->|Hnz].
  - rewrite Z.mod_small by lia. lia.
  - destruct (Z.eq_dec n 0) as [->|Hn0].
    + rewrite <- (Z.mod_add ((0 - 1) * 8 + lastBits) 1 65536) by lia.
      rewrite Z.mod_small by lia. lia.
    + rewrite Z.mod_small by lia. lia.
Qed.

(** A successful transceive that reports [8 * k] bits read [k] bytes
    (at most 16) out of the FIFO into the front of the buffer. *)
Lemma ToCard_whole_bytes sendData sendLen backData backLen0 w k :
  let r := MFRC522_ToCard PCD_TRANSCEIVE sendData sendLen backData backLen0 w in
  let d := Z.to_nat (Z.min 16 k) in
  r.1.1.1 = MI_OK -> r.1.2 = 8 * k -> 0 < k < 256 ->
  reads_of MFRC522_REG_FIFO_DATA (bus r.2)
  = (reads_of MFRC522_REG_FIFO_DATA (bus w) + d)%nat
  /\ ((d <= length backData)%nat ->
      take d r.1.1.2 = last_received d (bus r.2)).
Proof.
  cbn zeta. intros Hok Hbits Hk.
  destruct (ToCard_ok_reply sendData sendLen backData backLen0 w Hok)
    as (Hlvl & Hb & Hreads & Hdata).
  rewrite Hbits in Hb. symmetry in Hb.
  apply received_bits_bytes in Hb; [| exact Hlvl | apply land_7_range | exact Hk].
  destruct Hb as [Hb _]. rewrite Hb in Hreads, Hdata.
  assert (Hd : drain_count k = Z.min 16 k).
  { unfold drain_count, MFRC522_MAX_LEN.
    destruct (Z.eqb_spec k 0); [lia |]. destruct (Z.gtb_spec k 16); lia. }
  rewrite Hd in Hreads, Hdata. split; [exact Hreads |].
  intros Hlen. destruct (Hdata Hlen) as [Hk' ->].
  rewrite take_app_length' by (symmetry; exact Hk'). reflexivity.
Qed.

(** The writes to a register during a transaction come after those
    already on the log. *)
Lemma written_to_ToCard_grows addr command sendData sendLen backData backLen0 w :
  exists post,
    written_to addr
      (bus (MFRC522_ToCard command sendData sendLen backData backLen0 w).2)
    = written_to addr (bus w) ++ post.
Proof.
  assert (Hstart : exists post,
    written_to addr (bus (ToCard_polled command sendData sendLen w))
    = written_to addr (bus w) ++ post).
  { unfold ToCard_polled, ToCard_start.
    destruct (irq_masks command) as [irqEn waitIRq].
    destruct (command =? PCD_TRANSCEIVE); wire; eexists; reflexivity. }
  destruct Hstart as (post & Hpost). exists post.
  rewrite ToCard_run. cbn zeta.
  destruct (ToCard_poll_exit command sendData sendLen w).1 as [|i]; cbn [snd];
    [exact Hpost |].
  destruct (Z.land _ 27 =? 0); [destruct (command =? PCD_TRANSCEIVE) |];
    cbn [snd]; rewrite ?written_to_ToCard_receive, written_to_ReadRegister;
    exact Hpost.
Qed.

Lemma Request_exchange_run reqMode TagType backBits0 w :
  Request_exchange reqMode TagType backBits0 w
  = MFRC522_ToCard PCD_TRANSCEIVE (store TagType 0 reqMode) 1
      (store TagType 0 reqMode) backBits0
      (MFRC522_WriteRegister MFRC522_REG_BIT_FRAMING 0x07 w).2.
Proof. unfold Request_exchange. rewrite bind_run. reflexivity. Qed.

(** X7.  [MFRC522_Request] returns [MI_OK] exactly when its transceive
    returned [MI_OK] with 16 bits received, and [MI_ERR] for a
    successful transceive of any other length.  It first writes 0x07 to
    the bit-framing register (7-bit short frame), the one byte it loads
    into the FIFO is the request code, and on success the two bytes of
    the answer are the first two bytes read from the FIFO. *)
Theorem Request_ok_iff reqMode TagType backBits0 w :
  let x := Request_exchange reqMode TagType backBits0 w in
  let r := MFRC522_Request reqMode TagType backBits0 w in
  (r.1.1 = MI_OK <-> x.1.1.1 = MI_OK /\ x.1.2 = 16)
  /\ (x.1.1.1 = MI_OK -> x.1.2 <> 16 -> r.1.1 = MI_ERR)
  /\ (exists post,
        written_to MFRC522_REG_BIT_FRAMING (bus r.2)
        = written_to MFRC522_REG_BIT_FRAMING (bus w) ++ 0x07 :: post)
  /\ ((1 <= length TagType)%nat ->
      written_to MFRC522_REG_FIFO_DATA (bus r.2)
      = written_to MFRC522_REG_FIFO_DATA (bus w) ++ [u8 reqMode])
  /\ (r.1.1 = MI_OK -> (2 <= length TagType)%nat ->
      take 2 r.1.2 = last_received 2 (bus r.2)).
Proof.
  cbn zeta.
  assert (Hrun : MFRC522_Request reqMode TagType backBits0 w
    = let x := Request_exchange reqMode TagType backBits0 w in
      ((if negb (x.1.1.1 =? MI_OK) then x.1.1.1
        else if negb (x.1.2 =? 16) then MI_ERR else MI_OK, x.1.1.2), x.2)).
  { unfold MFRC522_Request. rewrite bind_run. cbn zeta.
    destruct (Request_exchange reqMode TagType backBits0 w) as [[[st b] n] w1].
    cbn [fst snd]. destruct (negb (st =? MI_OK)); [reflexivity |].
    destruct (negb (n =? 16)); reflexivity. }
  rewrite Hrun. cbn zeta. cbn [fst snd].
  split; [| split; [| split; [| split]]].
  - destruct (Z.eqb_spec (Request_exchange reqMode TagType backBits0 w).1.1.1 MI_OK)
      as [Hs|Hs]; cbn [negb].
    + destruct (Z.eqb_spec (Request_exchange reqMode TagType backBits0 w).1.2 16)
        as [Hb|Hb]; cbn [negb]; split; auto; try discriminate.
      intros [_ ?]; contradiction.
    + split; [intros; contradiction | intros [? _]; contradiction].
  - intros Hs Hb. rewrite Hs. change (negb (MI_OK =? MI_OK)) with false. cbv iota.
    rewrite (neq_eqb_false _ _ Hb). reflexivity.
  - rewrite Request_exchange_run.
    destruct (written_to_ToCard_grows MFRC522_REG_BIT_FRAMING PCD_TRANSCEIVE
                (store TagType 0 reqMode) 1 (store TagType 0 reqMode) backBits0
                (MFRC522_WriteRegister MFRC522_REG_BIT_FRAMING 7 w).2)
      as (post & ->).
    exists post. rewrite written_to_WriteRegister, Z.eqb_refl, <- app_assoc.
    reflexivity.
  - intros Hlen. rewrite Request_exchange_run.
    rewrite written_to_ToCard by (left; reflexivity).
    change (MFRC522_REG_FIFO_DATA =? MFRC522_REG_FIFO_DATA) with true. cbv iota.
    rewrite written_to_WriteRegister. wframe_cmp. cbv iota. rewrite app_nil_r.
    change (Z.to_nat (u8 1)) with 1%nat. cbn [seq map].
    rewrite load_store_eq by lia. reflexivity.
  - intros Hr Hlen.
    destruct (Z.eqb_spec (Request_exchange reqMode TagType backBits0 w).1.1.1 MI_OK)
      as [Hs|Hs]; cbn [negb] in Hr; [| contradiction].
    destruct (Z.eqb_spec (Request_exchange reqMode TagType backBits0 w).1.2 16)
      as [Hb|Hb]; cbn [negb] in Hr; [| discriminate].
    revert Hs Hb. rewrite Request_exchange_run. intros Hs Hb.
    apply (ToCard_whole_bytes _ _ _ _ _ 2 Hs Hb); [lia |].
    rewrite length_store. exact Hlen.
Qed.

Lemma Read_exchange_run blockAddr recvData unLen0 w :
  Read_exchange blockAddr recvData unLen0 w
  = let buf := store (store recvData 0 PICC_READ) 1 blockAddr in
    let b := (append_CRC buf 2 w).1 in
    MFRC522_ToCard PCD_TRANSCEIVE b 4 b unLen0 (append_CRC buf 2 w).2.
Proof. unfold Read_exchange. rewrite bind_run. reflexivity. Qed.

Lemma Read_run blockAddr recvData unLen0 w :
  MFRC522_Read blockAddr recvData unLen0 w
  = let x := Read_exchange blockAddr recvData unLen0 w in
    ((if negb (x.1.1.1 =? MI_OK) || negb (x.1.2 =? 144) then MI_ERR else x.1.2,
      x.1.1.2), x.2).
Proof.
  unfold MFRC522_Read. rewrite bind_run. cbn zeta.
  destruct (Read_exchange blockAddr recvData unLen0 w) as [[[st b] n] w1].
  cbn [fst snd]. destruct (negb (st =? MI_OK) || negb (n =? 144)); reflexivity.
Qed.

(** X8.  [MFRC522_Read] returns 144, the received bit count, exactly
    when its transceive returned [MI_OK] with 144 bits, and [MI_ERR]
    otherwise: it never returns [MI_OK].  On success 16 bytes were read
    from the FIFO (the two CRC bytes of the card's 18-byte answer are
    left there unread) and they are the first 16 bytes of
    [recvData]. *)
Theorem Read_result blockAddr recvData unLen0 w :
  let x := Read_exchange blockAddr recvData unLen0 w in
  let r := MFRC522_Read blockAddr recvData unLen0 w in
  (r.1.1 = 144 <-> x.1.1.1 = MI_OK /\ x.1.2 = 144)
  /\ (r.1.1 <> 144 -> r.1.1 = MI_ERR)
  /\ r.1.1 <> MI_OK
  /\ (r.1.1 = 144 ->
      reads_of MFRC522_REG_FIFO_DATA (bus r.2)
      = (reads_of MFRC522_REG_FIFO_DATA (bus w) + 16)%nat)
  /\ (r.1.1 = 144 -> (16 <= length recvData)%nat ->
      take 16 r.1.2 = last_received 16 (bus r.2)).
Proof.
  cbn zeta. rewrite Read_run. cbn zeta. cbn [fst snd].
  assert (Hinv : (if negb ((Read_exchange blockAddr recvData unLen0 w).1.1.1 =? MI_OK)
                     || negb ((Read_exchange blockAddr recvData unLen0 w).1.2 =? 144)
                  then MI_ERR else (Read_exchange blockAddr recvData unLen0 w).1.2)
                 = 144 ->
                 (Read_exchange blockAddr recvData unLen0 w).1.1.1 = MI_OK
                 /\ (Read_exchange blockAddr recvData unLen0 w).1.2 = 144).
  { destruct (Z.eqb_spec (Read_exchange blockAddr recvData unLen0 w).1.1.1 MI_OK);
      cbn [negb orb]; [| discriminate].
    destruct (Z.eqb_spec (Read_exchange blockAddr recvData unLen0 w).1.2 144);
      cbn [negb]; [auto | discriminate]. }
  split; [| split; [| split; [| split]]].
  - split; [exact Hinv |]. intros [-> ->]. reflexivity.
  - destruct (negb _ || negb _) eqn:E; [reflexivity |].
    apply orb_false_elim in E. destruct E as [_ E].
    apply negb_false_iff, Z.eqb_eq in E. intros Hne. contradiction.
  - destruct (negb _ || negb _) eqn:E; [discriminate |].
    apply orb_false_elim in E. destruct E as [_ E].
    apply negb_false_iff, Z.eqb_eq in E. rewrite E. discriminate.
  - intros Hr. destruct (Hinv Hr) as [Hs Hb]. revert Hs Hb.
    rewrite Read_exchange_run. cbn zeta. intros Hs Hb.
    destruct (ToCard_whole_bytes _ _ _ _ _ 18 Hs Hb) as [Hreads _]; [lia |].
    rewrite Hreads, reads_of_fifo_append_CRC. reflexivity.
  - intros Hr Hlen. destruct (Hinv Hr) as [Hs Hb]. revert Hs Hb.
    rewrite Read_exchange_run. cbn zeta. intros Hs Hb.
    destruct (ToCard_whole_bytes _ _ _ _ _ 18 Hs Hb) as [_ Hdata]; [lia |].
    apply Hdata. change (Z.to_nat (Z.min 16 18)) with 16%nat.
    rewrite length_append_CRC; rewrite !length_store; lia.
Qed.

(** X9.  The frame of [MFRC522_Read]: the FIFO gets the read command
    and the block address for the CRC unit, then the same two bytes
    followed by the CRC result, low byte first; the command register
    gets "calculate CRC", "idle", "transceive". *)
Theorem Read_frame blockAddr recvData unLen0 w :
  let w' := (MFRC522_Read blockAddr recvData unLen0 w).2 in
  let crc := CRC_result (store (store recvData 0 PICC_READ) 1 blockAddr) 2 w in
  (4 <= length recvData)%nat ->
  written_to MFRC522_REG_FIFO_DATA (bus w')
  = written_to MFRC522_REG_FIFO_DATA (bus w)
    ++ [PICC_READ; u8 blockAddr] ++ [PICC_READ; u8 blockAddr; crc.1; crc.2]
  /\ written_to MFRC522_REG_COMMAND (bus w')
     = written_to MFRC522_REG_COMMAND (bus w)
       ++ [PCD_CALCCRC; PCD_IDLE; PCD_TRANSCEIVE].
Proof.
  cbn zeta. intros Hlen. rewrite Read_run. cbn zeta. cbn [snd].
  rewrite Read_exchange_run. cbn zeta.
  destruct (framed_exchange_wire (store (store recvData 0 PICC_READ) 1 blockAddr)
              2 4 unLen0 w) as [Hfifo Hcmd];
    [rewrite !length_store; lia | reflexivity | reflexivity |].
  cbn zeta in Hfifo, Hcmd. split; [| exact Hcmd].
  rewrite Hfifo. cbn [seq map].
  rewrite load_store_ne by lia. rewrite !load_store_eq by (rewrite ?length_store; lia).
  reflexivity.
Qed.

(** *** Select, authenticate, write, halt *)

Lemma length_ToCard command sendData sendLen backData backLen0 w :
  length (MFRC522_ToCard command sendData sendLen backData backLen0 w).1.1.2
  = length backData.
Proof.
  rewrite ToCard_run. cbn zeta.
  destruct (ToCard_poll_exit command sendData sendLen w).1 as [|i]; cbn [fst snd];
    [reflexivity |].
  destruct (Z.land _ 27 =? 0); cbn [fst snd]; [| reflexivity].
  destruct (command =? PCD_TRANSCEIVE); cbn [fst snd]; [| reflexivity].
  apply ToCard_receive_frame.
Qed.

Lemma ToCard_error_keeps command sendData sendLen backData backLen0 w :
  (MFRC522_ToCard command sendData sendLen backData backLen0 w).1.1.1 = MI_ERR ->
  (MFRC522_ToCard command sendData sendLen backData backLen0 w).1.1.2 = backData
  /\ (MFRC522_ToCard command sendData sendLen backData backLen0 w).1.2 = backLen0.
Proof.
  rewrite ToCard_run. cbn zeta.
  destruct (ToCard_poll_exit command sendData sendLen w).1 as [|i]; cbn [fst snd];
    [auto |].
  destruct (Z.land _ 27 =? 0); cbn [fst snd]; [| auto].
  destruct (command =? PCD_TRANSCEIVE); cbn [fst snd];
    destruct (Z.land (Z.land _ _) 1 =? 0); discriminate.
Qed.

Lemma copy_bytes_S buf off src count :
  copy_bytes buf off src (S count)
  = store (copy_bytes buf off src count) (off + count) (load src count).
Proof.
  unfold copy_bytes. rewrite seq_S, foldl_app. reflexivity.
Qed.

Lemma load_copy_bytes buf off src count : forall j,
  (off + count <= length buf)%nat ->
  load (copy_bytes buf off src count) j
  = if (off <=? j)%nat && (j <? off + count)%nat
    then load src (j - off) else load buf j.
Proof.
  induction count as [|count IH]; intros j Hlen.
  - unfold copy_bytes. cbn [seq foldl].
    destruct (Nat.leb_spec off j); destruct (Nat.ltb_spec j (off + 0)%nat);
      cbn [andb]; try reflexivity. lia.
  - rewrite copy_bytes_S.
    destruct (Nat.eq_dec j (off + count)%nat) as [->|Hne].
    + rewrite load_store_eq by (rewrite length_copy_bytes; lia).
      destruct (Nat.leb_spec off (off + count)%nat); [| lia].
      destruct (Nat.ltb_spec (off + count)%nat (off + S count)%nat); [| lia].
      cbn [andb]. replace (off + count - off)%nat with count by lia.
      apply u8_small, load_range.
    + rewrite load_store_ne by lia. rewrite IH by lia.
      destruct (Nat.leb_spec off j); cbn [andb]; [| reflexivity].
      destruct (Nat.ltb_spec j (off + count)%nat);
        destruct (Nat.ltb_spec j (off + S count)%nat); try reflexivity; lia.
Qed.

Lemma map_load_copy_bytes buf src count :
  (count <= length buf)%nat ->
  map (load (copy_bytes buf 0 src count)) (seq 0 count)
  = map (load src) (seq 0 count).
Proof.
  intros Hlen. apply map_ext_in. intros j Hj. apply in_seq in Hj.
  rewrite load_copy_bytes by lia.
  destruct (Nat.leb_spec 0 j); [| lia].
  destruct (Nat.ltb_spec j (0 + count)%nat); [| lia].
  cbn [andb]. rewrite Nat.sub_0_r. reflexivity.
Qed.

Lemma SelectTag_exchange_run serNum recvBits0 w :
  SelectTag_exchange serNum recvBits0 w
  = let buf := copy_bytes (store (store (replicate 32 0) 0 PICC_SElECTTAG) 1 0x70)
                 2 serNum 5 in
    let b := (append_CRC buf 7 w).1 in
    MFRC522_ToCard PCD_TRANSCEIVE b 9 b recvBits0 (append_CRC buf 7 w).2.
Proof. unfold SelectTag_exchange. rewrite bind_run. reflexivity. Qed.

Lemma SelectTag_world serNum recvBits0 w :
  (MFRC522_SelectTag serNum recvBits0 w).2 = (SelectTag_exchange serNum recvBits0 w).2.
Proof.
  unfold MFRC522_SelectTag. rewrite bind_run.
  destruct (SelectTag_exchange serNum recvBits0 w) as [[[st b] n] w1].
  cbn [fst snd]. destruct ((st =? MI_OK) && (n =? 24)); reflexivity.
Qed.

(** X10.  The frame of [MFRC522_SelectTag]: the FIFO gets the seven
    bytes 0x93, 0x70 and the five ID bytes for the CRC unit, then the
    same seven bytes followed by the CRC result, low byte first, nine
    bytes in all. *)
Theorem SelectTag_frame serNum recvBits0 w :
  let w' := (MFRC522_SelectTag serNum recvBits0 w).2 in
  let head := [PICC_SElECTTAG; 0x70] ++ map (load serNum) (seq 0 5) in
  let crc := CRC_result
               (copy_bytes (store (store (replicate 32 0) 0 PICC_SElECTTAG) 1 0x70)
                  2 serNum 5) 7 w in
  written_to MFRC522_REG_FIFO_DATA (bus w')
  = written_to MFRC522_REG_FIFO_DATA (bus w) ++ head ++ head ++ [crc.1; crc.2]
  /\ written_to MFRC522_REG_COMMAND (bus w')
     = written_to MFRC522_REG_COMMAND (bus w)
       ++ [PCD_CALCCRC; PCD_IDLE; PCD_TRANSCEIVE].
Proof.
  cbn zeta. rewrite SelectTag_world, SelectTag_exchange_run. cbn zeta.
  set (buf := copy_bytes _ 2 serNum 5).
  assert (Hlen : length buf = 32%nat)
    by (subst buf; rewrite length_copy_bytes, !length_store; reflexivity).
  destruct (framed_exchange_wire buf 7 9 recvBits0 w) as [Hfifo Hcmd];
    [lia | reflexivity | reflexivity |].
  cbn zeta in Hfifo, Hcmd. split; [| exact Hcmd].
  rewrite Hfifo.
  assert (Hhead : map (load buf) (seq 0 7)
                  = [PICC_SElECTTAG; 0x70] ++ map (load serNum) (seq 0 5)).
  { subst buf. cbn [seq map app].
    rewrite !load_copy_bytes by (rewrite !length_store; cbn; lia).
    cbn [Nat.leb Nat.ltb Nat.add Nat.sub andb].
    rewrite load_store_ne by lia.
    rewrite !load_store_eq by (rewrite ?length_store; cbn; lia).
    reflexivity. }
  rewrite Hhead, <- !app_assoc. reflexivity.
Qed.

Lemma Auth_world authMode BlockAddr Sectorkey serNum recvBits0 w addr :
  written_to addr (bus (MFRC522_Auth authMode BlockAddr Sectorkey serNum recvBits0 w).2)
  = written_to addr
      (bus (Auth_exchange authMode BlockAddr Sectorkey serNum recvBits0 w).2).
Proof.
  unfold MFRC522_Auth. rewrite bind_run.
  destruct (Auth_exchange authMode BlockAddr Sectorkey serNum recvBits0 w)
    as [[[st b] n] w1].
  cbn [fst snd]. destruct (negb (st =? MI_OK)); [reflexivity |].
  rewrite bind_run. destruct (Z.land _ 8 =? 0); rewrite ret_run; cbn [snd];
    apply written_to_ReadRegister.
Qed.

(** X11.  The frame of [MFRC522_Auth]: the FIFO gets exactly twelve
    bytes, the mode, the block address, six key bytes and four ID
    bytes; the command register gets "idle" and "authenticate" and
    nothing else, so no CRC is computed for this frame. *)
Theorem Auth_frame authMode BlockAddr Sectorkey serNum recvBits0 w :
  let w' := (MFRC522_Auth authMode BlockAddr Sectorkey serNum recvBits0 w).2 in
  written_to MFRC522_REG_FIFO_DATA (bus w')
  = written_to MFRC522_REG_FIFO_DATA (bus w)
    ++ [u8 authMode; u8 BlockAddr]
    ++ map (load Sectorkey) (seq 0 6) ++ map (load serNum) (seq 0 4)
  /\ written_to MFRC522_REG_COMMAND (bus w')
     = written_to MFRC522_REG_COMMAND (bus w) ++ [PCD_IDLE; PCD_AUTHENT].
Proof.
  cbn zeta. rewrite !Auth_world. unfold Auth_exchange.
  split.
  - rewrite written_to_ToCard by (left; reflexivity).
    change (MFRC522_REG_FIFO_DATA =? MFRC522_REG_FIFO_DATA) with true. cbv iota.
    f_equal. change (Z.to_nat (u8 12)) with 12%nat. cbn [seq map app].
    rewrite !load_copy_bytes
      by (rewrite ?length_copy_bytes, !length_store; cbn; lia).
    cbn [Nat.leb Nat.ltb Nat.add Nat.sub andb].
    rewrite load_store_ne by lia.
    rewrite !load_store_eq by (rewrite ?length_store; cbn; lia).
    reflexivity.
  - rewrite written_to_ToCard by (right; reflexivity). reflexivity.
Qed.

Lemma Write_command_run blockAddr recvBits0 w :
  Write_command blockAddr recvBits0 w
  = let buf := store (store (replicate 18 0) 0 PICC_WRITE) 1 blockAddr in
    let b := (append_CRC buf 2 w).1 in
    MFRC522_ToCard PCD_TRANSCEIVE b 4 b recvBits0 (append_CRC buf 2 w).2.
Proof. unfold Write_command. rewrite bind_run. reflexivity. Qed.

Lemma Write_data_run buff writeData recvBits w :
  Write_data buff writeData recvBits w
  = let buf := copy_bytes buff 0 writeData 16 in
    let b := (append_CRC buf 16 w).1 in
    MFRC522_ToCard PCD_TRANSCEIVE b 18 b recvBits (append_CRC buf 16 w).2.
Proof. unfold Write_data. rewrite bind_run. reflexivity. Qed.

Lemma length_Write_command blockAddr recvBits0 w :
  length (Write_command blockAddr recvBits0 w).1.1.2 = 18%nat.
Proof.
  rewrite Write_command_run. cbn zeta. rewrite length_ToCard.
  rewrite length_append_CRC; rewrite !length_store; cbn; lia.
Qed.

Lemma Write_run blockAddr writeData recvBits0 w :
  MFRC522_Write blockAddr writeData recvBits0 w
  = let c := Write_command blockAddr recvBits0 w in
    if Write_nak c.1.1.1 c.1.1.2 c.1.2 then (Write_ERROR c.1.1.2 c.1.2, c.2)
    else
      let d := Write_data c.1.1.2 writeData c.1.2 c.2 in
      if Write_nak d.1.1.1 d.1.1.2 d.1.2 then (Write_ERROR d.1.1.2 d.1.2, d.2)
      else (MI_OK, d.2).
Proof.
  unfold MFRC522_Write. rewrite bind_run. cbn zeta.
  destruct (Write_command blockAddr recvBits0 w) as [[[st1 b1] n1] w1].
  cbn [fst snd]. destruct (Write_nak st1 b1 n1) eqn:Hnak; [reflexivity |].
  assert (Hst : (st1 =? MI_OK) = true).
  { unfold Write_nak in Hnak. destruct (st1 =? MI_OK); [reflexivity |].
    cbn in Hnak. discriminate. }
  rewrite Hst, bind_run.
  destruct (Write_data b1 writeData n1 w1) as [[[st2 b2] n2] w2].
  cbn [fst snd]. destruct (Write_nak st2 b2 n2); reflexivity.
Qed.

(** X12.  The frames of [MFRC522_Write].  The command phase loads the
    write command and block address for the CRC unit and then the same
    two bytes with the CRC result.  When that phase is refused nothing
    else is loaded; when it is acknowledged the data phase follows: the
    16 data bytes for the CRC unit, then the 16 data bytes with their
    CRC result, low byte first. *)
Theorem Write_frames blockAddr writeData recvBits0 w :
  let c := Write_command blockAddr recvBits0 w in
  let w' := (MFRC522_Write blockAddr writeData recvBits0 w).2 in
  let cmd := [PICC_WRITE; u8 blockAddr] in
  let crc1 := CRC_result (store (store (replicate 18 0) 0 PICC_WRITE) 1 blockAddr) 2 w in
  let data := map (load writeData) (seq 0 16) in
  let crc2 := CRC_result (copy_bytes c.1.1.2 0 writeData 16) 16 c.2 in
  (Write_nak c.1.1.1 c.1.1.2 c.1.2 = true ->
   written_to MFRC522_REG_FIFO_DATA (bus w')
   = written_to MFRC522_REG_FIFO_DATA (bus w) ++ cmd ++ cmd ++ [crc1.1; crc1.2])
  /\ (Write_nak c.1.1.1 c.1.1.2 c.1.2 = false ->
      written_to MFRC522_REG_FIFO_DATA (bus w')
      = written_to MFRC522_REG_FIFO_DATA (bus w) ++ cmd ++ cmd ++ [crc1.1; crc1.2]
        ++ data ++ data ++ [crc2.1; crc2.2]).
Proof.
  cbn zeta. rewrite Write_run. cbn zeta.
  assert (H1 : written_to MFRC522_REG_FIFO_DATA
                 (bus (Write_command blockAddr recvBits0 w).2)
    = written_to MFRC522_REG_FIFO_DATA (bus w)
      ++ [PICC_WRITE; u8 blockAddr] ++ [PICC_WRITE; u8 blockAddr]
      ++ [(CRC_result (store (store (replicate 18 0) 0 PICC_WRITE) 1 blockAddr) 2 w).1;
          (CRC_result (store (store (replicate 18 0) 0 PICC_WRITE) 1 blockAddr) 2 w).2]).
  { rewrite Write_command_run. cbn zeta.
    destruct (framed_exchange_wire
                (store (store (replicate 18 0) 0 PICC_WRITE) 1 blockAddr)
                2 4 recvBits0 w) as [Hfifo _];
      [rewrite !length_store; cbn; lia | reflexivity | reflexivity |].
    cbn zeta in Hfifo. rewrite Hfifo. cbn [seq map].
    rewrite load_store_ne by lia.
    rewrite !load_store_eq by (rewrite ?length_store; cbn; lia).
    reflexivity. }
  pose proof (length_Write_command blockAddr recvBits0 w) as Hlen.
  split; intros Hnak; rewrite Hnak; cbn [snd]; [exact H1 |].
  assert (H2 : written_to MFRC522_REG_FIFO_DATA
      (bus (Write_data (Write_command blockAddr recvBits0 w).1.1.2 writeData
              (Write_command blockAddr recvBits0 w).1.2
              (Write_command blockAddr recvBits0 w).2).2)
    = written_to MFRC522_REG_FIFO_DATA (bus (Write_command blockAddr recvBits0 w).2)
      ++ map (load writeData) (seq 0 16) ++ map (load writeData) (seq 0 16)
      ++ [(CRC_result (copy_bytes (Write_command blockAddr recvBits0 w).1.1.2 0
                         writeData 16) 16 (Write_command blockAddr recvBits0 w).2).1;
          (CRC_result (copy_bytes (Write_command blockAddr recvBits0 w).1.1.2 0
                         writeData 16) 16 (Write_command blockAddr recvBits0 w).2).2]).
  { rewrite Write_data_run. cbn zeta.
    destruct (framed_exchange_wire
                (copy_bytes (Write_command blockAddr recvBits0 w).1.1.2 0 writeData 16)
                16 18 (Write_command blockAddr recvBits0 w).1.2
                (Write_command blockAddr recvBits0 w).2) as [Hfifo _];
      [rewrite length_copy_bytes, Hlen; lia | reflexivity | reflexivity |].
    cbn zeta in Hfifo. rewrite Hfifo.
    rewrite map_load_copy_bytes by (rewrite Hlen; lia). reflexivity. }
  destruct (Write_nak (Write_data _ _ _ _).1.1.1 _ _); cbn [snd];
    rewrite H2, H1, <- !app_assoc; reflexivity.
Qed.

Lemma low_nibble_range x : 0 <= Z.land x 0x0F <= 15.
Proof.
  assert (E : Z.land x 15 = x mod 16)
    by (change 15 with (Z.ones 4); rewrite Z.land_ones by lia; reflexivity).
  rewrite E. pose proof (Z.mod_pos_bound x 16). lia.
Qed.

Lemma Write_ERROR_range buff recvBits :
  Write_ERROR buff recvBits = MI_ERR \/ 0 <= Write_ERROR buff recvBits <= 15.
Proof.
  unfold Write_ERROR. destruct (recvBits =? 4); [right | left; reflexivity].
  apply low_nibble_range.
Qed.

Lemma Write_command_error blockAddr writeData recvBits0 w :
  (Write_command blockAddr recvBits0 w).1.1.1 = MI_ERR ->
  (MFRC522_Write blockAddr writeData recvBits0 w).1
  = if recvBits0 =? 4 then MI_OK else MI_ERR.
Proof.
  intros Herr. rewrite Write_run. cbn zeta.
  assert (Hnak : Write_nak (Write_command blockAddr recvBits0 w).1.1.1
                   (Write_command blockAddr recvBits0 w).1.1.2
                   (Write_command blockAddr recvBits0 w).1.2 = true).
  { unfold Write_nak. rewrite Herr. reflexivity. }
  rewrite Hnak. cbn [fst]. revert Herr. rewrite Write_command_run. cbn zeta.
  intros Herr. destruct (ToCard_error_keeps _ _ _ _ _ _ Herr) as [-> ->].
  unfold Write_ERROR. destruct (recvBits0 =? 4); [| reflexivity].
  destruct (load_append_CRC
              (store (store (replicate 18 0) 0 PICC_WRITE) 1 blockAddr) 2 w)
    as (Hpre & _); [rewrite !length_store; cbn; lia |].
  cbn zeta in Hpre. rewrite Hpre by lia.
  rewrite load_store_ne by lia.
  rewrite load_store_eq by (cbn; lia). reflexivity.
Qed.

Lemma Write_data_error blockAddr writeData recvBits0 w :
  let c := Write_command blockAddr recvBits0 w in
  let d := Write_data c.1.1.2 writeData c.1.2 c.2 in
  Write_nak c.1.1.1 c.1.1.2 c.1.2 = false ->
  d.1.1.1 = MI_ERR ->
  d.1.2 = 4
  /\ load d.1.1.2 0 = load writeData 0
  /\ (MFRC522_Write blockAddr writeData recvBits0 w).1
     = Z.land (load writeData 0) 0x0F.
Proof.
  cbn zeta. intros Hack Herr.
  assert (H4 : (Write_command blockAddr recvBits0 w).1.2 = 4).
  { unfold Write_nak in Hack. apply orb_false_elim in Hack. destruct Hack as [Hack _].
    apply orb_false_elim in Hack. destruct Hack as [_ Hbits].
    apply negb_false_iff, Z.eqb_eq in Hbits. exact Hbits. }
  assert (Hkeep : (Write_data (Write_command blockAddr recvBits0 w).1.1.2 writeData
                     (Write_command blockAddr recvBits0 w).1.2
                     (Write_command blockAddr recvBits0 w).2).1.2 = 4
                  /\ load (Write_data (Write_command blockAddr recvBits0 w).1.1.2
                             writeData (Write_command blockAddr recvBits0 w).1.2
                             (Write_command blockAddr recvBits0 w).2).1.1.2 0
                     = load writeData 0).
  { revert Herr. rewrite Write_data_run. cbn zeta. intros Herr.
    destruct (ToCard_error_keeps _ _ _ _ _ _ Herr) as [-> ->].
    split; [exact H4 |].
    destruct (load_append_CRC
                (copy_bytes (Write_command blockAddr recvBits0 w).1.1.2 0 writeData 16)
                16 (Write_command blockAddr recvBits0 w).2) as (Hpre & _);
      [rewrite length_copy_bytes, length_Write_command; lia |].
    cbn zeta in Hpre. rewrite Hpre by lia.
    rewrite load_copy_bytes by (rewrite length_Write_command; lia).
    reflexivity. }
  destruct Hkeep as [Hbits Hbyte]. split; [exact Hbits |]. split; [exact Hbyte |].
  rewrite Write_run. cbn zeta. rewrite Hack.
  assert (Hnak : Write_nak
            (Write_data (Write_command blockAddr recvBits0 w).1.1.2 writeData
               (Write_command blockAddr recvBits0 w).1.2
               (Write_command blockAddr recvBits0 w).2).1.1.1
            (Write_data (Write_command blockAddr recvBits0 w).1.1.2 writeData
               (Write_command blockAddr recvBits0 w).1.2
               (Write_command blockAddr recvBits0 w).2).1.1.2
            (Write_data (Write_command blockAddr recvBits0 w).1.1.2 writeData
               (Write_command blockAddr recvBits0 w).1.2
               (Write_command blockAddr recvBits0 w).2).1.2 = true).
  { unfold Write_nak. rewrite Herr. reflexivity. }
  rewrite Hnak. cbn [fst]. unfold Write_ERROR. rewrite Hbits, Hbyte. reflexivity.
Qed.

(** X13.  [MFRC522_Write] returns [MI_OK], [MI_ERR] or a value between 1
    and 15, never [MI_NOTAGERR].  After a transceive that returned
    [MI_ERR] (time-out or chip error) nothing was received and the error
    path works on what [recvBits] and [buff[0]] held before.  In the
    command phase that is the uninitialised [recvBits] and the write
    command 0xA0: the call returns [MI_ERR] unless that value is 4, and
    then 0, that is [MI_OK].  In the data phase, after an acknowledged
    command, it is the 4 of the acknowledgement and [writeData[0]]: the
    call returns the low nibble of [writeData[0]], which is [MI_OK] for
    data that starts with such a byte. *)
Theorem Write_result blockAddr writeData recvBits0 w :
  let c := Write_command blockAddr recvBits0 w in
  let d := Write_data c.1.1.2 writeData c.1.2 c.2 in
  let r := (MFRC522_Write blockAddr writeData recvBits0 w).1 in
  (r = MI_OK \/ r = MI_ERR \/ 1 <= r <= 15)
  /\ r <> MI_NOTAGERR
  /\ (c.1.1.1 = MI_ERR -> r = if recvBits0 =? 4 then MI_OK else MI_ERR)
  /\ (Write_nak c.1.1.1 c.1.1.2 c.1.2 = false -> d.1.1.1 = MI_ERR ->
      r = Z.land (load writeData 0) 0x0F).
Proof.
  cbn zeta.
  assert (Hrange : let r := (MFRC522_Write blockAddr writeData recvBits0 w).1 in
                   r = MI_ERR \/ 0 <= r <= 15).
  { cbn zeta. rewrite Write_run. cbn zeta.
    destruct (Write_nak _ _ _); cbn [fst]; [apply Write_ERROR_range |].
    destruct (Write_nak _ _ _); cbn [fst]; [apply Write_ERROR_range |].
    right. unfold MI_OK. lia. }
  cbn zeta in Hrange. split; [| split; [| split]].
  - unfold MI_OK, MI_ERR in *. lia.
  - unfold MI_NOTAGERR, MI_ERR in *. lia.
  - apply Write_command_error.
  - intros Hack Herr.
    exact (proj2 (proj2 (Write_data_error blockAddr writeData recvBits0 w Hack Herr))).
Qed.

(** X14.  The frame of [MFRC522_Halt]: the halt command 0x50 and a zero
    byte for the CRC unit, then the same two bytes with the CRC result.
    [MFRC522_WakeUp] does exactly the same: it sends the halt frame. *)
Theorem Halt_frame unLen0 w :
  let w' := (MFRC522_Halt unLen0 w).2 in
  let crc := CRC_result (store (store (replicate 4 0) 0 PICC_HALT) 1 0) 2 w in
  written_to MFRC522_REG_FIFO_DATA (bus w')
  = written_to MFRC522_REG_FIFO_DATA (bus w)
    ++ [PICC_HALT; 0] ++ [PICC_HALT; 0; crc.1; crc.2]
  /\ written_to MFRC522_REG_COMMAND (bus w')
     = written_to MFRC522_REG_COMMAND (bus w)
       ++ [PCD_CALCCRC; PCD_IDLE; PCD_TRANSCEIVE]
  /\ MFRC522_WakeUp unLen0 w = MFRC522_Halt unLen0 w.
Proof.
  cbn zeta. split; [| split; [| reflexivity]];
    unfold MFRC522_Halt; rewrite !bind_run, ret_run; cbn [snd];
    destruct (framed_exchange_wire (store (store (replicate 4 0) 0 PICC_HALT) 1 0)
                2 4 unLen0 w) as [Hfifo Hcmd];
    try reflexivity; try (cbn; lia).
  - cbn zeta in Hfifo. rewrite Hfifo. reflexivity.
  - exact Hcmd.
Qed.

(** *** Register access and the antenna *)

Lemma frame_checks :
  forallb (fun a =>
             (frame_address (write_frame a) =? a)
             && (frame_address (read_frame a) =? a)
             && negb (Z.testbit (write_frame a) 7) && Z.testbit (read_frame a) 7
             && negb (Z.testbit (write_frame a) 0)
             && negb (Z.testbit (read_frame a) 0)
             && (read_frame a =? Z.lor (write_frame a) 0x80))
    (map Z.of_nat (seq 0 64)) = true.
Proof. vm_compute. reflexivity. Qed.

(** X15.  The address byte of the two SPI frames, for a register
    address below 64: [MFRC522_HAL_write] sends it with bit 7 clear and
    [MFRC522_HAL_read] with bit 7 set, both carry the address in bits 6
    to 1 (it can be read back from the frame) and leave bit 0 clear; the
    second byte is the value written, or 0xFF for a read, whose result
    is the second byte received, as a byte. *)
Theorem HAL_frames addr val w :
  0 <= addr < 64 ->
  (exists rx0 rx1,
      bus (MFRC522_HAL_write addr val w).2
      = Xfer (write_frame addr) (u8 val) rx0 rx1 :: bus w)
  /\ (exists rx0 rx1,
        bus (MFRC522_HAL_read addr w).2 = Xfer (read_frame addr) 0xFF rx0 rx1 :: bus w
        /\ (MFRC522_HAL_read addr w).1 = u8 rx1)
  /\ frame_address (write_frame addr) = addr
  /\ frame_address (read_frame addr) = addr
  /\ Z.testbit (write_frame addr) 7 = false
  /\ Z.testbit (read_frame addr) 7 = true
  /\ Z.testbit (write_frame addr) 0 = false
  /\ Z.testbit (read_frame addr) 0 = false.
Proof.
  intros Ha. split; [apply WriteRegister_bus |]. split; [apply ReadRegister_bus |].
  pose proof (forall_below 64 _ frame_checks addr Ha) as H. cbv beta in H.
  repeat (apply andb_prop in H; let H' := fresh "Hc" in destruct H as [H H']).
  apply Z.eqb_eq in H. apply Z.eqb_eq in Hc4. apply negb_true_iff in Hc3, Hc1, Hc0.
  repeat split; assumption.
Qed.

Lemma lor_byte a b : 0 <= a < 256 -> 0 <= b < 256 -> u8 (Z.lor a b) = Z.lor a b.
Proof.
  intros Ha Hb. unfold u8. change 256 with (2 ^ 8).
  apply Z.bits_inj'. intros n Hn.
  destruct (Z.ltb_spec n 8) as [Hlt|Hge].
  - apply Z.mod_pow2_bits_low. exact Hlt.
  - rewrite Z.mod_pow2_bits_high by lia. rewrite Z.lor_spec.
    rewrite <- (Z.mod_small a (2 ^ 8)), <- (Z.mod_small b (2 ^ 8)) by assumption.
    rewrite !Z.mod_pow2_bits_high by lia. reflexivity.
Qed.

Lemma land_byte a b : 0 <= a < 256 -> u8 (Z.land a b) = Z.land a b.
Proof.
  intros Ha. unfold u8. change 256 with (2 ^ 8).
  apply Z.bits_inj'. intros n Hn.
  destruct (Z.ltb_spec n 8) as [Hlt|Hge].
  - apply Z.mod_pow2_bits_low. exact Hlt.
  - rewrite Z.mod_pow2_bits_high by lia. rewrite Z.land_spec.
    rewrite <- (Z.mod_small a (2 ^ 8)) by assumption.
    rewrite Z.mod_pow2_bits_high by lia. reflexivity.
Qed.

(** X16.  The two read-modify-write helpers, for a byte [mask]: each is
    one read of the register followed by one write of it, and the byte
    written is the byte read with the mask bits set
    ([MFRC522_SetBitMask]) or cleared ([MFRC522_ClearBitMask]), every
    other bit unchanged. *)
Theorem BitMask_read_modify_write reg mask w :
  0 <= mask < 256 ->
  let v := (MFRC522_ReadRegister reg w).1 in
  (exists rx0 rx1 rx0' rx1' val,
      bus (MFRC522_SetBitMask reg mask w).2
      = Xfer (write_frame reg) val rx0' rx1'
          :: Xfer (read_frame reg) 0xFF rx0 rx1 :: bus w
      /\ forall n, 0 <= n -> Z.testbit val n = Z.testbit v n || Z.testbit mask n)
  /\ (exists rx0 rx1 rx0' rx1' val,
        bus (MFRC522_ClearBitMask reg mask w).2
        = Xfer (write_frame reg) val rx0' rx1'
            :: Xfer (read_frame reg) 0xFF rx0 rx1 :: bus w
        /\ forall n, 0 <= n ->
             Z.testbit val n = Z.testbit v n && negb (Z.testbit mask n)).
Proof.
  intros Hmask. cbn zeta.
  pose proof (ReadRegister_range reg w) as Hv.
  destruct (ReadRegister_bus reg w) as (rx0 & rx1 & Hb & _).
  split.
  - unfold MFRC522_SetBitMask. rewrite bind_run.
    destruct (WriteRegister_bus reg (Z.lor (MFRC522_ReadRegister reg w).1 mask)
                (MFRC522_ReadRegister reg w).2) as (rx0' & rx1' & ->).
    rewrite Hb, lor_byte by assumption.
    exists rx0, rx1, rx0', rx1', (Z.lor (MFRC522_ReadRegister reg w).1 mask).
    split; [reflexivity |]. intros n Hn. apply Z.lor_spec.
  - unfold MFRC522_ClearBitMask. rewrite bind_run.
    destruct (WriteRegister_bus reg
                (Z.land (MFRC522_ReadRegister reg w).1 (Z.lnot mask))
                (MFRC522_ReadRegister reg w).2) as (rx0' & rx1' & ->).
    rewrite Hb, land_byte by assumption.
    exists rx0, rx1, rx0', rx1',
      (Z.land (MFRC522_ReadRegister reg w).1 (Z.lnot mask)).
    split; [reflexivity |]. intros n Hn.
    rewrite Z.land_spec, Z.lnot_spec by exact Hn. reflexivity.
Qed.

Lemma transfers_WriteRegister a v w :
  transfers (bus (MFRC522_WriteRegister a v w).2) = S (transfers (bus w)).
Proof. destruct (WriteRegister_bus a v w) as (rx0 & rx1 & ->). reflexivity. Qed.

Lemma transfers_ReadRegister a w :
  transfers (bus (MFRC522_ReadRegister a w).2) = S (transfers (bus w)).
Proof. destruct (ReadRegister_bus a w) as (rx0 & rx1 & -> & _). reflexivity. Qed.

Lemma low_bits_set :
  forallb (fun r => Z.land (u8 (Z.lor r 0x03)) 0x03 =? 0x03)
    (map Z.of_nat (seq 0 256)) = true.
Proof. vm_compute. reflexivity. Qed.

(** X17.  [MFRC522_AntennaOn] reads the transmit-control register; when
    either of its two low bits is set it does nothing more (one
    transfer, no write); when both are clear it reads the register
    again and writes it back with both low bits set (three
    transfers). *)
Theorem AntennaOn_only_when_off w :
  let temp := (MFRC522_ReadRegister MFRC522_REG_TX_CONTROL w).1 in
  let w' := (MFRC522_AntennaOn w).2 in
  (Z.land temp 0x03 <> 0 ->
   written_to MFRC522_REG_TX_CONTROL (bus w')
   = written_to MFRC522_REG_TX_CONTROL (bus w)
   /\ transfers (bus w') = S (transfers (bus w)))
  /\ (Z.land temp 0x03 = 0 ->
      (exists v,
          written_to MFRC522_REG_TX_CONTROL (bus w')
          = written_to MFRC522_REG_TX_CONTROL (bus w) ++ [v]
          /\ Z.land v 0x03 = 0x03)
      /\ transfers (bus w') = S (S (S (transfers (bus w))))).
Proof.
  cbn zeta. unfold MFRC522_AntennaOn. rewrite bind_run.
  split; intros Ht.
  - rewrite (neq_eqb_false _ _ Ht), ret_run. cbn [snd].
    rewrite written_to_ReadRegister, transfers_ReadRegister. auto.
  - rewrite Ht. change (0 =? 0) with true. cbv iota. split.
    + rewrite written_to_SetBitMask, Z.eqb_refl, written_to_ReadRegister.
      eexists. split; [reflexivity |].
      match goal with
      | |- Z.land (u8 (Z.lor ?r 3)) 3 = 3 =>
          pose proof (forall_below 256 _ low_bits_set r) as H
      end.
      cbv beta in H. apply Z.eqb_eq, H, ReadRegister_range.
    + unfold MFRC522_SetBitMask. rewrite bind_run, transfers_WriteRegister,
        !transfers_ReadRegister. reflexivity.
Qed.

(** X18.  [MFRC522_CalculateCRC] on the wire: it clears the CRC
    interrupt flag (bit 2 of what it writes to the divider-interrupt
    register), flushes the FIFO (bit 7 of what it writes to the
    FIFO-level register), loads exactly the first [len] input bytes, in
    order, starts the CRC unit once, and waits for it without ever
    sleeping. *)
Theorem CalculateCRC_wire pIndata len pOutData w :
  let w' := (MFRC522_CalculateCRC pIndata len pOutData w).2 in
  written_to MFRC522_REG_FIFO_DATA (bus w')
  = written_to MFRC522_REG_FIFO_DATA (bus w)
    ++ map (load pIndata) (seq 0 (Z.to_nat (u8 len)))
  /\ written_to MFRC522_REG_COMMAND (bus w')
     = written_to MFRC522_REG_COMMAND (bus w) ++ [PCD_CALCCRC]
  /\ (exists v,
        written_to MFRC522_REG_DIV_IRQ (bus w')
        = written_to MFRC522_REG_DIV_IRQ (bus w) ++ [v]
        /\ Z.testbit v 2 = false)
  /\ (exists v,
        written_to MFRC522_REG_FIFO_LEVEL (bus w')
        = written_to MFRC522_REG_FIFO_LEVEL (bus w) ++ [v]
        /\ Z.testbit v 7 = true)
  /\ slept (bus w') = slept (bus w).
Proof.
  cbn zeta.
  split; [rewrite written_to_CalculateCRC by (left; reflexivity); reflexivity |].
  split; [rewrite written_to_CalculateCRC by (right; reflexivity); reflexivity |].
  unfold MFRC522_CalculateCRC, CalculateCRC_start.
  split; [| split].
  - wire. eexists. split; [reflexivity |].
    unfold u8. change 256 with (2 ^ 8). rewrite Z.mod_pow2_bits_low by lia.
    rewrite Z.land_spec, Z.lnot_spec by lia.
    change (Z.testbit 4 2) with true. apply andb_false_r.
  - wire. eexists. split; [reflexivity |].
    unfold u8. change 256 with (2 ^ 8). rewrite Z.mod_pow2_bits_low by lia.
    rewrite Z.lor_spec. change (Z.testbit 128 7) with true. apply orb_true_r.
  - naps. reflexivity.
Qed.

(** *** Card detection *)

Lemma slept_ToCard command sendData sendLen backData backLen0 w :
  slept (bus (MFRC522_ToCard command sendData sendLen backData backLen0 w).2)
  = slept (bus w)
    + Z.of_nat (2000 - (ToCard_poll_exit command sendData sendLen w).1)
      * (if Checking_Card w =? 0 then 20000 else 16000).
Proof.
  rewrite ToCard_run. cbn zeta.
  destruct (ToCard_poll_exit command sendData sendLen w).1 as [|i] eqn:Ei;
    cbn [snd].
  - rewrite slept_ToCard_start, Ei. reflexivity.
  - destruct (Z.land _ 27 =? 0); [destruct (command =? PCD_TRANSCEIVE) |];
      cbn [snd]; rewrite ?slept_ToCard_receive, slept_ReadRegister,
        slept_ToCard_start, Ei; reflexivity.
Qed.

Lemma written_to_status2_ToCard command sendData sendLen backData backLen0 w :
  written_to MFRC522_REG_STATUS2
    (bus (MFRC522_ToCard command sendData sendLen backData backLen0 w).2)
  = written_to MFRC522_REG_STATUS2 (bus w).
Proof.
  assert (Hstart : written_to MFRC522_REG_STATUS2
                     (bus (ToCard_polled command sendData sendLen w))
                   = written_to MFRC522_REG_STATUS2 (bus w)).
  { unfold ToCard_polled, ToCard_start.
    destruct (irq_masks command) as [irqEn waitIRq].
    destruct (command =? PCD_TRANSCEIVE); wire; reflexivity. }
  rewrite ToCard_run. cbn zeta.
  destruct (ToCard_poll_exit command sendData sendLen w).1 as [|i]; cbn [snd];
    [exact Hstart |].
  destruct (Z.land _ 27 =? 0); [destruct (command =? PCD_TRANSCEIVE) |];
    cbn [snd]; rewrite ?written_to_ToCard_receive, written_to_ReadRegister;
    exact Hstart.
Qed.

Lemma Request_world reqMode TagType backBits0 w :
  (MFRC522_Request reqMode TagType backBits0 w).2
  = (Request_exchange reqMode TagType backBits0 w).2.
Proof.
  unfold MFRC522_Request. rewrite bind_run.
  destruct (Request_exchange reqMode TagType backBits0 w) as [[[st b] n] w1].
  cbn [fst snd]. destruct (negb (st =? MI_OK)); [reflexivity |].
  destruct (negb (n =? 16)); reflexivity.
Qed.

Lemma Anticoll_world serNum unLen0 w :
  (MFRC522_Anticoll serNum unLen0 w).2 = (Anticoll_exchange serNum unLen0 w).2.
Proof.
  unfold MFRC522_Anticoll. rewrite bind_run.
  destruct (Anticoll_exchange serNum unLen0 w) as [[[st b] n] w1].
  cbn [fst snd]. destruct (st =? MI_OK); [| reflexivity].
  destruct (negb (serNumCheck b =? load b 4)); reflexivity.
Qed.

Lemma Check_run id backBits0 unLen0 w :
  MFRC522_Check id backBits0 unLen0 w
  = let q := Check_request id backBits0 w in
    let w0 := (set_Checking_Card 0 q.2).2 in
    if q.1.1 =? MI_OK then MFRC522_Anticoll q.1.2 unLen0 w0 else (q.1, w0).
Proof.
  unfold MFRC522_Check, Check_request. rewrite !bind_run. cbn zeta.
  destruct (MFRC522_Request PICC_CMD_WUPA id backBits0 _) as [[st b] w1].
  cbn [fst snd]. rewrite bind_run. destruct (st =? MI_OK); reflexivity.
Qed.

(** X19.  [MFRC522_Check]: it first clears the crypto bit (bit 3 of
    what it writes to the status-2 register); its request polls with
    16 ms sleeps, at most 2000 of them; when the request fails its
    status is returned and no anti-collision is attempted, otherwise the
    result is that of [MFRC522_Anticoll]; and in every case
    [Checking_Card] is 0 afterwards. *)
Theorem Check_sequence id backBits0 unLen0 w :
  let q := Check_request id backBits0 w in
  let w0 := (set_Checking_Card 0 q.2).2 in
  let r := MFRC522_Check id backBits0 unLen0 w in
  Checking_Card r.2 = 0
  /\ (q.1.1 <> MI_OK -> r = (q.1, w0))
  /\ (q.1.1 = MI_OK -> r = MFRC522_Anticoll q.1.2 unLen0 w0)
  /\ (exists n, (n <= 2000)%nat
                /\ slept (bus q.2) = slept (bus w) + Z.of_nat n * 16000)
  /\ (exists v,
        written_to MFRC522_REG_STATUS2 (bus q.2)
        = written_to MFRC522_REG_STATUS2 (bus w) ++ [v]
        /\ Z.testbit v 3 = false).
Proof.
  cbn zeta. rewrite Check_run. cbn zeta.
  split; [| split; [| split; [| split]]].
  - destruct (_ =? MI_OK); cbn [snd]; [| reflexivity].
    rewrite Anticoll_world, Anticoll_exchange_run, flag_ToCard, flag_WriteRegister.
    reflexivity.
  - intros Hs. rewrite (neq_eqb_false _ _ Hs). reflexivity.
  - intros ->. reflexivity.
  - unfold Check_request. rewrite Request_world, Request_exchange_run.
    rewrite slept_ToCard, flag_WriteRegister, slept_WriteRegister.
    cbn [set_Checking_Card snd Checking_Card bus]. rewrite slept_ClearBitMask.
    change (1 =? 0) with false. cbv iota. eexists. split; [| reflexivity]. lia.
  - unfold Check_request. rewrite Request_world, Request_exchange_run.
    rewrite written_to_status2_ToCard, written_to_WriteRegister.
    wframe_cmp. cbv iota. rewrite app_nil_r.
    cbn [set_Checking_Card snd bus]. rewrite written_to_ClearBitMask, Z.eqb_refl.
    eexists. split; [reflexivity |].
    unfold u8. change 256 with (2 ^ 8). rewrite Z.mod_pow2_bits_low by lia.
    rewrite Z.land_spec, Z.lnot_spec by lia.
    change (Z.testbit (Z.shiftl 1 3) 3) with true. apply andb_false_r.
Qed.

(** *** Initialisation *)

(** X20.  The self-test of [MFRC522_Setup]: after the three wiringPi
    calls, the reset command and a 200 ms sleep it writes 0x3E to the
    timer prescaler and reads it back.  When the byte read differs it
    returns -1 at once: three transfers in all, the antenna register
    never written.  When it is 0x3E it returns 0.  The reset is the
    only write to the command register and the 200 ms the only sleep,
    either way. *)
Theorem Setup_self_test Type_ (b : Board dev) :
  let r := MFRC522_Setup Type_ b in
  let test := Setup_readback (world b) in
  (test <> 0x3E ->
   r.1 = -1
   /\ transfers (bus (world r.2)) = S (S (S (transfers (bus (world b)))))
   /\ written_to MFRC522_REG_TX_CONTROL (bus (world r.2))
      = written_to MFRC522_REG_TX_CONTROL (bus (world b)))
  /\ (test = 0x3E -> r.1 = 0)
  /\ gpio r.2 = DigitalWrite 6 1 :: PinMode 6 1 :: WiringPiSetup :: gpio b
  /\ written_to MFRC522_REG_COMMAND (bus (world r.2))
     = written_to MFRC522_REG_COMMAND (bus (world b)) ++ [PCD_RESETPHASE]
  /\ slept (bus (world r.2)) = slept (bus (world b)) + 200000.
Proof.
  cbn zeta. unfold MFRC522_Setup, Setup_readback. cbn [fst snd world gpio].
  unfold Setup_registers, MFRC522_Reset. rewrite !bind_run.
  set (w3 := (MFRC522_ReadRegister MFRC522_REG_T_PRESCALER _).2).
  set (test := (MFRC522_ReadRegister MFRC522_REG_T_PRESCALER _).1).
  assert (Ht : transfers (bus w3) = S (S (S (transfers (bus (world b)))))).
  { subst w3. rewrite transfers_ReadRegister, transfers_WriteRegister.
    cbn [MFRC522_HAL_Delay snd bus transfers count_events is_xfer Nat.add].
    rewrite transfers_WriteRegister. reflexivity. }
  assert (Ha : written_to MFRC522_REG_TX_CONTROL (bus w3)
               = written_to MFRC522_REG_TX_CONTROL (bus (world b))).
  { subst w3. wire. reflexivity. }
  assert (Hc : written_to MFRC522_REG_COMMAND (bus w3)
               = written_to MFRC522_REG_COMMAND (bus (world b)) ++ [PCD_RESETPHASE]).
  { subst w3. wire. reflexivity. }
  assert (Hs : slept (bus w3) = slept (bus (world b)) + 200000).
  { subst w3. naps. rewrite slept_Delay. naps. lia. }
  destruct (Z.eqb_spec test 62) as [E|E]; cbn [negb].
  - split; [intros; contradiction |]. split; [intros _ |].
    + rewrite !bind_run, ret_run. reflexivity.
    + split; [reflexivity |]. unfold MFRC522_AntennaOn.
      destruct (Type_ =? 65); split;
        wire;
        repeat match goal with
        | |- context [if ?c then _ else _] => destruct c
        end;
        wire; rewrite ?Hc, ?Hs; try reflexivity;
        naps; rewrite ?Hs; reflexivity.
  - rewrite ret_run. cbn [fst snd].
    split; [intros _; auto |]. split; [intros; contradiction |].
    split; [reflexivity |]. split; assumption.
Qed.

(** *** main.c: selecting a tag *)




(** *** mfrc522_debug.c: what is written to a block *)

Lemma copy_bytes_fresh src n :
  (n <= 16)%nat ->
  copy_bytes (replicate 16 0) 0 src n
  = map (load src) (seq 0 n) ++ replicate (16 - n) 0.
Proof.
  induction n as [|n IH]; intros Hn; [reflexivity |].
  rewrite copy_bytes_S, IH by lia. unfold store.
  rewrite insert_app_r_alt by (rewrite length_map, length_seq; lia).
  rewrite length_map, length_seq, Nat.add_0_l, Nat.sub_diag.
  replace (16 - n)%nat with (S (16 - S n)) by lia.
  cbn [replicate]. cbn [insert list_insert].
  rewrite seq_S, map_app, <- app_assoc. cbn [map app Nat.add].
  unfold load at 2. rewrite u8_idem. reflexivity.
Qed.

Lemma status_or_zero (r : Z) (w : World) :
  (if r =? MI_OK then ret 0 else ret r) w = (r, w).
Proof. destruct (Z.eqb_spec r MI_OK) as [-> |]; reflexivity. Qed.

(** X22.  [MFRC522_Debug_Write] and [MFRC522_Debug_Clean] authenticate
    with key A first.  When that fails they return -1 and nothing more
    goes over the bus.  When it succeeds on a block that is not
    protected, the result, and the bus traffic, is that of
    [MFRC522_Write] on a 16-byte block: for the write the first
    [min(len, 16)] bytes of the data followed by zeros, for the clean
    sixteen zeros. *)
Theorem Debug_Write_block CardID blockaddr Write_Data len recvBits0 w :
  let a := MFRC522_Auth PICC_AUTHENT1A (u8 blockaddr) SectorKeyA CardID recvBits0 w in
  let n := Z.to_nat (Z.min len 16) in
  let block := map (load Write_Data) (seq 0 n) ++ replicate (16 - n) 0 in
  (a.1 <> MI_OK ->
   MFRC522_Debug_Write CardID blockaddr Write_Data len recvBits0 w = (-1, a.2)
   /\ MFRC522_Debug_Clean CardID blockaddr recvBits0 w = (-1, a.2))
  /\ (a.1 = MI_OK -> control_block blockaddr = false ->
      MFRC522_Debug_Write CardID blockaddr Write_Data len recvBits0 w
      = MFRC522_Write (u8 blockaddr) block recvBits0 a.2
      /\ MFRC522_Debug_Clean CardID blockaddr recvBits0 w
         = MFRC522_Write (u8 blockaddr) (replicate 16 0) recvBits0 a.2)
  /\ length block = 16%nat.
Proof.
  cbn zeta. unfold MFRC522_Debug_Write, MFRC522_Debug_Clean. rewrite !bind_run.
  destruct (MFRC522_Auth PICC_AUTHENT1A (u8 blockaddr) SectorKeyA CardID recvBits0 w)
    as [r w1].
  cbn [fst snd]. split; [| split].
  - intros Hr. rewrite (neq_eqb_false _ _ Hr). split; reflexivity.
  - intros -> Hc. rewrite Z.eqb_refl. cbn zeta. rewrite Hc, !bind_run.
    rewrite !status_or_zero, copy_bytes_fresh.
    + replace (if len <=? 16 then len else 16) with (Z.min len 16)
        by (destruct (Z.leb_spec len 16); lia).
      split.
      * destruct (MFRC522_Write (u8 blockaddr) _ recvBits0 w1); reflexivity.
      * destruct (MFRC522_Write (u8 blockaddr) _ recvBits0 w1); reflexivity.
    + destruct (Z.leb_spec len 16); lia.
  - rewrite length_app, length_map, length_seq, length_replicate. lia.
Qed.

(** *** mfrc522_debug.c: the dumps *)

Lemma Read_bus blockAddr recvData unLen0 w :
  (4 <= length recvData)%nat ->
  let r := MFRC522_Read blockAddr recvData unLen0 w in
  let crc := CRC_result (store (store recvData 0 PICC_READ) 1 blockAddr) 2 w in
  length r.1.2 = length recvData
  /\ written_to MFRC522_REG_FIFO_DATA (bus r.2)
     = written_to MFRC522_REG_FIFO_DATA (bus w) ++ read_request (u8 blockAddr) crc
  /\ written_to MFRC522_REG_COMMAND (bus r.2)
     = written_to MFRC522_REG_COMMAND (bus w)
       ++ [PCD_CALCCRC; PCD_IDLE; PCD_TRANSCEIVE].
Proof.
  intros Hlen. cbn zeta. rewrite Read_run. cbn zeta. cbn [fst snd].
  rewrite Read_exchange_run. cbn zeta.
  destruct (framed_exchange_wire (store (store recvData 0 PICC_READ) 1 blockAddr)
              2 4 unLen0 w) as [Hfifo Hcmd];
    [rewrite !length_store; lia | reflexivity | reflexivity |].
  cbn zeta in Hfifo, Hcmd. split; [| split; [| exact Hcmd]].
  - rewrite length_ToCard, length_append_CRC, !length_store by
      (rewrite !length_store; lia).
    reflexivity.
  - rewrite Hfifo. cbn [seq map].
    rewrite load_store_ne by lia. rewrite !load_store_eq by (rewrite ?length_store; lia).
    reflexivity.
Qed.

Lemma DumpSector_reads_wire block_addr unLen0 count : forall i buffer w,
  length buffer = 1024%nat -> (i + count <= 4)%nat ->
  let r := DumpSector_reads block_addr buffer unLen0 i count w in
  exists crcs : list (Z * Z),
    (length crcs <= count)%nat
    /\ (r.1.1 = true -> length crcs = count)
    /\ written_to MFRC522_REG_FIFO_DATA (bus r.2)
       = written_to MFRC522_REG_FIFO_DATA (bus w)
         ++ concat (imap (fun k crc =>
                            read_request (u8 (block_addr + Z.of_nat (i + k))) crc)
                      crcs)
    /\ written_to MFRC522_REG_COMMAND (bus r.2)
       = written_to MFRC522_REG_COMMAND (bus w)
         ++ concat (replicate (length crcs) [PCD_CALCCRC; PCD_IDLE; PCD_TRANSCEIVE]).
Proof.
  induction count as [|count IH]; intros i buffer w Hlen Hi; cbn zeta.
  - exists []. cbn [DumpSector_reads]. rewrite ret_run. cbn [fst snd length imap concat replicate].
    rewrite !app_nil_r. auto.
  - cbn [DumpSector_reads]. rewrite bind_run.
    assert (Hview : (4 <= length (at_offset (i * 16) buffer))%nat)
      by (unfold at_offset; rewrite length_drop; lia).
    destruct (Read_bus (u8 (block_addr + Z.of_nat i)) (at_offset (i * 16) buffer)
                unLen0 w Hview) as (Hl & Hf & Hc).
    cbn zeta in Hl, Hf, Hc. rewrite u8_idem in Hf.
    set (crc := CRC_result _ 2 w) in Hf.
    destruct (MFRC522_Read (u8 (block_addr + Z.of_nat i)) (at_offset (i * 16) buffer)
                unLen0 w) as [[r view] w1].
    cbn [fst snd] in *.
    destruct (r <=? 0).
    + rewrite ret_run. cbn [fst snd]. exists [crc].
      cbn [length imap concat replicate]. rewrite !app_nil_r, Nat.add_0_r.
      split; [lia |]. split; [discriminate |]. split; assumption.
    + destruct (IH (S i) (splice (i * 16) buffer view) w1) as (crcs & Hle & Hall & Hf' & Hc');
        [unfold splice, at_offset in *; rewrite length_app, length_take, Hl, length_drop; lia
        | lia |].
      cbn zeta in Hall, Hf', Hc'. exists (crc :: crcs).
      cbn [length imap concat replicate]. rewrite Nat.add_0_r.
      split; [lia |]. split; [intros H; rewrite (Hall H); reflexivity |].
      split.
      * rewrite Hf', Hf, <- app_assoc. f_equal. f_equal. f_equal.
        apply imap_ext. intros k x _. cbn [compose]. do 3 f_equal. lia.
      * rewrite Hc', Hc, <- app_assoc. reflexivity.
Qed.

Lemma Auth_commands authMode BlockAddr Sectorkey serNum recvBits0 w :
  written_to MFRC522_REG_COMMAND
    (bus (MFRC522_Auth authMode BlockAddr Sectorkey serNum recvBits0 w).2)
  = written_to MFRC522_REG_COMMAND (bus w) ++ [PCD_IDLE; PCD_AUTHENT].
Proof.
  rewrite Auth_world. unfold Auth_exchange.
  rewrite written_to_ToCard by (right; reflexivity). reflexivity.
Qed.

Lemma sector_of_block a k :
  0 <= a < 256 -> 0 <= k < 4 - a mod 4 ->
  u8 (a + k) = a + k /\ (a + k) / 4 = a / 4.
Proof.
  intros Ha Hk. pose proof (Z.mod_pos_bound a 4 ltac:(lia)) as Hm.
  pose proof (Z.div_mod a 4 ltac:(lia)) as Hd.
  split.
  - unfold u8. apply Z.mod_small. lia.
  - symmetry. apply (Z.div_unique (a + k) 4 (a / 4) (a mod 4 + k)); lia.
Qed.

Lemma DumpSector_run CardID block_addr recvBits0 w :
  let a := u8 block_addr in
  let au := MFRC522_Auth PICC_AUTHENT1A a SectorKeyA CardID recvBits0 w in
  let l := DumpSector_reads a (replicate 1024 0) recvBits0 0
             (Z.to_nat (4 - a mod 4)) au.2 in
  MFRC522_Debug_DumpSector CardID block_addr recvBits0 w
  = if au.1 =? MI_OK then (if l.1.1 then 0 else -1, l.2) else (-1, au.2).
Proof.
  cbn zeta. unfold MFRC522_Debug_DumpSector. cbn zeta. rewrite bind_run.
  rewrite Z.rem_mod_nonneg by (pose proof (u8_range block_addr); lia).
  destruct (MFRC522_Auth _ _ _ _ _ w) as [r w1]. cbn [fst snd].
  destruct (r =? MI_OK); [| reflexivity].
  rewrite bind_run.
  destruct (DumpSector_reads _ _ _ _ _ w1) as [[ok buffer] w2]. cbn [fst snd].
  destruct ok; reflexivity.
Qed.

(** X23.  [MFRC522_Debug_DumpSector] returns 0 or -1, and -1 with no
    read at all when the authentication fails.  Otherwise it sends read
    requests for the blocks [block_addr], [block_addr + 1], ... in
    order, never for a block of another sector, and it returns 0 only
    when it has requested every block up to the last one of the
    sector. *)
Theorem DumpSector_reads_to_sector_end CardID block_addr recvBits0 w :
  let a := u8 block_addr in
  let au := MFRC522_Auth PICC_AUTHENT1A a SectorKeyA CardID recvBits0 w in
  let r := MFRC522_Debug_DumpSector CardID block_addr recvBits0 w in
  (r.1 = 0 \/ r.1 = -1)
  /\ (au.1 <> MI_OK -> r = (-1, au.2))
  /\ exists crcs : list (Z * Z),
      Z.of_nat (length crcs) <= 4 - a mod 4
      /\ (r.1 = 0 -> au.1 = MI_OK /\ Z.of_nat (length crcs) = 4 - a mod 4)
      /\ written_to MFRC522_REG_FIFO_DATA (bus r.2)
         = written_to MFRC522_REG_FIFO_DATA (bus au.2)
           ++ concat (imap (fun k crc => read_request (a + Z.of_nat k) crc) crcs)
      /\ (forall k, (k < length crcs)%nat -> (a + Z.of_nat k) / 4 = a / 4).
Proof.
  cbn zeta. rewrite DumpSector_run. cbn zeta.
  pose proof (u8_range block_addr) as Ha. set (a := u8 block_addr) in *.
  pose proof (Z.mod_pos_bound a 4 ltac:(lia)) as Hm.
  set (au := MFRC522_Auth PICC_AUTHENT1A a SectorKeyA CardID recvBits0 w).
  destruct (Z.eqb_spec au.1 MI_OK) as [E|E].
  - destruct (DumpSector_reads_wire a recvBits0 (Z.to_nat (4 - a mod 4)) 0
                (replicate 1024 0) au.2) as (crcs & Hle & Hall & Hf & _);
      [apply length_replicate | lia |].
    cbn zeta in Hall, Hf.
    set (l := DumpSector_reads a (replicate 1024 0) recvBits0 0 _ au.2) in *.
    cbn [fst snd].
    split; [destruct l.1.1; auto |]. split; [intros; contradiction |].
    exists crcs. split; [lia |]. split; [| split].
    + destruct l.1.1; [| discriminate]. intros _. split; [exact E |].
      rewrite Hall by reflexivity. lia.
    + rewrite Hf. do 2 f_equal. apply imap_ext. intros k x Hk.
      apply lookup_lt_Some in Hk. cbn [Nat.add].
      destruct (sector_of_block a (Z.of_nat k)) as [-> _]; [lia | lia | reflexivity].
    + intros k Hk. apply sector_of_block; lia.
  - cbn [fst snd]. split; [auto |]. split; [reflexivity |].
    exists []. cbn [length imap concat]. rewrite app_nil_r.
    split; [lia |]. split; [discriminate |]. split; [reflexivity |].
    intros k Hk. lia.
Qed.

Lemma count_occ_read_commands cmd j :
  count_occ Z.eq_dec (concat (replicate j [PCD_CALCCRC; PCD_IDLE; PCD_TRANSCEIVE])) cmd
  = (j * count_occ Z.eq_dec [PCD_CALCCRC; PCD_IDLE; PCD_TRANSCEIVE] cmd)%nat.
Proof.
  induction j as [|j IH]; [reflexivity |].
  cbn [replicate concat]. rewrite count_occ_app, IH. lia.
Qed.

Lemma DumpSector_issued CardID block_addr recvBits0 w :
  let r := MFRC522_Debug_DumpSector CardID block_addr recvBits0 w in
  (r.1 = 0 \/ r.1 = -1)
  /\ issued PCD_AUTHENT (bus r.2) = S (issued PCD_AUTHENT (bus w))
  /\ exists j,
      Z.of_nat j <= 4 - u8 block_addr mod 4
      /\ (r.1 = 0 -> Z.of_nat j = 4 - u8 block_addr mod 4)
      /\ issued PCD_TRANSCEIVE (bus r.2) = (j + issued PCD_TRANSCEIVE (bus w))%nat.
Proof.
  cbn zeta. rewrite DumpSector_run. cbn zeta.
  pose proof (u8_range block_addr) as Ha. set (a := u8 block_addr) in *.
  pose proof (Z.mod_pos_bound a 4 ltac:(lia)) as Hm.
  pose proof (Auth_commands PICC_AUTHENT1A a SectorKeyA CardID recvBits0 w) as Hau.
  set (au := MFRC522_Auth PICC_AUTHENT1A a SectorKeyA CardID recvBits0 w) in *.
  destruct (au.1 =? MI_OK).
  - destruct (DumpSector_reads_wire a recvBits0 (Z.to_nat (4 - a mod 4)) 0
                (replicate 1024 0) au.2) as (crcs & Hle & Hall & _ & Hc);
      [apply length_replicate | lia |].
    cbn zeta in Hall, Hc.
    set (l := DumpSector_reads a (replicate 1024 0) recvBits0 0 _ au.2) in *.
    cbn [fst snd]. unfold issued. rewrite Hc, Hau, !count_occ_app.
    rewrite !count_occ_read_commands.
    split; [destruct l.1.1; auto |]. split; [cbn; lia |].
    exists (length crcs). split; [lia |]. split; [| cbn; lia].
    destruct l.1.1; [| discriminate]. intros _. rewrite Hall by reflexivity. lia.
  - cbn [fst snd]. unfold issued. rewrite Hau, !count_occ_app.
    split; [auto |]. split; [cbn; lia |].
    exists 0%nat. split; [lia |]. split; [discriminate | cbn; lia].
Qed.

Lemma lor_status x y :
  (x = 0 \/ x = -1) -> (y = 0 \/ y = -1) ->
  (Z.lor x y = 0 \/ Z.lor x y = -1) /\ (Z.lor x y = 0 -> x = 0 /\ y = 0).
Proof. intros [-> | ->] [-> | ->]; cbn; split; auto; discriminate. Qed.

Lemma CardDump_loop CardID recvBits0 count : forall lo acc w,
  (lo + count <= 64)%nat -> acc = 0 \/ acc = -1 ->
  let r := for_range lo count
             (fun k ret_int =>
                bind (MFRC522_Debug_DumpSector CardID (4 * Z.of_nat k) recvBits0)
                  (fun r => ret (Z.lor ret_int r))) acc w in
  (r.1 = 0 \/ r.1 = -1)
  /\ issued PCD_AUTHENT (bus r.2) = (count + issued PCD_AUTHENT (bus w))%nat
  /\ (issued PCD_TRANSCEIVE (bus r.2) <= 4 * count + issued PCD_TRANSCEIVE (bus w))%nat
  /\ (r.1 = 0 ->
      acc = 0
      /\ issued PCD_TRANSCEIVE (bus r.2)
         = (4 * count + issued PCD_TRANSCEIVE (bus w))%nat).
Proof.
  induction count as [|count IH]; intros lo acc w Hlo Hacc; cbn zeta.
  - cbn [for_range]. rewrite ret_run. cbn [fst snd]. repeat split; auto.
  - cbn [for_range]. rewrite !bind_run, ret_run. cbn [fst snd].
    destruct (DumpSector_issued CardID (4 * Z.of_nat lo) recvBits0 w)
      as (Hr & Hau & j & Hj & Hall & Htr).
    cbn zeta in Hr, Hau, Hall, Htr.
    assert (Hb : u8 (4 * Z.of_nat lo) mod 4 = 0).
    { unfold u8. rewrite (Z.mod_small (4 * Z.of_nat lo) 256) by lia.
      rewrite Z.mul_comm. apply Z.mod_mul. lia. }
    rewrite Hb in Hj, Hall.
    destruct (MFRC522_Debug_DumpSector CardID (4 * Z.of_nat lo) recvBits0 w) as [r w1].
    cbn [fst snd] in *.
    destruct (lor_status acc r Hacc Hr) as [Hor Hzero].
    destruct (IH (S lo) (Z.lor acc r) w1 ltac:(lia) Hor) as (Hres & Hau' & Hle & Hok).
    cbn zeta in Hres, Hau', Hle, Hok.
    split; [exact Hres |]. split; [lia |]. split; [lia |].
    intros H0. destruct (Hok H0) as [Hz Heq]. destruct (Hzero Hz) as [-> ->].
    split; [reflexivity |]. specialize (Hall eq_refl). lia.
Qed.

(** X24.  [MFRC522_Debug_CardDump] returns 0 or -1.  It does not stop
    at a sector that fails: it authenticates sixteen times whatever
    happens.  It sends at most 64 read requests, and it returns 0 only
    when it has sent all 64. *)
Theorem CardDump_visits_every_sector CardID recvBits0 w :
  let r := MFRC522_Debug_CardDump CardID recvBits0 w in
  (r.1 = 0 \/ r.1 = -1)
  /\ issued PCD_AUTHENT (bus r.2) = (16 + issued PCD_AUTHENT (bus w))%nat
  /\ (issued PCD_TRANSCEIVE (bus r.2) <= 64 + issued PCD_TRANSCEIVE (bus w))%nat
  /\ (r.1 = 0 ->
      issued PCD_TRANSCEIVE (bus r.2) = (64 + issued PCD_TRANSCEIVE (bus w))%nat).
Proof.
  cbn zeta. unfold MFRC522_Debug_CardDump.
  destruct (CardDump_loop CardID recvBits0 16 0 0 w ltac:(lia) ltac:(auto))
    as (Hr & Hau & Hle & Hok).
  cbn zeta in Hr, Hau, Hle, Hok.
  split; [exact Hr |]. split; [exact Hau |]. split; [exact Hle |].
  intros H0. apply Hok. exact H0.
Qed.

(** *** Authentication *)

Lemma Auth_exchange_run authMode BlockAddr Sectorkey serNum recvBits0 w :
  let buff := [u8 authMode; u8 BlockAddr] ++ map (load Sectorkey) (seq 0 6)
              ++ map (load serNum) (seq 0 4) in
  Auth_exchange authMode BlockAddr Sectorkey serNum recvBits0 w
  = MFRC522_ToCard PCD_AUTHENT buff 12 buff recvBits0 w.
Proof.
  cbn zeta. unfold Auth_exchange. cbn zeta.
  assert (E : copy_bytes
                (copy_bytes (store (store (replicate 12 0) 0 authMode) 1 BlockAddr)
                   2 Sectorkey 6) 8 serNum 4
              = [u8 authMode; u8 BlockAddr] ++ map (load Sectorkey) (seq 0 6)
                ++ map (load serNum) (seq 0 4)).
  { unfold copy_bytes, store. cbn [seq foldl Nat.add map app replicate].
    unfold store. cbn [insert list_insert].
    rewrite !(u8_small (load _ _)) by apply load_range. reflexivity. }
  rewrite E. reflexivity.
Qed.

Lemma Auth_run authMode BlockAddr Sectorkey serNum recvBits0 w :
  MFRC522_Auth authMode BlockAddr Sectorkey serNum recvBits0 w
  = let x := MFRC522_ToCard PCD_AUTHENT
               ([u8 authMode; u8 BlockAddr] ++ map (load Sectorkey) (seq 0 6)
                ++ map (load serNum) (seq 0 4)) 12
               ([u8 authMode; u8 BlockAddr] ++ map (load Sectorkey) (seq 0 6)
                ++ map (load serNum) (seq 0 4)) recvBits0 w in
    if negb (x.1.1.1 =? MI_OK) then (MI_ERR, x.2)
    else
      let st2 := MFRC522_ReadRegister MFRC522_REG_STATUS2 x.2 in
      (if Z.land st2.1 0x08 =? 0 then MI_ERR else x.1.1.1, st2.2).
Proof.
  unfold MFRC522_Auth. rewrite bind_run, Auth_exchange_run. cbn zeta.
  destruct (MFRC522_ToCard PCD_AUTHENT _ 12 _ recvBits0 w)
    as [[[status buff] recvBits] w1].
  cbn [fst snd]. destruct (negb (status =? MI_OK)); [reflexivity |].
  rewrite bind_run. destruct (Z.land _ 8 =? 0); reflexivity.
Qed.

(** C8.  [MFRC522_Auth] runs [MFRC522_ToCard] with the authenticate
    command on the twelve-byte frame (mode, block address, six key
    bytes, four ID bytes).  It returns [MI_OK] exactly when that
    transaction returned [MI_OK] and the status-2 register, read right
    after it, has bit 3 set; in every other case it returns [MI_ERR].
    The status-2 register is read in the world the transaction left,
    with nothing in between; when the transaction did not return
    [MI_OK] the register is not read at all.  The command register gets
    "idle" and "authenticate", nothing else. *)
Theorem Auth_ok_iff authMode BlockAddr Sectorkey serNum recvBits0 w :
  let buff := [u8 authMode; u8 BlockAddr] ++ map (load Sectorkey) (seq 0 6)
              ++ map (load serNum) (seq 0 4) in
  let x := MFRC522_ToCard PCD_AUTHENT buff 12 buff recvBits0 w in
  let st2 := MFRC522_ReadRegister MFRC522_REG_STATUS2 x.2 in
  let r := MFRC522_Auth authMode BlockAddr Sectorkey serNum recvBits0 w in
  (r.1 = MI_OK <-> x.1.1.1 = MI_OK /\ Z.testbit st2.1 3 = true)
  /\ (r.1 <> MI_OK -> r.1 = MI_ERR)
  /\ (x.1.1.1 = MI_OK -> r.2 = st2.2)
  /\ (x.1.1.1 <> MI_OK -> r.1 = MI_ERR /\ r.2 = x.2)
  /\ written_to MFRC522_REG_COMMAND (bus r.2)
     = written_to MFRC522_REG_COMMAND (bus w) ++ [PCD_IDLE; PCD_AUTHENT].
Proof.
  cbn zeta. split; [| split; [| split; [| split]]]; [| | | | apply Auth_commands];
    rewrite Auth_run; cbn zeta;
    destruct (MFRC522_ToCard PCD_AUTHENT _ 12 _ recvBits0 w)
      as [[[status buff] recvBits] w1];
    cbn [fst snd];
    destruct (Z.eqb_spec status MI_OK) as [Hs|Hs]; cbn [negb fst snd].
  - destruct (Z.eqb_spec (Z.land (MFRC522_ReadRegister MFRC522_REG_STATUS2 w1).1 8) 0)
      as [E|E].
    + apply land_8_testbit in E. rewrite E.
      split; [discriminate | intros [_ ?]; discriminate].
    + assert (Hb : Z.testbit (MFRC522_ReadRegister MFRC522_REG_STATUS2 w1).1 3 = true).
      { destruct (Z.testbit _ 3) eqn:Hb; [reflexivity |].
        apply land_8_testbit in Hb. contradiction. }
      tauto.
  - split; [discriminate | intros [? _]; contradiction].
  - destruct (Z.land _ 8 =? 0); [reflexivity | intros Hne; contradiction].
  - reflexivity.
  - intros _. reflexivity.
  - intros H. contradiction.
  - intros H. contradiction.
  - intros _. split; reflexivity.
Qed.

(** *** What the protocol functions make of a failed transceive *)

Lemma ToCard_reply sendData sendLen backData backLen0 w :
  let r := MFRC522_ToCard PCD_TRANSCEIVE sendData sendLen backData backLen0 w in
  let fifoLevel := ToCard_fifo_level PCD_TRANSCEIVE sendData sendLen w in
  let lastBits := ToCard_last_bits PCD_TRANSCEIVE sendData sendLen w in
  let k := Z.to_nat (drain_count fifoLevel) in
  r.1.1.1 <> MI_ERR ->
  r.1.2 = received_bits fifoLevel lastBits
  /\ (1 <= k <= 16)%nat
  /\ ((k <= length backData)%nat -> take k r.1.1.2 = last_received k (bus r.2)).
Proof.
  cbn zeta. unfold ToCard_fifo_level, ToCard_last_bits. cbn zeta.
  rewrite ToCard_run. cbn zeta.
  destruct (ToCard_poll_exit PCD_TRANSCEIVE sendData sendLen w).1 as [|i];
    cbn [fst snd]; [intros H; contradiction |].
  destruct (Z.land _ 27 =? 0); cbn [fst snd]; [| intros H; contradiction].
  change (PCD_TRANSCEIVE =? PCD_TRANSCEIVE) with true. cbv iota. cbn [fst snd].
  intros _.
  set (w2 := (MFRC522_ReadRegister MFRC522_REG_ERROR
                (ToCard_polled PCD_TRANSCEIVE sendData sendLen w)).2).
  pose proof (drain_count_range (MFRC522_ReadRegister MFRC522_REG_FIFO_LEVEL w2).1
                (proj1 (ReadRegister_range _ _))) as Hk.
  split; [apply ToCard_receive_bits |]. split; [lia |].
  intros Hlen. destruct (ToCard_receive_data backData w2 Hlen) as [Hl ->].
  apply take_app_length'. symmetry. exact Hl.
Qed.

(** C3 (as amended).  When the transceive inside the operation did not
    return [MI_OK]: [MFRC522_Request] and [MFRC522_Anticoll] return the
    transceive status unchanged, so no-tag and error outcomes stay
    apart; [MFRC522_Auth] and [MFRC522_Read] return [MI_ERR] and
    [MFRC522_SelectTag] returns 0 whichever of the two it was.
    [MFRC522_Write] does not return the transceive status either: after
    such a transceive of its command frame, or of its data frame, it
    returns what the code after [ERROR:] makes of [recvBits] and
    [buff[0]], the low nibble of [buff[0]] if [recvBits] is 4 and
    [MI_ERR] otherwise; and after a transceive that returned
    [MI_NOTAGERR] these two are the received bit count and the first
    byte read from the FIFO.  The two transceives are the calls of
    [MFRC522_ToCard] with the transceive command on the 4-byte command
    frame and on the 18-byte data frame. *)
Theorem status_propagation reqMode TagType serNum authMode blockAddr Sectorkey
    recvData writeData junk w :
  let req := Request_exchange reqMode TagType junk w in
  let ac := Anticoll_exchange serNum junk w in
  let sel := SelectTag_exchange serNum junk w in
  let au := Auth_exchange authMode blockAddr Sectorkey serNum junk w in
  let rd := Read_exchange blockAddr recvData junk w in
  let sent1 := append_CRC (store (store (replicate 18 0) 0 PICC_WRITE) 1 blockAddr) 2 w in
  let wr := Write_command blockAddr junk w in
  let sent2 := append_CRC (copy_bytes wr.1.1.2 0 writeData 16) 16 wr.2 in
  let wd := Write_data wr.1.1.2 writeData wr.1.2 wr.2 in
  let k1 := Z.to_nat (drain_count (ToCard_fifo_level PCD_TRANSCEIVE sent1.1 4 sent1.2)) in
  let k2 := Z.to_nat (drain_count (ToCard_fifo_level PCD_TRANSCEIVE sent2.1 18 sent2.2)) in
  let r := (MFRC522_Write blockAddr writeData junk w).1 in
  (req.1.1.1 <> MI_OK ->
   (MFRC522_Request reqMode TagType junk w).1.1 = req.1.1.1)
  /\ (ac.1.1.1 <> MI_OK ->
      (MFRC522_Anticoll serNum junk w).1.1 = ac.1.1.1)
  /\ (sel.1.1.1 <> MI_OK -> (MFRC522_SelectTag serNum junk w).1 = 0)
  /\ (au.1.1.1 <> MI_OK ->
      (MFRC522_Auth authMode blockAddr Sectorkey serNum junk w).1 = MI_ERR)
  /\ (rd.1.1.1 <> MI_OK -> (MFRC522_Read blockAddr recvData junk w).1.1 = MI_ERR)
  /\ (wr.1.1.1 <> MI_OK -> r = Write_ERROR wr.1.1.2 wr.1.2)
  /\ (Write_nak wr.1.1.1 wr.1.1.2 wr.1.2 = false -> wd.1.1.1 <> MI_OK ->
      r = Write_ERROR wd.1.1.2 wd.1.2)
  /\ (wr.1.1.1 = MI_NOTAGERR ->
      wr.1.2 = received_bits (ToCard_fifo_level PCD_TRANSCEIVE sent1.1 4 sent1.2)
                 (ToCard_last_bits PCD_TRANSCEIVE sent1.1 4 sent1.2)
      /\ (1 <= k1 <= 16)%nat
      /\ take k1 wr.1.1.2 = last_received k1 (bus wr.2))
  /\ (wd.1.1.1 = MI_NOTAGERR ->
      wd.1.2 = received_bits (ToCard_fifo_level PCD_TRANSCEIVE sent2.1 18 sent2.2)
                 (ToCard_last_bits PCD_TRANSCEIVE sent2.1 18 sent2.2)
      /\ (1 <= k2 <= 16)%nat
      /\ take k2 wd.1.1.2 = last_received k2 (bus wd.2))
  /\ wr = MFRC522_ToCard PCD_TRANSCEIVE sent1.1 4 sent1.1 junk sent1.2
  /\ wd = MFRC522_ToCard PCD_TRANSCEIVE sent2.1 18 sent2.1 wr.1.2 sent2.2.
Proof.
  cbn zeta. repeat apply conj; [| | | | | | | | | apply Write_command_run
                               | apply Write_data_run].
  - unfold MFRC522_Request. rewrite bind_run.
    destruct (Request_exchange reqMode TagType junk w) as [[[st b] n] w1].
    cbn [fst snd]. intros H. rewrite (neq_eqb_false _ _ H). reflexivity.
  - unfold MFRC522_Anticoll. rewrite bind_run.
    destruct (Anticoll_exchange serNum junk w) as [[[st b] n] w1].
    cbn [fst snd]. intros H. rewrite (neq_eqb_false _ _ H). reflexivity.
  - unfold MFRC522_SelectTag. rewrite bind_run.
    destruct (SelectTag_exchange serNum junk w) as [[[st b] n] w1].
    cbn [fst snd]. intros H. rewrite (neq_eqb_false _ _ H). reflexivity.
  - unfold MFRC522_Auth. rewrite bind_run.
    destruct (Auth_exchange authMode blockAddr Sectorkey serNum junk w)
      as [[[st b] n] w1].
    cbn [fst snd]. intros H. rewrite (neq_eqb_false _ _ H). reflexivity.
  - unfold MFRC522_Read. rewrite bind_run.
    destruct (Read_exchange blockAddr recvData junk w) as [[[st b] n] w1].
    cbn [fst snd]. intros H. rewrite (neq_eqb_false _ _ H). reflexivity.
  - intros H. rewrite Write_run. cbn zeta. unfold Write_nak at 1.
    rewrite (neq_eqb_false _ _ H). reflexivity.
  - intros Hack H. rewrite Write_run. cbn zeta. rewrite Hack.
    unfold Write_nak at 1. rewrite (neq_eqb_false _ _ H). reflexivity.
  - rewrite Write_command_run. cbn zeta. intros Hno.
    destruct (ToCard_reply
                (append_CRC (store (store (replicate 18 0) 0 PICC_WRITE) 1 blockAddr)
                   2 w).1 4
                (append_CRC (store (store (replicate 18 0) 0 PICC_WRITE) 1 blockAddr)
                   2 w).1 junk
                (append_CRC (store (store (replicate 18 0) 0 PICC_WRITE) 1 blockAddr)
                   2 w).2) as (Hbits & Hk & Hdata);
      [rewrite Hno; discriminate |].
    cbn zeta in Hbits, Hk, Hdata.
    split; [exact Hbits |]. split; [exact Hk |]. apply Hdata.
    rewrite length_append_CRC; rewrite !length_store, length_replicate; lia.
  - rewrite Write_data_run. cbn zeta. intros Hno.
    destruct (ToCard_reply
                (append_CRC (copy_bytes (Write_command blockAddr junk w).1.1.2 0
                               writeData 16) 16 (Write_command blockAddr junk w).2).1
                18
                (append_CRC (copy_bytes (Write_command blockAddr junk w).1.1.2 0
                               writeData 16) 16 (Write_command blockAddr junk w).2).1
                (Write_command blockAddr junk w).1.2
                (append_CRC (copy_bytes (Write_command blockAddr junk w).1.1.2 0
                               writeData 16) 16 (Write_command blockAddr junk w).2).2)
      as (Hbits & Hk & Hdata); [rewrite Hno; discriminate |].
    cbn zeta in Hbits, Hk, Hdata.
    split; [exact Hbits |]. split; [exact Hk |]. apply Hdata.
    rewrite length_append_CRC; rewrite length_copy_bytes, length_Write_command; lia.
Qed.

End Coverage.

(** ** Concrete runs of the further properties *)

Lemma Compare_ok_iff_witness :
  ((forall j, (j < 5)%nat -> load uid j = load uid j)
   /\ MFRC522_Compare uid uid = MI_OK)
  /\ (MFRC522_Compare uid block16 <> MI_OK
      /\ MFRC522_Compare uid block16 = MI_ERR).
Proof.
  pose proof (Compare_ok_iff uid uid) as (Hiff & _ & _).
  pose proof (Compare_ok_iff uid block16) as (_ & Herr & _).
  assert (Hsame : forall j, (j < 5)%nat -> load uid j = load uid j)
    by (intros j _; reflexivity).
  assert (N : MFRC522_Compare uid block16 <> MI_OK) by (vm_compute; discriminate).
  split; [exact (conj Hsame (proj2 Hiff Hsame)) | exact (conj N (Herr N))].
Defined.

Lemma ParseType_decision_table_witness :
  (u8 0x08 = 0x08 /\ MFRC522_ParseType 0x08 = PICC_TYPE_MIFARE_1K)
  /\ (MFRC522_ParseType 0x40 = PICC_TYPE_ISO_18092
      /\ Z.testbit (u8 0x40) 6 = true /\ Z.testbit (u8 0x40) 5 = false).
Proof.
  pose proof (ParseType_decision_table 0x08) as H1.
  pose proof (ParseType_decision_table 0x40) as H2.
  cbn zeta in H1, H2.
  destruct H1 as (_ & _ & H1k & _).
  destruct H2 as (_ & _ & _ & _ & _ & _ & _ & _ & H18).
  assert (E8 : u8 0x08 = 0x08) by reflexivity.
  assert (E : MFRC522_ParseType 0x40 = PICC_TYPE_ISO_18092) by (vm_compute; reflexivity).
  split; [exact (conj E8 (proj2 H1k E8)) | exact (conj E (H18 E))].
Defined.

Lemma ToCard_result_bounds_witness :
  ((MFRC522_ToCard PCD_TRANSCEIVE reqa 1 buf18 7 w_chip_error).1.1.1 = MI_ERR
   /\ (MFRC522_ToCard PCD_TRANSCEIVE reqa 1 buf18 7 w_chip_error).1.1.2 = buf18
   /\ (MFRC522_ToCard PCD_TRANSCEIVE reqa 1 buf18 7 w_chip_error).1.2 = 7)
  /\ (PCD_AUTHENT <> PCD_TRANSCEIVE
      /\ (MFRC522_ToCard PCD_AUTHENT uid 5 buf18 7 w_auth).1.1.2 = buf18
      /\ (MFRC522_ToCard PCD_AUTHENT uid 5 buf18 7 w_auth).1.2 = 7).
Proof.
  pose proof (ToCard_result_bounds PCD_TRANSCEIVE reqa 1 buf18 7 w_chip_error) as H1.
  pose proof (ToCard_result_bounds PCD_AUTHENT uid 5 buf18 7 w_auth) as H2.
  cbn zeta in H1, H2.
  destruct H1 as (_ & _ & _ & Herr & _). destruct H2 as (_ & _ & _ & _ & Hcmd).
  assert (E : (MFRC522_ToCard PCD_TRANSCEIVE reqa 1 buf18 7 w_chip_error).1.1.1 = MI_ERR)
    by (vm_compute; reflexivity).
  assert (N : PCD_AUTHENT <> PCD_TRANSCEIVE) by discriminate.
  split; [exact (conj E (Herr E)) | exact (conj N (Hcmd N))].
Defined.

Lemma Request_ok_iff_witness :
  (((Request_exchange PICC_REQIDL buf18 0 w_answer).1.1.1 = MI_OK
    /\ (Request_exchange PICC_REQIDL buf18 0 w_answer).1.2 = 16)
   /\ (MFRC522_Request PICC_REQIDL buf18 0 w_answer).1.1 = MI_OK
   /\ take 2 (MFRC522_Request PICC_REQIDL buf18 0 w_answer).1.2
      = last_received 2 (bus (MFRC522_Request PICC_REQIDL buf18 0 w_answer).2))
  /\ ((Request_exchange PICC_REQIDL buf18 0 w_21).1.1.1 = MI_OK
      /\ (Request_exchange PICC_REQIDL buf18 0 w_21).1.2 <> 16
      /\ (MFRC522_Request PICC_REQIDL buf18 0 w_21).1.1 = MI_ERR)
  /\ ((1 <= length buf18)%nat
      /\ written_to MFRC522_REG_FIFO_DATA
           (bus (MFRC522_Request PICC_REQIDL buf18 0 w_answer).2)
         = written_to MFRC522_REG_FIFO_DATA (bus w_answer) ++ [u8 PICC_REQIDL]).
Proof.
  pose proof (Request_ok_iff PICC_REQIDL buf18 0 w_answer) as H1.
  pose proof (Request_ok_iff PICC_REQIDL buf18 0 w_21) as H2.
  cbn zeta in H1, H2.
  destruct H1 as (Hiff & _ & _ & Hfifo & Hdata). destruct H2 as (_ & Herr & _).
  assert (Hboth : (Request_exchange PICC_REQIDL buf18 0 w_answer).1.1.1 = MI_OK
                  /\ (Request_exchange PICC_REQIDL buf18 0 w_answer).1.2 = 16)
    by (vm_compute; split; reflexivity).
  assert (Hok : (Request_exchange PICC_REQIDL buf18 0 w_21).1.1.1 = MI_OK)
    by (vm_compute; reflexivity).
  assert (N : (Request_exchange PICC_REQIDL buf18 0 w_21).1.2 <> 16)
    by (vm_compute; discriminate).
  assert (L1 : (1 <= length buf18)%nat) by (vm_compute; lia).
  assert (L2 : (2 <= length buf18)%nat) by (vm_compute; lia).
  split; [| split].
  - split; [exact Hboth |]. split; [exact (proj2 Hiff Hboth) |].
    exact (Hdata (proj2 Hiff Hboth) L2).
  - split; [exact Hok |]. split; [exact N | exact (Herr Hok N)].
  - exact (conj L1 (Hfifo L1)).
Defined.

Lemma Read_result_witness :
  ((Read_exchange 4 buf18 0 w_dump).1.1.1 = MI_OK
   /\ (Read_exchange 4 buf18 0 w_dump).1.2 = 144)
  /\ (MFRC522_Read 4 buf18 0 w_dump).1.1 = 144
  /\ reads_of MFRC522_REG_FIFO_DATA (bus (MFRC522_Read 4 buf18 0 w_dump).2)
     = (reads_of MFRC522_REG_FIFO_DATA (bus w_dump) + 16)%nat
  /\ ((MFRC522_Read 4 buf18 0 w_notag).1.1 <> 144
      /\ (MFRC522_Read 4 buf18 0 w_notag).1.1 = MI_ERR).
Proof.
  pose proof (Read_result 4 buf18 0 w_dump) as H1.
  pose proof (Read_result 4 buf18 0 w_notag) as H2.
  cbn zeta in H1, H2.
  destruct H1 as (Hiff & _ & _ & Hreads & _). destruct H2 as (_ & Herr & _).
  assert (Hboth : (Read_exchange 4 buf18 0 w_dump).1.1.1 = MI_OK
                  /\ (Read_exchange 4 buf18 0 w_dump).1.2 = 144)
    by (vm_compute; split; reflexivity).
  assert (N : (MFRC522_Read 4 buf18 0 w_notag).1.1 <> 144)
    by (vm_compute; discriminate).
  split; [exact Hboth |]. split; [exact (proj2 Hiff Hboth) |].
  split; [exact (Hreads (proj2 Hiff Hboth)) | exact (conj N (Herr N))].
Defined.

Lemma Read_frame_witness :
  (4 <= length buf18)%nat
  /\ written_to MFRC522_REG_COMMAND (bus (MFRC522_Read 4 buf18 0 w_dump).2)
     = written_to MFRC522_REG_COMMAND (bus w_dump)
       ++ [PCD_CALCCRC; PCD_IDLE; PCD_TRANSCEIVE].
Proof.
  assert (L : (4 <= length buf18)%nat) by (vm_compute; lia).
  pose proof (Read_frame 4 buf18 0 w_dump) as H. cbn zeta in H.
  exact (conj L (proj2 (H L))).
Defined.

Lemma Write_frames_witness :
  (Write_nak (Write_command 4 0 w_nak1).1.1.1 (Write_command 4 0 w_nak1).1.1.2
     (Write_command 4 0 w_nak1).1.2 = true
   /\ length (written_to MFRC522_REG_FIFO_DATA
                (bus (MFRC522_Write 4 block16 0 w_nak1).2)) = 6%nat)
  /\ (Write_nak (Write_command 4 0 w_nak2).1.1.1 (Write_command 4 0 w_nak2).1.1.2
        (Write_command 4 0 w_nak2).1.2 = false
      /\ length (written_to MFRC522_REG_FIFO_DATA
                   (bus (MFRC522_Write 4 block16 0 w_nak2).2)) = 40%nat).
Proof.
  pose proof (Write_frames 4 block16 0 w_nak1) as H1.
  pose proof (Write_frames 4 block16 0 w_nak2) as H2.
  cbn zeta in H1, H2. destruct H1 as (Hnak & _). destruct H2 as (_ & Hack).
  assert (T : Write_nak (Write_command 4 0 w_nak1).1.1.1
                (Write_command 4 0 w_nak1).1.1.2 (Write_command 4 0 w_nak1).1.2 = true)
    by (vm_compute; reflexivity).
  assert (F : Write_nak (Write_command 4 0 w_nak2).1.1.1
                (Write_command 4 0 w_nak2).1.1.2 (Write_command 4 0 w_nak2).1.2 = false)
    by (vm_compute; reflexivity).
  split.
  - split; [exact T |]. rewrite (Hnak T). reflexivity.
  - split; [exact F |]. rewrite (Hack F). reflexivity.
Defined.

Lemma Write_result_witness :
  ((Write_command 4 4 w_chip_error).1.1.1 = MI_ERR
   /\ (MFRC522_Write 4 block16 4 w_chip_error).1 = MI_OK)
  /\ ((Write_command 4 0 w_chip_error).1.1.1 = MI_ERR
      /\ (MFRC522_Write 4 block16 0 w_chip_error).1 = MI_ERR)
  /\ (Write_nak (Write_command 4 0 w_data_error).1.1.1
        (Write_command 4 0 w_data_error).1.1.2
        (Write_command 4 0 w_data_error).1.2 = false
      /\ (Write_data (Write_command 4 0 w_data_error).1.1.2 block16
            (Write_command 4 0 w_data_error).1.2
            (Write_command 4 0 w_data_error).2).1.1.1 = MI_ERR
      /\ (MFRC522_Write 4 block16 0 w_data_error).1 = 7)
  /\ ((Write_data (Write_command 4 0 w_data_error).1.1.2 (replicate 16 0)
         (Write_command 4 0 w_data_error).1.2
         (Write_command 4 0 w_data_error).2).1.1.1 = MI_ERR
      /\ (MFRC522_Write 4 (replicate 16 0) 0 w_data_error).1 = MI_OK).
Proof.
  pose proof (Write_result 4 block16 4 w_chip_error) as H1.
  pose proof (Write_result 4 block16 0 w_chip_error) as H2.
  pose proof (Write_result 4 block16 0 w_data_error) as H3.
  pose proof (Write_result 4 (replicate 16 0) 0 w_data_error) as H4.
  cbn zeta in H1, H2, H3, H4.
  destruct H1 as (_ & _ & H1 & _). destruct H2 as (_ & _ & H2 & _).
  destruct H3 as (_ & _ & _ & H3). destruct H4 as (_ & _ & _ & H4).
  assert (E4 : (Write_command 4 4 w_chip_error).1.1.1 = MI_ERR)
    by (vm_compute; reflexivity).
  assert (E0 : (Write_command 4 0 w_chip_error).1.1.1 = MI_ERR)
    by (vm_compute; reflexivity).
  assert (A : Write_nak (Write_command 4 0 w_data_error).1.1.1
                (Write_command 4 0 w_data_error).1.1.2
                (Write_command 4 0 w_data_error).1.2 = false)
    by (vm_compute; reflexivity).
  assert (D7 : (Write_data (Write_command 4 0 w_data_error).1.1.2 block16
                  (Write_command 4 0 w_data_error).1.2
                  (Write_command 4 0 w_data_error).2).1.1.1 = MI_ERR)
    by (vm_compute; reflexivity).
  assert (D0 : (Write_data (Write_command 4 0 w_data_error).1.1.2 (replicate 16 0)
                  (Write_command 4 0 w_data_error).1.2
                  (Write_command 4 0 w_data_error).2).1.1.1 = MI_ERR)
    by (vm_compute; reflexivity).
  split; [exact (conj E4 (H1 E4)) |]. split; [exact (conj E0 (H2 E0)) |].
  split.
  - split; [exact A |]. split; [exact D7 |]. rewrite (H3 A D7). reflexivity.
  - split; [exact D0 |]. rewrite (H4 A D0). reflexivity.
Defined.

Lemma HAL_frames_witness :
  0 <= MFRC522_REG_FIFO_LEVEL < 64
  /\ frame_address (write_frame MFRC522_REG_FIFO_LEVEL) = MFRC522_REG_FIFO_LEVEL
  /\ frame_address (read_frame MFRC522_REG_FIFO_LEVEL) = MFRC522_REG_FIFO_LEVEL
  /\ Z.testbit (write_frame MFRC522_REG_FIFO_LEVEL) 7 = false
  /\ Z.testbit (read_frame MFRC522_REG_FIFO_LEVEL) 7 = true.
Proof.
  assert (R : 0 <= MFRC522_REG_FIFO_LEVEL < 64) by (unfold MFRC522_REG_FIFO_LEVEL; lia).
  destruct (HAL_frames MFRC522_REG_FIFO_LEVEL 0x80 w_answer R)
    as (_ & _ & Hw & Hr & Hw7 & Hr7 & _).
  exact (conj R (conj Hw (conj Hr (conj Hw7 Hr7)))).
Defined.

Lemma BitMask_read_modify_write_witness :
  0 <= 0x80 < 256
  /\ exists rx0 rx1 rx0' rx1' val,
      bus (MFRC522_SetBitMask MFRC522_REG_FIFO_LEVEL 0x80 w_answer).2
      = Xfer (write_frame MFRC522_REG_FIFO_LEVEL) val rx0' rx1'
          :: Xfer (read_frame MFRC522_REG_FIFO_LEVEL) 0xFF rx0 rx1 :: bus w_answer
      /\ Z.testbit val 7 = true.
Proof.
  assert (R : 0 <= 0x80 < 256) by lia.
  pose proof (BitMask_read_modify_write MFRC522_REG_FIFO_LEVEL 0x80 w_answer R) as H.
  cbn zeta in H. destruct H as ((rx0 & rx1 & rx0' & rx1' & val & Hbus & Hbits) & _).
  split; [exact R |]. exists rx0, rx1, rx0', rx1', val. split; [exact Hbus |].
  rewrite Hbits by lia. apply orb_true_r.
Defined.

Lemma AntennaOn_only_when_off_witness :
  (Z.land (MFRC522_ReadRegister MFRC522_REG_TX_CONTROL w_antenna_on).1 0x03 <> 0
   /\ transfers (bus (MFRC522_AntennaOn w_antenna_on).2)
      = S (transfers (bus w_antenna_on)))
  /\ (Z.land (MFRC522_ReadRegister MFRC522_REG_TX_CONTROL w_auth).1 0x03 = 0
      /\ transfers (bus (MFRC522_AntennaOn w_auth).2)
         = S (S (S (transfers (bus w_auth))))).
Proof.
  pose proof (AntennaOn_only_when_off w_antenna_on) as H1.
  pose proof (AntennaOn_only_when_off w_auth) as H2.
  cbn zeta in H1, H2. destruct H1 as (Hon & _). destruct H2 as (_ & Hoff).
  assert (N : Z.land (MFRC522_ReadRegister MFRC522_REG_TX_CONTROL w_antenna_on).1 0x03
              <> 0) by (vm_compute; discriminate).
  assert (E : Z.land (MFRC522_ReadRegister MFRC522_REG_TX_CONTROL w_auth).1 0x03 = 0)
    by (vm_compute; reflexivity).
  split; [exact (conj N (proj2 (Hon N))) | exact (conj E (proj2 (Hoff E)))].
Defined.

Lemma Check_sequence_witness :
  ((Check_request uid 0 w_notag).1.1 <> MI_OK
   /\ (MFRC522_Check uid 0 0 w_notag).1 = (Check_request uid 0 w_notag).1)
  /\ ((Check_request uid 0 w_present).1.1 = MI_OK
      /\ (MFRC522_Check uid 0 0 w_present).1 = (MI_OK, uid)).
Proof.
  pose proof (Check_sequence uid 0 0 w_notag) as H1.
  pose proof (Check_sequence uid 0 0 w_present) as H2.
  cbn zeta in H1, H2. destruct H1 as (_ & Hfail & _). destruct H2 as (_ & _ & Hok & _).
  assert (N : (Check_request uid 0 w_notag).1.1 <> MI_OK) by (vm_compute; discriminate).
  assert (E : (Check_request uid 0 w_present).1.1 = MI_OK) by (vm_compute; reflexivity).
  split.
  - split; [exact N |]. rewrite (Hfail N). reflexivity.
  - split; [exact E |]. rewrite (Hok E). vm_compute. reflexivity.
Defined.

Lemma Setup_self_test_witness :
  (Setup_readback (world board_dead) <> 0x3E
   /\ (MFRC522_Setup 65 board_dead).1 = -1
   /\ transfers (bus (world (MFRC522_Setup 65 board_dead).2)) = 3%nat)
  /\ (Setup_readback (world board_alive) = 0x3E
      /\ (MFRC522_Setup 65 board_alive).1 = 0).
Proof.
  pose proof (Setup_self_test 65 board_dead) as H1.
  pose proof (Setup_self_test 65 board_alive) as H2.
  cbn zeta in H1, H2. destruct H1 as (Hdead & _). destruct H2 as (_ & Halive & _).
  assert (N : Setup_readback (world board_dead) <> 0x3E) by (vm_compute; discriminate).
  assert (E : Setup_readback (world board_alive) = 0x3E) by (vm_compute; reflexivity).
  destruct (Hdead N) as (Hr & Ht & _).
  split; [| exact (conj E (Halive E))].
  split; [exact N |]. split; [exact Hr |]. rewrite Ht. reflexivity.
Defined.


Lemma Debug_Write_block_witness :
  ((MFRC522_Auth PICC_AUTHENT1A 4 SectorKeyA uid 0 w_auth_refused).1 <> MI_OK
   /\ (MFRC522_Debug_Write uid 4 [1; 2; 3] 3 0 w_auth_refused).1 = -1
   /\ (MFRC522_Debug_Clean uid 4 0 w_auth_refused).1 = -1)
  /\ ((MFRC522_Auth PICC_AUTHENT1A 4 SectorKeyA uid 0 w_auth).1 = MI_OK
      /\ control_block 4 = false
      /\ MFRC522_Debug_Write uid 4 [1; 2; 3] 3 0 w_auth
         = MFRC522_Write 4 ([1; 2; 3] ++ replicate 13 0) 0
             (MFRC522_Auth PICC_AUTHENT1A 4 SectorKeyA uid 0 w_auth).2).
Proof.
  pose proof (Debug_Write_block uid 4 [1; 2; 3] 3 0 w_auth_refused) as H1.
  pose proof (Debug_Write_block uid 4 [1; 2; 3] 3 0 w_auth) as H2.
  cbn zeta in H1, H2. destruct H1 as (Hfail & _). destruct H2 as (_ & Hok & _).
  assert (N : (MFRC522_Auth PICC_AUTHENT1A 4 SectorKeyA uid 0 w_auth_refused).1 <> MI_OK)
    by (vm_compute; discriminate).
  assert (E : (MFRC522_Auth PICC_AUTHENT1A 4 SectorKeyA uid 0 w_auth).1 = MI_OK)
    by (vm_compute; reflexivity).
  assert (C : control_block 4 = false) by (vm_compute; reflexivity).
  destruct (Hfail N) as (Hw & Hc). destruct (Hok E C) as (Hblock & _).
  split.
  - split; [exact N |]. split; [rewrite Hw; reflexivity | rewrite Hc; reflexivity].
  - split; [exact E |]. split; [exact C | exact Hblock].
Defined.

Lemma DumpSector_reads_to_sector_end_witness :
  ((MFRC522_Auth PICC_AUTHENT1A 5 SectorKeyA uid 0 w_auth_refused).1 <> MI_OK
   /\ (MFRC522_Debug_DumpSector uid 5 0 w_auth_refused).1 = -1)
  /\ ((MFRC522_Debug_DumpSector uid 5 0 w_dump).1 = 0
      /\ exists crcs : list (Z * Z),
          length crcs = 3%nat
          /\ written_to MFRC522_REG_FIFO_DATA
               (bus (MFRC522_Debug_DumpSector uid 5 0 w_dump).2)
             = written_to MFRC522_REG_FIFO_DATA
                 (bus (MFRC522_Auth PICC_AUTHENT1A 5 SectorKeyA uid 0 w_dump).2)
               ++ concat (imap (fun k crc => read_request (5 + Z.of_nat k) crc) crcs)).
Proof.
  pose proof (DumpSector_reads_to_sector_end uid 5 0 w_auth_refused) as H1.
  pose proof (DumpSector_reads_to_sector_end uid 5 0 w_dump) as H2.
  cbn zeta in H1, H2. destruct H1 as (_ & Hfail & _).
  destruct H2 as (_ & _ & crcs & _ & Hall & Hfifo & _).
  assert (N : (MFRC522_Auth PICC_AUTHENT1A 5 SectorKeyA uid 0 w_auth_refused).1 <> MI_OK)
    by (vm_compute; discriminate).
  assert (E : (MFRC522_Debug_DumpSector uid 5 0 w_dump).1 = 0)
    by (vm_compute; reflexivity).
  split.
  - split; [exact N |]. rewrite (Hfail N). reflexivity.
  - split; [exact E |]. exists crcs. split; [| exact Hfifo].
    destruct (Hall E) as [_ Hlen]. change (4 - u8 5 mod 4) with 3 in Hlen. lia.
Defined.

Lemma CardDump_visits_every_sector_witness :
  (MFRC522_Debug_CardDump uid 0 w_dump).1 = 0
  /\ issued PCD_TRANSCEIVE (bus (MFRC522_Debug_CardDump uid 0 w_dump).2)
     = (64 + issued PCD_TRANSCEIVE (bus w_dump))%nat.
Proof.
  pose proof (CardDump_visits_every_sector uid 0 w_dump) as H. cbn zeta in H.
  destruct H as (_ & _ & _ & Hall).
  assert (E : (MFRC522_Debug_CardDump uid 0 w_dump).1 = 0) by (vm_compute; reflexivity).
  exact (conj E (Hall E)).
Defined.

(** ** Concrete runs: authentication and failed transceives *)

Lemma Auth_ok_iff_witness :
  (((MFRC522_ToCard PCD_AUTHENT auth_a4 12 auth_a4 0 w_auth).1.1.1 = MI_OK
    /\ Z.testbit (MFRC522_ReadRegister MFRC522_REG_STATUS2
                    (MFRC522_ToCard PCD_AUTHENT auth_a4 12 auth_a4 0 w_auth).2).1 3
       = true)
   /\ (MFRC522_Auth PICC_AUTHENT1A 4 SectorKeyA uid 0 w_auth).1 = MI_OK)
  /\ ((MFRC522_ToCard PCD_AUTHENT auth_a4 12 auth_a4 0 w_auth_refused).1.1.1 = MI_OK
      /\ Z.testbit (MFRC522_ReadRegister MFRC522_REG_STATUS2
                      (MFRC522_ToCard PCD_AUTHENT auth_a4 12 auth_a4 0
                         w_auth_refused).2).1 3
         = false
      /\ (MFRC522_Auth PICC_AUTHENT1A 4 SectorKeyA uid 0 w_auth_refused).1 = MI_ERR)
  /\ ((MFRC522_ToCard PCD_AUTHENT auth_a4 12 auth_a4 0 w_auth_chip_error).1.1.1
      <> MI_OK
      /\ Z.testbit (MFRC522_ReadRegister MFRC522_REG_STATUS2
                      (MFRC522_ToCard PCD_AUTHENT auth_a4 12 auth_a4 0
                         w_auth_chip_error).2).1 3
         = true
      /\ (MFRC522_Auth PICC_AUTHENT1A 4 SectorKeyA uid 0 w_auth_chip_error).1 = MI_ERR
      /\ (MFRC522_Auth PICC_AUTHENT1A 4 SectorKeyA uid 0 w_auth_chip_error).2
         = (MFRC522_ToCard PCD_AUTHENT auth_a4 12 auth_a4 0 w_auth_chip_error).2).
Proof.
  assert (Ef : [u8 PICC_AUTHENT1A; u8 4] ++ map (load SectorKeyA) (seq 0 6)
               ++ map (load uid) (seq 0 4) = auth_a4) by reflexivity.
  pose proof (Auth_ok_iff PICC_AUTHENT1A 4 SectorKeyA uid 0 w_auth) as H1.
  pose proof (Auth_ok_iff PICC_AUTHENT1A 4 SectorKeyA uid 0 w_auth_refused) as H2.
  pose proof (Auth_ok_iff PICC_AUTHENT1A 4 SectorKeyA uid 0 w_auth_chip_error) as H3.
  cbn zeta in H1, H2, H3. rewrite Ef in H1, H2, H3.
  destruct H1 as (Hiff & _). destruct H2 as (Hiff' & Herr & _).
  destruct H3 as (_ & _ & _ & Hfail & _).
  assert (Hboth : (MFRC522_ToCard PCD_AUTHENT auth_a4 12 auth_a4 0 w_auth).1.1.1 = MI_OK
    /\ Z.testbit (MFRC522_ReadRegister MFRC522_REG_STATUS2
                    (MFRC522_ToCard PCD_AUTHENT auth_a4 12 auth_a4 0 w_auth).2).1 3
       = true) by (vm_compute; split; reflexivity).
  assert (Hok : (MFRC522_ToCard PCD_AUTHENT auth_a4 12 auth_a4 0 w_auth_refused).1.1.1
                = MI_OK) by (vm_compute; reflexivity).
  assert (Hbit : Z.testbit (MFRC522_ReadRegister MFRC522_REG_STATUS2
                      (MFRC522_ToCard PCD_AUTHENT auth_a4 12 auth_a4 0
                         w_auth_refused).2).1 3 = false)
    by (vm_compute; reflexivity).
  assert (N : (MFRC522_ToCard PCD_AUTHENT auth_a4 12 auth_a4 0 w_auth_chip_error).1.1.1
              <> MI_OK) by (vm_compute; discriminate).
  assert (Hset : Z.testbit (MFRC522_ReadRegister MFRC522_REG_STATUS2
                      (MFRC522_ToCard PCD_AUTHENT auth_a4 12 auth_a4 0
                         w_auth_chip_error).2).1 3 = true)
    by (vm_compute; reflexivity).
  split; [exact (conj Hboth (proj2 Hiff Hboth)) |].
  split.
  - split; [exact Hok |]. split; [exact Hbit |].
    apply Herr. intros Hst. apply Hiff' in Hst. destruct Hst as [_ Hst].
    rewrite Hbit in Hst. discriminate.
  - split; [exact N |]. split; [exact Hset |]. exact (Hfail N).
Defined.

Lemma status_propagation_witness :
  ((Request_exchange PICC_REQIDL buf18 0 w_notag).1.1.1 <> MI_OK
   /\ (MFRC522_Request PICC_REQIDL buf18 0 w_notag).1.1 = MI_NOTAGERR)
  /\ ((Request_exchange PICC_REQIDL buf18 0 w_chip_error).1.1.1 <> MI_OK
      /\ (MFRC522_Request PICC_REQIDL buf18 0 w_chip_error).1.1 = MI_ERR)
  /\ ((Anticoll_exchange uid 0 w_notag).1.1.1 <> MI_OK
      /\ (MFRC522_Anticoll uid 0 w_notag).1.1 = MI_NOTAGERR)
  /\ ((SelectTag_exchange uid 0 w_notag).1.1.1 <> MI_OK
      /\ (MFRC522_SelectTag uid 0 w_notag).1 = 0)
  /\ ((Auth_exchange PICC_AUTHENT1A 4 SectorKeyA uid 0 w_chip_error).1.1.1 <> MI_OK
      /\ (MFRC522_Auth PICC_AUTHENT1A 4 SectorKeyA uid 0 w_chip_error).1 = MI_ERR)
  /\ ((Read_exchange 4 buf18 0 w_notag).1.1.1 <> MI_OK
      /\ (MFRC522_Read 4 buf18 0 w_notag).1.1 = MI_ERR)
  /\ ((Write_command 4 0 w_notag_nibble).1.1.1 = MI_NOTAGERR
      /\ (Write_command 4 0 w_notag_nibble).1.2 = 4
      /\ take 1 (Write_command 4 0 w_notag_nibble).1.1.2 = [0x05]
      /\ last_received 1 (bus (Write_command 4 0 w_notag_nibble).2) = [0x05]
      /\ (MFRC522_Write 4 block16 0 w_notag_nibble).1 = 5)
  /\ (Write_nak (Write_command 4 0 w_data_notag).1.1.1
        (Write_command 4 0 w_data_notag).1.1.2
        (Write_command 4 0 w_data_notag).1.2 = false
      /\ (Write_data (Write_command 4 0 w_data_notag).1.1.2 block16
            (Write_command 4 0 w_data_notag).1.2
            (Write_command 4 0 w_data_notag).2).1.1.1 = MI_NOTAGERR
      /\ take 1 (Write_data (Write_command 4 0 w_data_notag).1.1.2 block16
                   (Write_command 4 0 w_data_notag).1.2
                   (Write_command 4 0 w_data_notag).2).1.1.2
         = last_received 1
             (bus (Write_data (Write_command 4 0 w_data_notag).1.1.2 block16
                     (Write_command 4 0 w_data_notag).1.2
                     (Write_command 4 0 w_data_notag).2).2)
      /\ (MFRC522_Write 4 block16 0 w_data_notag).1 = 5).
Proof.
  pose proof (status_propagation PICC_REQIDL buf18 uid PICC_AUTHENT1A 4 SectorKeyA
                buf18 block16 0 w_notag) as H1.
  pose proof (status_propagation PICC_REQIDL buf18 uid PICC_AUTHENT1A 4 SectorKeyA
                buf18 block16 0 w_chip_error) as H2.
  pose proof (status_propagation PICC_REQIDL buf18 uid PICC_AUTHENT1A 4 SectorKeyA
                buf18 block16 0 w_notag_nibble) as H3.
  pose proof (status_propagation PICC_REQIDL buf18 uid PICC_AUTHENT1A 4 SectorKeyA
                buf18 block16 0 w_data_notag) as H4.
  cbn zeta in H1, H2, H3, H4.
  destruct H1 as (Hreq & Hac & Hsel & _ & Hrd & _).
  destruct H2 as (Hreq' & _ & _ & Hau & _).
  destruct H3 as (_ & _ & _ & _ & _ & Hwr & _ & Hno1 & _).
  destruct H4 as (_ & _ & _ & _ & _ & _ & Hwd & _ & Hno2 & _).
  assert (N1 : (Request_exchange PICC_REQIDL buf18 0 w_notag).1.1.1 <> MI_OK)
    by (vm_compute; discriminate).
  assert (N2 : (Request_exchange PICC_REQIDL buf18 0 w_chip_error).1.1.1 <> MI_OK)
    by (vm_compute; discriminate).
  assert (N3 : (Anticoll_exchange uid 0 w_notag).1.1.1 <> MI_OK)
    by (vm_compute; discriminate).
  assert (N4 : (SelectTag_exchange uid 0 w_notag).1.1.1 <> MI_OK)
    by (vm_compute; discriminate).
  assert (N5 : (Auth_exchange PICC_AUTHENT1A 4 SectorKeyA uid 0 w_chip_error).1.1.1
               <> MI_OK) by (vm_compute; discriminate).
  assert (N6 : (Read_exchange 4 buf18 0 w_notag).1.1.1 <> MI_OK)
    by (vm_compute; discriminate).
  assert (T1 : (Write_command 4 0 w_notag_nibble).1.1.1 = MI_NOTAGERR)
    by (vm_compute; reflexivity).
  assert (N7 : (Write_command 4 0 w_notag_nibble).1.1.1 <> MI_OK)
    by (rewrite T1; discriminate).
  assert (A : Write_nak (Write_command 4 0 w_data_notag).1.1.1
                (Write_command 4 0 w_data_notag).1.1.2
                (Write_command 4 0 w_data_notag).1.2 = false)
    by (vm_compute; reflexivity).
  assert (T2 : (Write_data (Write_command 4 0 w_data_notag).1.1.2 block16
                  (Write_command 4 0 w_data_notag).1.2
                  (Write_command 4 0 w_data_notag).2).1.1.1 = MI_NOTAGERR)
    by (vm_compute; reflexivity).
  assert (N8 : (Write_data (Write_command 4 0 w_data_notag).1.1.2 block16
                  (Write_command 4 0 w_data_notag).1.2
                  (Write_command 4 0 w_data_notag).2).1.1.1 <> MI_OK)
    by (rewrite T2; discriminate).
  destruct (Hno1 T1) as (Hbits1 & _ & Hdata1).
  destruct (Hno2 T2) as (_ & _ & Hdata2).
  match type of Hdata1 with
  | take ?k _ = _ =>
      assert (K1 : k = 1%nat) by (vm_compute; reflexivity); rewrite K1 in Hdata1
  end.
  match type of Hdata2 with
  | take ?k _ = _ =>
      assert (K2 : k = 1%nat) by (vm_compute; reflexivity); rewrite K2 in Hdata2
  end.
  split; [split; [exact N1 | rewrite (Hreq N1); vm_compute; reflexivity] |].
  split; [split; [exact N2 | rewrite (Hreq' N2); vm_compute; reflexivity] |].
  split; [split; [exact N3 | rewrite (Hac N3); vm_compute; reflexivity] |].
  split; [exact (conj N4 (Hsel N4)) |].
  split; [exact (conj N5 (Hau N5)) |].
  split; [exact (conj N6 (Hrd N6)) |].
  split.
  - split; [exact T1 |]. split; [rewrite Hbits1; vm_compute; reflexivity |].
    split; [rewrite Hdata1; vm_compute; reflexivity |].
    split; [vm_compute; reflexivity |].
    rewrite (Hwr N7). vm_compute. reflexivity.
  - split; [exact A |]. split; [exact T2 |]. split; [exact Hdata2 |].
    rewrite (Hwd A N8). vm_compute. reflexivity.
Defined.
